(** * research-to-app-trials: the open-source LLM adapters, the workflow
    definition and the entry points, embedded from the TypeScript sources.

    - [src/adapters/opensource-llm]  : [ollamaAdapter], [vllmAdapter],
      [tgiAdapter], [registerOpenSourceAdapters]
    - [src/flows/research-to-app-trial] : [researchToAppFlow]
    - CLI [main], the Express server and the Vercel [handler]. *)

From Stdlib Require Import String Ascii List Bool Arith NArith ZArith QArith Lia.
From Stdlib Require Import DecimalString Relations.
Import ListNotations.
Set Warnings "-register-all".
Close Scope Q_scope.
Local Open Scope list_scope.
Local Open Scope string_scope.

(** ** JavaScript values

    A finite number is the rational it denotes: every double is a rational,
    and the two zeros are one value, which [||], [+], ToString and
    [JSON.stringify] do not tell apart.  [NaN] and the two infinities are
    values of their own.  A string stands for the UTF-16 code units of its
    UTF-8 text, see [Js.units]. *)

Inductive JsVal : Type :=
| JUndefined
| JNull
| JBool (b : bool)
| JNum (q : Q)
| JNaN
| JInfinity (negative : bool)
| JStr (s : string)
| JArr (items : list JsVal)
| JObj (props : list (string * JsVal)).

(** What a [throw] carries: an [Error] instance (only its [message] is ever
    read) or any other value. *)
Inductive Thrown : Type :=
| ErrorObj (message : string)
| NonError (v : JsVal).

Module Js.

(** ToBoolean. *)
Definition truthy (v : JsVal) : bool :=
  match v with
  | JUndefined | JNull | JNaN => false
  | JBool b => b
  | JNum q => negb (Qeq_bool q 0)
  | JInfinity _ => true
  | JStr s => negb (s =? "")
  | JArr _ | JObj _ => true
  end.

(** [a || b]. *)
Definition or (a b : JsVal) : JsVal := if truthy a then a else b.

(** Own property of an object; a later definition of a key wins. *)
Definition lookup (props : list (string * JsVal)) (k : string) : option JsVal :=
  fold_left (fun acc p => if fst p =? k then Some (snd p) else acc) props None.

Definition of_option (o : option JsVal) : JsVal :=
  match o with Some v => v | None => JUndefined end.

Definition digits (n : nat) : string := NilZero.string_of_uint (Nat.to_uint n).

Definition cannot_read (what k : string) : Thrown :=
  ErrorObj ("Cannot read properties of " ++ what ++ " (reading '" ++ k ++ "')").

(** *** Strings as sequences of code units *)

Definition continuation (b : N) : bool := ((128 <=? b) && (b <? 192))%N.

(** The code points of a UTF-8 byte sequence; a byte that starts no
    well-formed sequence reads as U+FFFD. *)
Fixpoint code_points (bytes : list N) : list N :=
  match bytes with
  | [] => []
  | a :: rest =>
    if (a <? 128)%N then a :: code_points rest else
    match rest with
    | [] => [65533%N]
    | b :: rest1 =>
      if ((192 <=? a) && (a <? 224))%N && continuation b
      then ((a - 192) * 64 + (b - 128))%N :: code_points rest1 else
      match rest1 with
      | [] => 65533%N :: code_points rest
      | c :: rest2 =>
        if ((224 <=? a) && (a <? 240))%N && continuation b && continuation c
        then ((a - 224) * 4096 + (b - 128) * 64 + (c - 128))%N :: code_points rest2 else
        match rest2 with
        | [] => 65533%N :: code_points rest
        | d :: rest3 =>
          if ((240 <=? a) && (a <? 248))%N
             && continuation b && continuation c && continuation d
          then ((a - 240) * 262144 + (b - 128) * 4096 + (c - 128) * 64 + (d - 128))%N
               :: code_points rest3
          else 65533%N :: code_points rest
        end
      end
    end
  end.

(** A code point of the basic plane is one code unit, any other a
    surrogate pair. *)
Definition surrogates (point : N) : list N :=
  if (point <? 65536)%N then [point]
  else [(55296 + (point - 65536) / 1024)%N; (56320 + (point - 65536) mod 1024)%N].

(** The UTF-16 code units of a string, which is what [length], [slice] and
    indexing count in. *)
Definition units (s : string) : list N :=
  flat_map surrogates (code_points (map N_of_ascii (list_ascii_of_string s))).

(** The string of one code unit. *)
Definition of_unit (u : N) : string :=
  string_of_list_ascii (map ascii_of_N
    (if (u <? 128)%N then [u]
     else if (u <? 2048)%N then [(192 + u / 64)%N; (128 + u mod 64)%N]
     else [(224 + u / 4096)%N; (128 + (u / 64) mod 64)%N; (128 + u mod 64)%N])).

(** [v.k] for a key [k] that is not an array index.  None of the keys the
    adapters read is an inherited property, so primitives, arrays and
    objects without the key give [undefined]; [null] and [undefined] throw
    a TypeError. *)
Definition get (v : JsVal) (k : string) : Thrown + JsVal :=
  match v with
  | JUndefined => inl (cannot_read "undefined" k)
  | JNull => inl (cannot_read "null" k)
  | JObj props => inr (of_option (lookup props k))
  | _ => inr JUndefined
  end.

(** [v[i]] for a numeric literal [i]. *)
Definition index (v : JsVal) (i : nat) : Thrown + JsVal :=
  match v with
  | JUndefined => inl (cannot_read "undefined" (digits i))
  | JNull => inl (cannot_read "null" (digits i))
  | JArr items => inr (nth i items JUndefined)
  | JStr s => inr (match nth_error (units s) i with
                   | Some u => JStr (of_unit u)
                   | None => JUndefined
                   end)
  | JObj props => inr (of_option (lookup props (digits i)))
  | _ => inr JUndefined
  end.

Definition nullish (v : JsVal) : bool :=
  match v with JUndefined | JNull => true | _ => false end.

(** [v?.k] and [v?.[i]]: [undefined] on a nullish base, so never a throw. *)
Definition get_opt (v : JsVal) (k : string) : JsVal :=
  match get v k with inr x => x | inl _ => JUndefined end.

Definition index_opt (v : JsVal) (i : nat) : JsVal :=
  match index v i with inr x => x | inl _ => JUndefined end.

Definition is_undefined (v : JsVal) : bool :=
  match v with JUndefined => true | _ => false end.

(** The tree of the text [JSON.stringify v] writes: a property whose value
    is [undefined] is left out, an [undefined] array element becomes
    [null], and so does a number that is not finite. *)
Fixpoint stringify (v : JsVal) : JsVal :=
  match v with
  | JArr items =>
      JArr (map (fun x => if is_undefined x then JNull else stringify x) items)
  | JObj props =>
      JObj ((fix own (ps : list (string * JsVal)) : list (string * JsVal) :=
               match ps with
               | [] => []
               | (k, x) :: rest =>
                   if is_undefined x then own rest else (k, stringify x) :: own rest
               end) props)
  | JNaN | JInfinity _ => JNull
  | _ => v
  end.

Definition has_key (v : JsVal) (k : string) : bool :=
  match v with
  | JObj props => existsb (fun p => fst p =? k) props
  | _ => false
  end.

Definition keys (v : JsVal) : list string :=
  match v with
  | JObj props => map fst props
  | _ => []
  end.

(** Template-literal interpolation of an optional string. *)
Definition interpolate (o : option string) : string :=
  match o with Some s => s | None => "undefined" end.

Definition of_string (o : option string) : JsVal :=
  match o with Some s => JStr s | None => JUndefined end.

Definition of_number (o : option Q) : JsVal :=
  match o with Some q => JNum q | None => JUndefined end.

(** [a || d] on an optional string with a string default. *)
Definition or_string (o : option string) (d : string) : string :=
  match o with
  | Some s => if s =? "" then d else s
  | None => d
  end.

(** *** Conversion to a primitive value and to a string

    The values are those [JSON.parse] builds: plain objects and arrays
    whose properties are data.  ToPrimitive calls [valueOf], which gives back
    the object itself, and [toString]: [Object.prototype.toString] unless
    the object has a property [toString] of its own, which is no function,
    and [Array.prototype.toString], which joins the strings of the
    elements. *)

(** The TypeError of an object that has no primitive value. *)
Definition cannot_convert : Thrown :=
  ErrorObj "Cannot convert object to primitive value".

(** Whether ToPrimitive and ToString return for [v], rather than throw. *)
Fixpoint converts (v : JsVal) : bool :=
  match v with
  | JArr items => forallb converts items
  | JObj props => negb (existsb (fun p => fst p =? "toString") props)
  | _ => true
  end.

Section Text.

(** Number::toString of a finite number: the decimal digits it prints are
    left open. *)
Variable number_text : Q -> string.

(** ToString of a value that [converts]. *)
Fixpoint text (v : JsVal) : string :=
  match v with
  | JUndefined => "undefined"
  | JNull => "null"
  | JBool true => "true"
  | JBool false => "false"
  | JNum q => number_text q
  | JNaN => "NaN"
  | JInfinity negative => if negative then "-Infinity" else "Infinity"
  | JStr s => s
  | JArr items =>
      String.concat "," (map (fun x => if nullish x then "" else text x) items)
  | JObj _ => "[object Object]"
  end.

(** ToString, as a template literal applies it. *)
Definition to_string (v : JsVal) : Thrown + string :=
  if converts v then inr (text v) else inl cannot_convert.

End Text.

(** *** Numbers *)

(** The integer part of the binary logarithm of [a / b], for positive [a]
    and [b]. *)
Definition exponent (a b : Z) : Z :=
  let e := (Z.log2 a - Z.log2 b)%Z in
  if (a * 2 ^ Z.max 0 (- e) <? b * 2 ^ Z.max 0 e)%Z then (e - 1)%Z else e.

(** The integer nearest to [num / den], the even one of two that are
    equally near. *)
Definition nearest_even (num den : Z) : Z :=
  let f := (num / den)%Z in
  match (2 * (num mod den) ?= den)%Z with
  | Lt => f
  | Gt => (f + 1)%Z
  | Eq => if Z.even f then f else (f + 1)%Z
  end.

(** The double nearest to the rational [q], ties to the even significand:
    53 significant bits, no exponent below that of the subnormal numbers,
    and an infinity from 2^1024 on. *)
Definition double (q : Q) : JsVal :=
  let r := Qred q in
  let a := Z.abs (Qnum r) in
  let b := Zpos (Qden r) in
  if (a =? 0)%Z then JNum 0 else
  let p := Z.max (exponent a b - 52) (-1074) in
  let n := nearest_even (a * 2 ^ Z.max 0 (- p)) (b * 2 ^ Z.max 0 p) in
  if (971 <? p)%Z || ((p =? 971)%Z && (n =? 2 ^ 53)%Z)
  then JInfinity (Qnum r <? 0)%Z
  else JNum (Qred (Qmake (Z.sgn (Qnum r) * n * 2 ^ Z.max 0 p)
                         (Z.to_pos (2 ^ Z.max 0 (- p))))).

(** ToNumber of a primitive value that is no string. *)
Definition to_number (v : JsVal) : JsVal :=
  match v with
  | JUndefined => JNaN
  | JNull => JNum 0
  | JBool b => JNum (if b then 1 else 0)
  | _ => v
  end.

(** Number::add. *)
Definition add (a b : JsVal) : JsVal :=
  match a, b with
  | JNum x, JNum y => double (x + y)
  | JInfinity n, JInfinity m => if Bool.eqb n m then JInfinity n else JNaN
  | JInfinity n, JNum _ => JInfinity n
  | JNum _, JInfinity m => JInfinity m
  | _, _ => JNaN
  end.

End Js.

(** ** The network: [fetch] and [Response] *)

Module Http.

Record Request : Type := {
  url : string;
  method : string;
  headers : list (string * string);
  (** the tree of the JSON text passed as [body] *)
  body : JsVal
}.

(** [json] is what [response.json()] settles to: the parsed body, or the
    message of the SyntaxError it rejects with. *)
Record Response : Type := {
  status : nat;
  statusText : string;
  json : string + JsVal
}.

(** [response.ok]: the status is in the range 200-299. *)
Definition ok (r : Response) : bool :=
  (200 <=? status r)%nat && (status r <=? 299)%nat.

(** [fetch] rejects with a TypeError on a network failure, an [Error]
    instance of which only the message is kept. *)
Inductive FetchResult : Type :=
| Rejected (message : string)
| Resolved (r : Response).

Definition Net : Type := Request -> FetchResult.

(** Computations that may throw, talk to the network and leave a log of
    the requests they sent. *)
Definition Eff (A : Type) : Type :=
  Net -> list Request -> (Thrown + A) * list Request.

Definition ret {A} (a : A) : Eff A := fun _ log => (inr a, log).

Definition throw {A} (t : Thrown) : Eff A := fun _ log => (inl t, log).

Definition bind {A B} (m : Eff A) (k : A -> Eff B) : Eff B :=
  fun net log =>
    match m net log with
    | (inr a, log') => k a net log'
    | (inl t, log') => (inl t, log')
    end.

Definition try_catch {A} (block : Eff A) (handler : Thrown -> Eff A) : Eff A :=
  fun net log =>
    match block net log with
    | (inl t, log') => handler t net log'
    | done => done
    end.

Definition lift {A} (r : Thrown + A) : Eff A := fun _ log => (r, log).

Definition fetch (req : Request) : Eff Response :=
  fun net log =>
    (match net req with
     | Rejected m => inl (ErrorObj m)
     | Resolved r => inr r
     end, (log ++ [req])%list).

Definition response_json (r : Response) : Eff JsVal :=
  lift (match json r with
        | inl m => inl (ErrorObj m)
        | inr v => inr v
        end).

(** Run from an empty log. *)
Definition run {A} (m : Eff A) (net : Net) : (Thrown + A) * list Request :=
  m net [].

End Http.

Declare Scope eff_scope.
Delimit Scope eff_scope with eff.
Notation "x <- m ;; k" := (Http.bind m (fun x => k))
  (at level 61, m at next level, right associativity) : eff_scope.

(** ** The engine's adapter registry

    [registerLLMAdapter], [compileWorkflow] and [executeWorkflow] are
    imported from the bilko-flow package. *)

Module Engine.

Section Registry.
Variable Adapter : Type.

(** Modelled from the spec: the adapter registry of bilko-flow, a mapping
    from provider identifier to adapter implementation. *)
Definition Registry : Type := list (string * Adapter).

(** Modelled from the spec: [registerLLMAdapter] of bilko-flow, the explicit
    registration call, the only way the registry changes; a provider has one
    adapter, the one registered last. *)
Definition registerLLMAdapter (provider : string) (adapter : Adapter)
    (reg : Registry) : Registry :=
  (provider, adapter) :: filter (fun p => negb (fst p =? provider)) reg.

(** Modelled from the spec: the lookup of bilko-flow that fails with
    UnknownProviderError; [registered] says whether it would succeed. *)
Definition registered (reg : Registry) (provider : string) : bool :=
  existsb (fun p => fst p =? provider) reg.
End Registry.

Arguments registerLLMAdapter {Adapter}.
Arguments registered {Adapter}.

End Engine.

(** ** src/adapters/opensource-llm *)

Module OpenSourceLLM.
Import Http.
Local Open Scope eff_scope.

Record Message : Type := { content : option string }.

Record ResponseFormat : Type := { type : string }.

Record LLMCallOptions : Type := {
  model : string;
  messages : list Message;
  baseUrl : option string;
  apiKey : option string;
  temperature : option Q;
  maxTokens : option Q;
  responseFormat : option ResponseFormat
}.

(** [options.responseFormat?.type === 'json_object'] *)
Definition json_object_requested (options : LLMCallOptions) : bool :=
  match responseFormat options with
  | Some rf => type rf =? "json_object"
  | None => false
  end.

(** [options.messages[0]?.content || ''] *)
Definition first_content (options : LLMCallOptions) : JsVal :=
  Js.or (match messages options with
         | [] => JUndefined
         | m :: _ => Js.of_string (content m)
         end) (JStr "").

(** [error instanceof Error ? error.message : 'Unknown error'] *)
Definition message_of (error : Thrown) : string :=
  match error with
  | ErrorObj m => m
  | NonError _ => "Unknown error"
  end.

Definition LLMAdapter : Type := LLMCallOptions -> Eff JsVal.

(** *** vLLM *)

Definition vllmRequest (options : LLMCallOptions) : Request :=
  let base := Js.or_string (baseUrl options) "http://localhost:8000" in
  {| url := base ++ "/v1/completions";
     method := "POST";
     headers := [("Content-Type", "application/json");
                 ("Authorization", "Bearer " ++ Js.interpolate (apiKey options))];
     body := Js.stringify (JObj (
       ([("model", JStr (model options));
        ("prompt", first_content options);
        ("max_tokens", Js.or (Js.of_number (maxTokens options)) (JNum 2048));
        ("temperature", Js.or (Js.of_number (temperature options)) (JNum 0.7));
        ("echo", JBool false)]
       ++ (if json_object_requested options
           then [("guided_json", JObj [])]
           else []))%list)) |}.

Definition vllmBlock (options : LLMCallOptions) : Eff JsVal :=
  response <- fetch (vllmRequest options) ;;
  if negb (ok response) then throw
    (ErrorObj ("vLLM API error: " ++ Js.digits (status response)
               ++ " " ++ statusText response))
  else
  data <- response_json response ;;
  choices <- lift (Js.get data "choices") ;;
  let choice := Js.index_opt choices 0 in
  if negb (Js.truthy choice) then throw
    (ErrorObj "No completion returned from vLLM")
  else
  text <- lift (Js.get choice "text") ;;
  usage <- lift (Js.get data "usage") ;;
  ret (JObj
    [("content", text);
     ("usage", JObj
        [("prompt_tokens", Js.or (Js.get_opt usage "prompt_tokens") (JNum 0));
         ("completion_tokens", Js.or (Js.get_opt usage "completion_tokens") (JNum 0));
         ("total_tokens", Js.or (Js.get_opt usage "total_tokens") (JNum 0))])]).

Definition vllmAdapter : LLMAdapter := fun options =>
  try_catch (vllmBlock options)
    (fun error => throw (ErrorObj ("vLLM adapter failed: " ++ message_of error))).

Section Plus.

(** Number::toString, see [Js.text]. *)
Variable number_text : Q -> string.

(** Whether the primitive value of [v] is a string, as that of an array
    or an object always is. *)
Definition textual (v : JsVal) : bool :=
  match v with
  | JStr _ | JArr _ | JObj _ => true
  | _ => false
  end.

(** The value of [a + b] when both operands have a primitive value: the
    two strings joined when one of the primitive values is a string, the
    sum of the two numbers otherwise. *)
Definition sum (a b : JsVal) : JsVal :=
  if textual a || textual b
  then JStr (Js.text number_text a ++ Js.text number_text b)
  else Js.add (Js.to_number a) (Js.to_number b).

(** [a + b] *)
Definition plus (a b : JsVal) : Thrown + JsVal :=
  if Js.converts a && Js.converts b then inr (sum a b) else inl Js.cannot_convert.

(** *** Ollama *)

Definition ollamaRequest (options : LLMCallOptions) : Request :=
  let base := Js.or_string (baseUrl options) "http://localhost:11434" in
  {| url := base ++ "/api/generate";
     method := "POST";
     headers := [("Content-Type", "application/json")];
     body := Js.stringify (JObj
       [("model", JStr (model options));
        ("prompt", first_content options);
        ("options", JObj
           [("temperature", Js.or (Js.of_number (temperature options)) (JNum 0.7));
            ("num_predict", Js.or (Js.of_number (maxTokens options)) (JNum 2048))]);
        ("stream", JBool false);
        ("format", if json_object_requested options
                   then JStr "json" else JUndefined)]) |}.

Definition ollamaBlock (options : LLMCallOptions) : Eff JsVal :=
  response <- fetch (ollamaRequest options) ;;
  if negb (ok response) then throw
    (ErrorObj ("Ollama API error: " ++ Js.digits (status response)
               ++ " " ++ statusText response))
  else
  data <- response_json response ;;
  text <- lift (Js.get data "response") ;;
  prompt_eval_count <- lift (Js.get data "prompt_eval_count") ;;
  eval_count <- lift (Js.get data "eval_count") ;;
  total <- lift (plus (Js.or prompt_eval_count (JNum 0)) (Js.or eval_count (JNum 0))) ;;
  ret (JObj
    [("content", text);
     ("usage", JObj
        [("prompt_tokens", Js.or prompt_eval_count (JNum 0));
         ("completion_tokens", Js.or eval_count (JNum 0));
         ("total_tokens", total)])]).

Definition ollamaAdapter : LLMAdapter := fun options =>
  try_catch (ollamaBlock options)
    (fun error => throw (ErrorObj ("Ollama adapter failed: " ++ message_of error))).

(** *** Text Generation Inference *)

Definition tgiRequest (options : LLMCallOptions) : Request :=
  let base := Js.or_string (baseUrl options) "http://localhost:8080" in
  {| url := base ++ "/generate";
     method := "POST";
     headers := [("Content-Type", "application/json");
                 ("Authorization", "Bearer " ++ Js.interpolate (apiKey options))];
     body := Js.stringify (JObj
       [("inputs", first_content options);
        ("parameters", JObj (
           ([("max_new_tokens", Js.or (Js.of_number (maxTokens options)) (JNum 2048));
            ("temperature", Js.or (Js.of_number (temperature options)) (JNum 0.7));
            ("return_full_text", JBool false)]
           ++ (if json_object_requested options
               then [("response_format", JObj [("type", JStr "json_object")])]
               else []))%list))]) |}.

(** [data.generated_text || data[0]?.generated_text] *)
Definition generated_text_of (data : JsVal) : Eff JsVal :=
  single <- lift (Js.get data "generated_text") ;;
  if Js.truthy single then ret single
  else (first <- lift (Js.index data 0) ;;
        ret (Js.get_opt first "generated_text")).

Definition tgiBlock (options : LLMCallOptions) : Eff JsVal :=
  response <- fetch (tgiRequest options) ;;
  if negb (ok response) then throw
    (ErrorObj ("TGI API error: " ++ Js.digits (status response)
               ++ " " ++ statusText response))
  else
  data <- response_json response ;;
  generatedText <- generated_text_of data ;;
  details <- lift (Js.get data "details") ;;
  let prompt_tokens := Js.or (Js.get_opt details "prompt_tokens") (JNum 0) in
  let generated_tokens := Js.or (Js.get_opt details "generated_tokens") (JNum 0) in
  total <- lift (plus prompt_tokens generated_tokens) ;;
  ret (JObj
    [("content", generatedText);
     ("usage", JObj
        [("prompt_tokens", prompt_tokens);
         ("completion_tokens", generated_tokens);
         ("total_tokens", total)])]).

Definition tgiAdapter : LLMAdapter := fun options =>
  try_catch (tgiBlock options)
    (fun error => throw (ErrorObj ("TGI adapter failed: " ++ message_of error))).

(** *** Registration *)

Definition registerOpenSourceAdapters
    (reg : Engine.Registry LLMAdapter) : Engine.Registry LLMAdapter :=
  Engine.registerLLMAdapter "tgi" tgiAdapter
    (Engine.registerLLMAdapter "vllm" vllmAdapter
      (Engine.registerLLMAdapter "ollama" ollamaAdapter reg)).

End Plus.

End OpenSourceLLM.

(** ** src/flows/research-to-app-trial *)

Module Flow.

Record StepConfig : Type := {
  provider : string;
  model : string;
  prompt : string;
  responseFormat : option OpenSourceLLM.ResponseFormat;
  maxTokens : Q;
  temperature : Q
}.

Record Step : Type := {
  id : string;
  type : string;
  config : StepConfig;
  dependencies : list string
}.

(** The [secrets], [policies] and [notifications] of the definition are
    not read by anything below and are left out. *)
Record WorkflowDefinition : Type := {
  name : string;
  description : string;
  version : string;
  determinismGrade : string;
  steps : list Step
}.

Definition nl : string := String "010"%char EmptyString.
Definition dq : string := String "034"%char EmptyString.

(** A template literal, given line by line. *)
Definition template (lines : list string) : string := String.concat nl lines.

Definition analyze_research_topic : Step :=
  {| id := "analyze-research-topic";
     type := "ai.generate-text";
     config :=
       {| provider := "ollama";
          model := "llama3:8b";
          prompt := template
            [ "Analyze this research topic and break it down into actionable development tasks:";
              "        ";
              "        Research Topic: " ++ dq ++ "{{researchTopic}}" ++ dq;
              "        ";
              "        Provide:";
              "        1. Technical complexity assessment (1-10)";
              "        2. Key technical challenges";
              "        3. Recommended technology stack (open-source only)";
              "        4. Development phases with estimated effort";
              "        5. Risk assessment and mitigation strategies";
              "        ";
              "        Format as JSON with keys: complexity, challenges, techStack, phases, risks" ];
          responseFormat := Some {| OpenSourceLLM.type := "json_object" |};
          maxTokens := 2000;
          temperature := 0.3 |};
     dependencies := [] |}.

Definition design_architecture : Step :=
  {| id := "design-architecture";
     type := "ai.generate-text";
     config :=
       {| provider := "ollama";
          model := "llama3:8b";
          prompt := template
            [ "Design the application architecture based on the research analysis:";
              "        ";
              "        Analysis: " ++ dq ++ "{{analyze-research-topic.output}}" ++ dq;
              "        ";
              "        Create a detailed architecture plan:";
              "        1. System components and their relationships";
              "        2. Data flow diagram (text description)";
              "        3. API structure and endpoints";
              "        4. Database schema design";
              "        5. Security considerations";
              "        ";
              "        Format as JSON with keys: components, dataFlow, api, database, security" ];
          responseFormat := Some {| OpenSourceLLM.type := "json_object" |};
          maxTokens := 3000;
          temperature := 0.2 |};
     dependencies := ["analyze-research-topic"] |}.

Definition generate_project_structure : Step :=
  {| id := "generate-project-structure";
     type := "ai.generate-text";
     config :=
       {| provider := "ollama";
          model := "codellama";
          prompt := template
            [ "Generate the complete project structure and boilerplate code:";
              "        ";
              "        Architecture: " ++ dq ++ "{{design-architecture.output}}" ++ dq;
              "        ";
              "        Create:";
              "        1. Directory structure (tree format)";
              "        2. Package.json with open-source dependencies only";
              "        3. Configuration files (typescript, eslint, etc.)";
              "        4. Docker setup for development";
              "        5. CI/CD pipeline using GitHub Actions";
              "        ";
              "        Provide as executable code blocks and configuration files." ];
          responseFormat := None;
          maxTokens := 4000;
          temperature := 0.1 |};
     dependencies := ["design-architecture"] |}.

Definition create_core_components : Step :=
  {| id := "create-core-components";
     type := "ai.generate-text";
     config :=
       {| provider := "ollama";
          model := "codellama";
          prompt := template
            [ "Implement the core application components:";
              "        ";
              "        Architecture: " ++ dq ++ "{{design-architecture.output}}" ++ dq;
              "        Project Structure: " ++ dq ++ "{{generate-project-structure.output}}" ++ dq;
              "        ";
              "        Generate TypeScript code for:";
              "        1. Main application entry point";
              "        2. Core service classes";
              "        3. Data models and interfaces";
              "        4. API route handlers";
              "        5. Database connection and utilities";
              "        ";
              "        Follow the architecture and use only open-source libraries." ];
          responseFormat := None;
          maxTokens := 5000;
          temperature := 0.1 |};
     dependencies := ["design-architecture"; "generate-project-structure"] |}.

Definition setup_testing : Step :=
  {| id := "setup-testing";
     type := "ai.generate-text";
     config :=
       {| provider := "ollama";
          model := "codellama";
          prompt := template
            [ "Create comprehensive testing setup:";
              "        ";
              "        Architecture: " ++ dq ++ "{{design-architecture.output}}" ++ dq;
              "        Components: " ++ dq ++ "{{create-core-components.output}}" ++ dq;
              "        ";
              "        Generate:";
              "        1. Unit tests for core functions";
              "        2. Integration tests for API endpoints";
              "        3. E2E test scenarios";
              "        4. Test utilities and mocks";
              "        5. Performance test setup";
              "        ";
              "        Use Vitest and Testing Library (open-source)." ];
          responseFormat := None;
          maxTokens := 4000;
          temperature := 0.1 |};
     dependencies := ["create-core-components"] |}.

Definition create_documentation : Step :=
  {| id := "create-documentation";
     type := "ai.generate-text";
     config :=
       {| provider := "ollama";
          model := "llama3:8b";
          prompt := template
            [ "Generate comprehensive documentation:";
              "        ";
              "        Architecture: " ++ dq ++ "{{design-architecture.output}}" ++ dq;
              "        Implementation: " ++ dq ++ "{{create-core-components.output}}" ++ dq;
              "        ";
              "        Create:";
              "        1. README.md with setup instructions";
              "        2. API documentation (OpenAPI specification)";
              "        3. Developer onboarding guide";
              "        4. Deployment documentation";
              "        5. Contributing guidelines" ];
          responseFormat := None;
          maxTokens := 3000;
          temperature := 0.2 |};
     dependencies := ["create-core-components"] |}.

Definition setup_deployment : Step :=
  {| id := "setup-deployment";
     type := "ai.generate-text";
     config :=
       {| provider := "ollama";
          model := "codellama";
          prompt := template
            [ "Create deployment configuration:";
              "        ";
              "        Project: " ++ dq ++ "{{generate-project-structure.output}}" ++ dq;
              "        Documentation: " ++ dq ++ "{{create-documentation.output}}" ++ dq;
              "        ";
              "        Generate:";
              "        1. Docker Compose for local development";
              "        2. Kubernetes deployment manifests";
              "        3. Nginx configuration";
              "        4. Environment variable templates";
              "        5. Health check endpoints";
              "        ";
              "        Focus on self-hosted, open-source solutions." ];
          responseFormat := None;
          maxTokens := 3000;
          temperature := 0.1 |};
     dependencies := ["generate-project-structure"; "create-documentation"] |}.

Definition quality_assurance : Step :=
  {| id := "quality-assurance";
     type := "ai.generate-text";
     config :=
       {| provider := "vllm";
          model := "mistralai/Mistral-7B-Instruct-v0.1";
          prompt := template
            [ "Perform quality assurance review of the generated application:";
              "        ";
              "        Architecture: " ++ dq ++ "{{design-architecture.output}}" ++ dq;
              "        Code: " ++ dq ++ "{{create-core-components.output}}" ++ dq;
              "        Tests: " ++ dq ++ "{{setup-testing.output}}" ++ dq;
              "        Documentation: " ++ dq ++ "{{create-documentation.output}}" ++ dq;
              "        Deployment: " ++ dq ++ "{{setup-deployment.output}}" ++ dq;
              "        ";
              "        Analyze and report on:";
              "        1. Code quality and best practices";
              "        2. Security vulnerabilities";
              "        3. Performance bottlenecks";
              "        4. Documentation completeness";
              "        5. Deployment readiness";
              "        ";
              "        Provide specific recommendations and improvements needed." ];
          responseFormat := None;
          maxTokens := 2500;
          temperature := 0.3 |};
     dependencies := ["create-core-components"; "setup-testing"; "create-documentation"; "setup-deployment"] |}.

Definition researchToAppFlow : WorkflowDefinition :=
  {| name := "research-to-app-trial";
     description := "Transform research concept into functional application prototype";
     version := "1.0.0";
     determinismGrade := "pure";
     steps :=
       [ analyze_research_topic;
         design_architecture;
         generate_project_structure;
         create_core_components;
         setup_testing;
         create_documentation;
         setup_deployment;
         quality_assurance ] |}.

(** *** Placeholders

    The template resolver belongs to the bilko-flow package.  A placeholder
    is two opening braces, an identifier, optionally [.output], and two
    closing braces. *)

Inductive ScanState : Type :=
| Outside
| OneOpen
| Inside (acc : string)
| OneClose (acc : string).

Definition snoc (acc : string) (c : ascii) : string :=
  acc ++ String c EmptyString.

(** Modelled from the spec: the placeholder scanner of bilko-flow's template
    resolver.  It returns what stands between each pair of double braces, in
    order of occurrence. *)
Fixpoint scan (st : ScanState) (s : string) : list string :=
  match s with
  | EmptyString => []
  | String c rest =>
      match st with
      | Outside =>
          if Ascii.eqb c "{" then scan OneOpen rest else scan Outside rest
      | OneOpen =>
          if Ascii.eqb c "{" then scan (Inside EmptyString) rest else scan Outside rest
      | Inside acc =>
          if Ascii.eqb c "}" then scan (OneClose acc) rest
          else scan (Inside (snoc acc c)) rest
      | OneClose acc =>
          if Ascii.eqb c "}" then acc :: scan Outside rest
          else scan (Inside (snoc (snoc acc "}") c)) rest
      end
  end.

Definition placeholders (s : string) : list string := scan Outside s.

(** Modelled from the spec: the two kinds of placeholder.  The step id of a
    placeholder of the form [stepId.output]; a placeholder without the suffix
    names a top-level variable. *)
Definition step_of_placeholder (p : string) : option string :=
  let n := String.length p in
  if (7 <=? n)%nat && (substring (n - 7) 7 p =? ".output")
  then Some (substring 0 (n - 7) p)
  else None.

Fixpoint somes {A} (l : list (option A)) : list A :=
  match l with
  | [] => []
  | Some a :: rest => a :: somes rest
  | None :: rest => somes rest
  end.

(** The step ids whose output the prompt of [s] refers to. *)
Definition referenced_steps (s : Step) : list string :=
  somes (map step_of_placeholder (placeholders (prompt (config s)))).

Definition mem (x : string) (l : list string) : bool :=
  existsb (String.eqb x) l.

(** The referenced step ids that are missing from the step's
    [dependencies]. *)
Definition undeclared_references (s : Step) : list string :=
  filter (fun r => negb (mem r (dependencies s))) (referenced_steps s).

Definition references_declared (wf : WorkflowDefinition) : bool :=
  forallb (fun s => match undeclared_references s with
                    | [] => true
                    | _ => false
                    end) (steps wf).

(** *** The dependency graph *)

Definition step_ids (wf : WorkflowDefinition) : list string :=
  map id (steps wf).

(** [depends_on wf a b]: the step with id [a] lists [b] as a dependency. *)
Definition depends_on (wf : WorkflowDefinition) (a b : string) : Prop :=
  exists s, In s (steps wf) /\ id s = a /\ In b (dependencies s).

Definition acyclic (wf : WorkflowDefinition) : Prop :=
  forall a, ~ clos_trans string (depends_on wf) a a.

Definition no_dangling (wf : WorkflowDefinition) : Prop :=
  forall s d, In s (steps wf) -> In d (dependencies s) -> In d (step_ids wf).

(** Position of an id in the declaration order (the length of the list
    when absent). *)
Fixpoint position (x : string) (l : list string) : nat :=
  match l with
  | [] => 0
  | y :: rest => if String.eqb x y then 0 else S (position x rest)
  end.

(** The steps are declared in dependency order: the id of each step is
    new, and each of its dependencies is the id of a step declared before
    it ([seen] holds the ids met so far). *)
Fixpoint declared_in_order (seen : list string) (ss : list Step) : bool :=
  match ss with
  | [] => true
  | s :: rest =>
      negb (mem (id s) seen)
      && forallb (fun d => mem d seen) (dependencies s)
      && declared_in_order (id s :: seen) rest
  end.

Definition providers (wf : WorkflowDefinition) : list string :=
  map (fun s => provider (config s)) (steps wf).

End Flow.

(** ** The entry points: CLI [main], the Express server, the Vercel handler

    Each entry point is given by the calls it makes into the engine, in
    order.  [compileWorkflow] and [executeWorkflow] belong to bilko-flow; a
    compilation that throws ends the run of the calls that follow it. *)

Module Entry.

Inductive Call : Type :=
| CallRegisterOpenSourceAdapters
| CallCompileWorkflow (wf : Flow.WorkflowDefinition)
| CallExecuteWorkflow (researchTopic : JsVal).


Record HttpRequest : Type := {
  method : string;
  path : string;
  (** [req.body.researchTopic] *)
  researchTopic : JsVal
}.

(** *** CLI *)

Definition cliTopic : JsVal :=
  JStr "AI-powered code review assistant that provides real-time feedback on code quality and security vulnerabilities".

Definition main (compiles : bool) : list Call :=
  CallRegisterOpenSourceAdapters
  :: CallCompileWorkflow Flow.researchToAppFlow
  :: (if compiles then [CallExecuteWorkflow cliTopic] else []).

(** *** Express server *)

(** Only the route [POST /api/workflows/execute] reaches the engine, and
    only with a topic that is truthy and that the template literal of the
    log line before the call can turn into a string. *)
Definition serverRoute (req : HttpRequest) : list Call :=
  if (method req =? "POST") && (path req =? "/api/workflows/execute")
  then (if negb (Js.truthy (researchTopic req)) then []
        else if negb (Js.converts (researchTopic req)) then []
        else [CallExecuteWorkflow (researchTopic req)])
  else [].


(** *** Vercel function *)

Definition handler (req : HttpRequest) : list Call :=
  if method req =? "OPTIONS" then []
  else if negb (method req =? "POST") then []
  else if negb (Js.truthy (researchTopic req)) then []
  else if negb (Js.converts (researchTopic req)) then []
  else [CallExecuteWorkflow (researchTopic req)].

Definition vercel (compiles : bool) (requests : list HttpRequest) : list Call :=
  CallRegisterOpenSourceAdapters
  :: CallCompileWorkflow Flow.researchToAppFlow
  :: (if compiles then flat_map handler requests else []).

Section Run.
Variable number_text : Q -> string.

Definition Registry : Type := Engine.Registry OpenSourceLLM.LLMAdapter.

End Run.




End Entry.

(** * Vocabulary of the properties *)

Module Reading.
Import Http OpenSourceLLM.

(** The content of the first message, the empty string when there is none. *)
Definition first_message_text (options : LLMCallOptions) : string :=
  match messages options with
  | [] => ""
  | m :: _ => match content m with Some s => s | None => "" end
  end.

(** [a || d] on an optional number. *)
Definition number_or (o : option Q) (d : Q) : Q :=
  match o with
  | Some q => if Qeq_bool q 0 then d else q
  | None => d
  end.

(** [result.usage.k] *)
Definition usage_of (result : JsVal) (k : string) : JsVal :=
  Js.get_opt (Js.get_opt result "usage") k.

(** The value [ollamaAdapter] returns for the parsed body [data]. *)
Definition ollama_result (number_text : Q -> string) (data : JsVal) : JsVal :=
  JObj
    [("content", Js.get_opt data "response");
     ("usage", JObj
        [("prompt_tokens", Js.or (Js.get_opt data "prompt_eval_count") (JNum 0));
         ("completion_tokens", Js.or (Js.get_opt data "eval_count") (JNum 0));
         ("total_tokens",
          sum number_text (Js.or (Js.get_opt data "prompt_eval_count") (JNum 0))
                          (Js.or (Js.get_opt data "eval_count") (JNum 0)))])].

(** The value [vllmAdapter] returns for the parsed body [data]. *)
Definition vllm_result (data : JsVal) : JsVal :=
  let usage := Js.get_opt data "usage" in
  JObj
    [("content", Js.get_opt (Js.index_opt (Js.get_opt data "choices") 0) "text");
     ("usage", JObj
        [("prompt_tokens", Js.or (Js.get_opt usage "prompt_tokens") (JNum 0));
         ("completion_tokens", Js.or (Js.get_opt usage "completion_tokens") (JNum 0));
         ("total_tokens", Js.or (Js.get_opt usage "total_tokens") (JNum 0))])].

(** The value [tgiAdapter] returns for the parsed body [data]. *)
Definition tgi_result (number_text : Q -> string) (data : JsVal) : JsVal :=
  let details := Js.get_opt data "details" in
  JObj
    [("content", Js.or (Js.get_opt data "generated_text")
                       (Js.get_opt (Js.index_opt data 0) "generated_text"));
     ("usage", JObj
        [("prompt_tokens", Js.or (Js.get_opt details "prompt_tokens") (JNum 0));
         ("completion_tokens", Js.or (Js.get_opt details "generated_tokens") (JNum 0));
         ("total_tokens",
          sum number_text (Js.or (Js.get_opt details "prompt_tokens") (JNum 0))
                          (Js.or (Js.get_opt details "generated_tokens") (JNum 0)))])].

(** The result shape in the words of the specification. *)
Definition spec_result_shape (result : JsVal) : Prop :=
  Js.keys result = ["content"; "usage"]
  /\ (exists s, Js.get_opt result "content" = JStr s)
  /\ Js.keys (Js.get_opt result "usage")
     = ["promptTokens"; "completionTokens"; "totalTokens"].

(** The result shape of the object literals the adapters return. *)
Definition result_shape (result : JsVal) : Prop :=
  Js.keys result = ["content"; "usage"]
  /\ Js.keys (Js.get_opt result "usage")
     = ["prompt_tokens"; "completion_tokens"; "total_tokens"].

(** How an adapter built from the try block [block] fails on the network
    [net]: whatever the block throws comes out as an [Error] whose message is
    [prefix] followed by the message of the cause; a rejected [fetch], a
    response that is not ok (its status and status text after [api]) and a
    body that does not parse are three such causes. *)
Definition fails_wrapped (prefix api : string) (adapter block : Eff JsVal)
    (req : Request) (net : Net) : Prop :=
  (forall t, fst (run adapter net) = inl t ->
     exists cause, fst (run block net) = inl (ErrorObj cause)
                   /\ t = ErrorObj (prefix ++ cause))
  /\ (forall m, net req = Rejected m ->
        fst (run adapter net) = inl (ErrorObj (prefix ++ m)))
  /\ (forall r, net req = Resolved r -> ok r = false ->
        fst (run adapter net) =
        inl (ErrorObj (prefix ++ api ++ Js.digits (status r) ++ " " ++ statusText r)))
  /\ (forall r m, net req = Resolved r -> ok r = true -> json r = inl m ->
        fst (run adapter net) = inl (ErrorObj (prefix ++ m))).

(** The call carries no message content: no message at all, or a first
    message without [content]. *)
Definition no_content (options : LLMCallOptions) : bool :=
  match messages options with
  | [] => true
  | m :: _ => match content m with None => true | Some _ => false end
  end.

(** The usage counters of [result] against the raw counters of the
    response: each is the raw counter or 0, and the total is their [+]: of
    two numbers the double nearest to their sum, which is the sum itself
    for two integers whose sum is within 2^53 of zero; a counter that is a
    string is not added but joined to the other. *)
Definition counters_add_up (number_text : Q -> string)
    (raw_prompt raw_completion result : JsVal) : Prop :=
  let prompt := usage_of result "prompt_tokens" in
  let completion := usage_of result "completion_tokens" in
  let total := usage_of result "total_tokens" in
  prompt = Js.or raw_prompt (JNum 0)
  /\ completion = Js.or raw_completion (JNum 0)
  /\ plus number_text prompt completion = inr total
  /\ (raw_prompt = JUndefined -> prompt = JNum 0)
  /\ (raw_completion = JUndefined -> completion = JNum 0)
  /\ (forall x y, prompt = JNum x -> completion = JNum y -> total = Js.double (x + y))
  /\ (forall m n : Z,
        prompt = JNum (inject_Z m) -> completion = JNum (inject_Z n) ->
        (Z.abs (m + n) <= 2 ^ 53)%Z -> total = JNum (inject_Z (m + n)))
  /\ (forall s y, prompt = JStr s -> completion = JNum y ->
        total = JStr (s ++ number_text y))
  /\ (forall s t, prompt = JStr s -> completion = JStr t -> total = JStr (s ++ t)).

(** The counters in the words of the claim: three numbers, the third the
    sum of the first two. *)
Definition total_is_exact_sum (result : JsVal) : Prop :=
  exists x y z,
    usage_of result "prompt_tokens" = JNum x
    /\ usage_of result "completion_tokens" = JNum y
    /\ usage_of result "total_tokens" = JNum z
    /\ (z == x + y)%Q.

(** Whether the two counters [+] adds have a primitive value. *)
Definition addable (raw_prompt raw_completion : JsVal) : bool :=
  Js.converts raw_prompt && Js.converts raw_completion.

(** A value that is neither an array nor an object. *)
Definition primitive (v : JsVal) : Prop :=
  match v with
  | JArr _ | JObj _ => False
  | _ => True
  end.

(** An object with a property [toString] of its own. *)
Definition hides_toString (v : JsVal) : Prop :=
  exists props, v = JObj props /\ Js.lookup props "toString" <> None.


End Reading.

(** Sample calls and networks. *)

Module Sample.
Import Http OpenSourceLLM.

(** A stand-in for Number::toString, the digits of a natural number: the
    sample runs print no other number. *)
Definition number_text (q : Q) : string := Js.digits (Z.to_nat (Qnum q)).

Definition options : LLMCallOptions :=
  {| model := "llama3:8b";
     messages := [{| content := Some "Hello" |}];
     baseUrl := None;
     apiKey := Some "secret";
     temperature := Some 0.3%Q;
     maxTokens := Some 2000%Q;
     responseFormat := Some {| type := "json_object" |} |}.

Definition no_messages : LLMCallOptions :=
  {| model := "llama3:8b";
     messages := [];
     baseUrl := None;
     apiKey := None;
     temperature := None;
     maxTokens := None;
     responseFormat := None |}.

(** The network that answers every request with the given status and JSON
    body. *)
Definition answers (code : nat) (text : string) (data : JsVal) : Net :=
  fun _ => Resolved {| status := code; statusText := text; json := inr data |}.

(** The network that cannot be reached. *)
Definition unreachable : Net := fun _ => Rejected "fetch failed".

Definition ollama_data : JsVal :=
  JObj [("response", JStr "Hi"); ("prompt_eval_count", JNum 3); ("eval_count", JNum 4)].

Definition vllm_data : JsVal :=
  JObj [("choices", JArr [JObj [("text", JStr "Hi")]]);
        ("usage", JObj [("prompt_tokens", JNum 3); ("completion_tokens", JNum 4);
                        ("total_tokens", JNum 7)])].

Definition tgi_data : JsVal :=
  JObj [("generated_text", JStr "Hi");
        ("details", JObj [("prompt_tokens", JNum 3); ("generated_tokens", JNum 4)])].

(** An Ollama body whose prompt counter is 2^53. *)
Definition ollama_large_count : JsVal :=
  JObj [("response", JStr "Hi");
        ("prompt_eval_count", JNum 9007199254740992); ("eval_count", JNum 1)].

(** An Ollama body whose prompt counter is an object with a property
    [toString] that is no function. *)
Definition ollama_odd_count : JsVal :=
  JObj [("response", JStr "Hi");
        ("prompt_eval_count", JObj [("toString", JNum 1)])].

End Sample.

(** * Further code of the repository *)

(** ** Reading the sampling parameters of the three requests *)

Module Wire.
Import Http OpenSourceLLM.



(** The URLs of the three requests. *)
Definition sent_urls (options : LLMCallOptions) : list string :=
  [url (ollamaRequest options); url (vllmRequest options); url (tgiRequest options)].


(** A vLLM body that reports the two counters and no total. *)
Definition vllm_data_without_total : JsVal :=
  JObj [("choices", JArr [JObj [("text", JStr "Hi")]]);
        ("usage", JObj [("prompt_tokens", JNum 3); ("completion_tokens", JNum 4)])].

(** A response with status 200 and the parsed body [data]. *)
Definition ok_response (data : JsVal) : Response :=
  {| status := 200; statusText := "OK"; json := inr data |}.

Definition with_baseUrl (b : option string) (options : LLMCallOptions) : LLMCallOptions :=
  {| model := model options;
     messages := messages options;
     baseUrl := b;
     apiKey := apiKey options;
     temperature := temperature options;
     maxTokens := maxTokens options;
     responseFormat := responseFormat options |}.

End Wire.

(** ** Host code: console, network and engine

    The CLI, the Express routes and the Vercel function talk to the
    network, write to the console and call [executeWorkflow]. *)

Module Host.

(** What host code catches: an [Error] instance, with its message and its
    further own properties (an engine error carries [step] and
    [suggestedFix]), or any other value. *)
Inductive Raised : Type :=
| RaisedError (message : string) (props : list (string * JsVal))
| RaisedOther (v : JsVal).

(** An argument of a [console.log] or [console.error] call: a text, a
    text given by its code units, a template literal with one interpolated
    value, a value, the text of [JSON.stringify(v, null, 2)], or a caught
    error. *)
Inductive Arg : Type :=
| Text (s : string)
| Units (u : list N)
| Template (before : string) (v : JsVal) (after : string)
| Value (v : JsVal)
| Pretty (v : JsVal)
| Caught (error : Raised).

Record Env : Type := {
  network : Http.Net;
  (** Modelled from the spec: [executeWorkflow] of bilko-flow, applied to the
      compiled workflow; it returns an execution record or throws. *)
  engine : JsVal -> Raised + JsVal;
  (** Modelled from the spec: [compileWorkflow] of bilko-flow; it returns a
      compiled plan or throws. *)
  compiler : Flow.WorkflowDefinition -> Raised + JsVal;
  (** [process.env] *)
  environment : string -> option string
}.

(** What a run leaves behind: the requests sent, the console calls, the
    calls into the engine in order, and the parameters of each
    [executeWorkflow] call. *)
Record Trace : Type := {
  requests : list Http.Request;
  console : list (list Arg);
  calls : list Entry.Call;
  executions : list JsVal
}.

Definition start : Trace :=
  {| requests := []; console := []; calls := []; executions := [] |}.

Definition IO (A : Type) : Type := Env -> Trace -> (Raised + A) * Trace.

Definition ret {A} (a : A) : IO A := fun _ t => (inr a, t).

Definition throw {A} (e : Raised) : IO A := fun _ t => (inl e, t).

Definition bind {A B} (m : IO A) (k : A -> IO B) : IO B :=
  fun env t =>
    match m env t with
    | (inr a, t') => k a env t'
    | (inl e, t') => (inl e, t')
    end.

Definition try_catch {A} (block : IO A) (handler : Raised -> IO A) : IO A :=
  fun env t =>
    match block env t with
    | (inl e, t') => handler e env t'
    | done => done
    end.

Definition of_thrown (t : Thrown) : Raised :=
  match t with
  | ErrorObj m => RaisedError m []
  | NonError v => RaisedOther v
  end.

Definition lift {A} (r : Thrown + A) : IO A :=
  fun _ t => (match r with inl e => inl (of_thrown e) | inr a => inr a end, t).

Definition fetch (req : Http.Request) : IO Http.Response :=
  fun env t =>
    (match network env req with
     | Http.Rejected m => inl (RaisedError m [])
     | Http.Resolved r => inr r
     end,
     {| requests := (requests t ++ [req])%list;
        console := console t;
        calls := calls t;
        executions := executions t |}).

Definition response_json (r : Http.Response) : IO JsVal :=
  fun _ t => (match Http.json r with
              | inl m => inl (RaisedError m [])
              | inr v => inr v
              end, t).

(** [console.log(...)] and [console.error(...)] *)
Definition console_log (args : list Arg) : IO unit :=
  fun _ t =>
    (inr tt,
     {| requests := requests t;
        console := (console t ++ [args])%list;
        calls := calls t;
        executions := executions t |}).

(** The template literal [`before${v}after`]: it is evaluated before the
    call it is an argument of, and throws a TypeError when [v] has no
    string. *)
Definition template (before : string) (v : JsVal) (after : string) : IO Arg :=
  fun _ t =>
    (if Js.converts v then inr (Template before v after)
     else inl (of_thrown Js.cannot_convert), t).

(** [executeWorkflow(compiledWorkflow, params)] *)
Definition executeWorkflow (params : JsVal) : IO JsVal :=
  fun env t =>
    (engine env params,
     {| requests := requests t;
        console := console t;
        calls := (calls t
                  ++ [Entry.CallExecuteWorkflow (Js.get_opt params "researchTopic")])%list;
        executions := (executions t ++ [params])%list |}).

(** [compileWorkflow(wf)] *)
Definition compileWorkflow (wf : Flow.WorkflowDefinition) : IO JsVal :=
  fun env t =>
    (compiler env wf,
     {| requests := requests t;
        console := console t;
        calls := (calls t ++ [Entry.CallCompileWorkflow wf])%list;
        executions := executions t |}).

(** [registerOpenSourceAdapters()]: three calls of [registerLLMAdapter],
    which returns nothing and, modelled from the spec, does not throw. *)
Definition registerOpenSourceAdapters : IO unit :=
  fun _ t =>
    (inr tt,
     {| requests := requests t;
        console := console t;
        calls := (calls t ++ [Entry.CallRegisterOpenSourceAdapters])%list;
        executions := executions t |}).

Definition getenv (k : string) : IO (option string) :=
  fun env t => (inr (environment env k), t).

(** [for (const x of l) { body }] *)
Fixpoint for_each {A} (l : list A) (body : A -> IO unit) : IO unit :=
  match l with
  | [] => ret tt
  | x :: rest => bind (body x) (fun _ => for_each rest body)
  end.

(** [await Promise.all(l.map(async x => f x))]: the calls start in order. *)
Fixpoint map_all {A B} (f : A -> IO B) (l : list A) : IO (list B) :=
  match l with
  | [] => ret []
  | x :: rest => bind (f x) (fun y => bind (map_all f rest) (fun ys => ret (y :: ys)))
  end.

(** [error instanceof Error ? error.message : 'Unknown error'] *)
Definition message_of (error : Raised) : string :=
  match error with
  | RaisedError m _ => m
  | RaisedOther _ => "Unknown error"
  end.

(** [error instanceof Error && 'step' in error ? error.step : undefined] *)
Definition step_of (error : Raised) : JsVal :=
  match error with
  | RaisedError _ props =>
      if existsb (fun p => fst p =? "step") props
      then Js.of_option (Js.lookup props "step")
      else JUndefined
  | RaisedOther _ => JUndefined
  end.

(** [const { first, ... } = source]: a TypeError when the source is
    [undefined] or [null]. *)
Definition destructure (source : JsVal) (text first : string) : IO unit :=
  match source with
  | JUndefined =>
      throw (RaisedError ("Cannot destructure property '" ++ first ++ "' of '"
                          ++ text ++ "' as it is undefined.") [])
  | JNull =>
      throw (RaisedError ("Cannot destructure property '" ++ first ++ "' of '"
                          ++ text ++ "' as it is null.") [])
  | _ => ret tt
  end.

(** [fetch(url)] with no further option of the Fetch standard: a GET
    without headers or body. *)
Definition get (u : string) : Http.Request :=
  {| Http.url := u; Http.method := "GET"; Http.headers := []; Http.body := JUndefined |}.

(** An incoming request, as far as the handlers read it. *)
Record Req : Type := {
  method : string;
  body : JsVal
}.

(** What a handler answers: the status, the headers it set itself and the
    value it handed to [res.json] ([None] after [res.end()]). *)
Record Reply : Type := {
  code : nat;
  headers : list (string * string);
  payload : option JsVal
}.

(** The JSON tree the client receives. *)
Definition wire (reply : Reply) : option JsVal :=
  option_map Js.stringify (payload reply).

(** The trace after one more console call, after one more engine call. *)
Definition with_console (args : list Arg) (t : Trace) : Trace :=
  {| requests := requests t;
     console := (console t ++ [args])%list;
     calls := calls t;
     executions := executions t |}.

Definition with_call (c : Entry.Call) (t : Trace) : Trace :=
  {| requests := requests t;
     console := console t;
     calls := (calls t ++ [c])%list;
     executions := executions t |}.

(** Two traces that differ in the console only. *)
Definition quiet (t t' : Trace) : Prop :=
  requests t' = requests t /\ calls t' = calls t /\ executions t' = executions t.

(** A computation that does nothing but write to the console. *)
Definition silent {A} (m : IO A) : Prop :=
  forall env t, quiet t (snd (m env t)).

Definition succeeds {A B} (r : A + B) : bool :=
  match r with inr _ => true | inl _ => false end.

End Host.

Declare Scope io_scope.
Delimit Scope io_scope with io.
Notation "x <- m ;; k" := (Host.bind m (fun x => k))
  (at level 61, m at next level, right associativity) : io_scope.
Notation "m ;;; k" := (Host.bind m (fun _ => k))
  (at level 61, right associativity) : io_scope.

(** ** The table of models of src/adapters/opensource-llm *)

Module Models.

Definition OPEN_SOURCE_MODELS : list (string * list string) :=
  [("ollama",
    ["llama2"; "llama3:8b"; "llama3:70b"; "codellama"; "mistral"; "mixtral";
     "qwen:7b"; "phi3"]);
   ("vllm",
    ["meta-llama/Llama-2-7b-chat-hf"; "meta-llama/Llama-3-8B-Instruct";
     "mistralai/Mistral-7B-Instruct-v0.1"; "codellama/CodeLlama-7b-Instruct-hf"]);
   ("tgi",
    ["meta-llama/Llama-2-7b-chat-hf"; "meta-llama/Llama-3-8B-Instruct";
     "mistralai/Mistral-7B-Instruct-v0.1"])].

(** [Object.keys(OPEN_SOURCE_MODELS)] *)
Definition providers : list string := map fst OPEN_SOURCE_MODELS.

(** The models listed for a provider, none for an unknown one. *)
Definition models_of (provider : string) : list string :=
  match find (fun p => fst p =? provider) OPEN_SOURCE_MODELS with
  | Some p => snd p
  | None => []
  end.

Definition lists (provider model : string) : bool :=
  existsb (String.eqb model) (models_of provider).

End Models.

(** ** The command line: [checkServices] and [main] *)

Module Cli.
Import Host.
Local Open Scope io_scope.

Record Service : Type := { name : string; url : string }.

Definition services : list Service :=
  [{| name := "Ollama"; url := "http://localhost:11434/api/tags" |};
   {| name := "vLLM"; url := "http://localhost:8000/v1/models" |}].

Definition checkService (service : Service) : IO unit :=
  try_catch
    (response <- fetch (get (url service)) ;;
     if Http.ok response
     then console_log [Text ("✅ " ++ name service ++ " is running")]
     else console_log [Text ("⚠️ " ++ name service ++ " responded with "
                             ++ Js.digits (Http.status response))])
    (fun error =>
       console_log [Text ("❌ " ++ name service ++ " is not available: "
                          ++ message_of error)] ;;;
       console_log [Text ("📖 Start " ++ name service ++ " before running the workflow")]).

Definition checkServices : IO unit :=
  console_log [Text "🔍 Checking required services..."] ;;;
  for_each services checkService.

(** [stepResult.slice(0, 500) + (stepResult.length > 500 ? '...' : '')],
    on the code units of [stepResult]. *)
Definition preview (stepResult : list N) : list N :=
  (firstn 500 stepResult
   ++ (if (500 <? length stepResult)%nat then Js.units "..." else []))%list.

(** [s.repeat(n)] *)
Fixpoint repeat_string (s : string) (n : nat) : string :=
  match n with
  | O => ""
  | S n' => s ++ repeat_string s n'
  end.

Fixpoint indexed {A} (i : nat) (l : list A) : list (string * A) :=
  match l with
  | [] => []
  | x :: rest => (Js.digits i, x) :: indexed (S i) rest
  end.

(** The code units of a string, each a string of its own. *)
Definition characters (s : string) : list JsVal :=
  map (fun u => JStr (Js.of_unit u)) (Js.units s).

(** [Object.entries(v)] *)
Definition entries (v : JsVal) : Thrown + list (string * JsVal) :=
  match v with
  | JUndefined | JNull => inl (ErrorObj "Cannot convert undefined or null to object")
  | JObj props => inr props
  | JArr items => inr (indexed 0 items)
  | JStr s => inr (indexed 0 (characters s))
  | _ => inr []
  end.

Definition researchTopic : string :=
  "AI-powered code review assistant that provides real-time feedback on code quality and security vulnerabilities".

Definition executionParams : JsVal :=
  JObj
    [("researchTopic", JStr researchTopic);
     ("modelConfigs", JObj
        [("ollama", JObj [("baseUrl", JStr "http://localhost:11434");
                          ("apiKey", JStr "not-required")]);
         ("vllm", JObj [("baseUrl", JStr "http://localhost:8000");
                        ("apiKey", JStr "your-vllm-api-key")])]);
     ("secrets", JObj
        [("DATABASE_URL", JStr "postgresql://localhost:5432/research_app");
         ("JWT_SECRET", JStr "your-jwt-secret-here")])].

Definition nl : string := String "010"%char EmptyString.

(** The body of the loop over the outputs. *)
Definition showOutput (output : string * JsVal) : IO unit :=
  console_log [Text (nl ++ "📋 " ++ fst output ++ ":")] ;;;
  console_log [Text (repeat_string "─" 50)] ;;;
  match snd output with
  | JStr stepResult => console_log [Units (preview (Js.units stepResult))]
  | stepResult => console_log [Pretty stepResult]
  end.

Definition has_step (error : Raised) : bool :=
  match error with
  | RaisedError _ props => existsb (fun p => fst p =? "step") props
  | RaisedOther _ => false
  end.

Definition own (error : Raised) (k : string) : JsVal :=
  match error with
  | RaisedError _ props => Js.of_option (Js.lookup props k)
  | RaisedOther _ => JUndefined
  end.

(** A computation whose failures are errors without a [step]: the
    TypeErrors of reading a property, of [Object.entries] and of a template
    literal. *)
Definition mild {A} (m : IO A) : Prop :=
  forall env t e, fst (m env t) = inl e -> has_step e = false.

(** The [try] statement of [main]. *)
Definition runWorkflow : IO unit :=
  try_catch
    (result <- executeWorkflow executionParams ;;
     console_log [Text (nl ++ "✅ Workflow Execution Results:")] ;;;
     console_log [Text "================================"] ;;;
     outputs <- lift (Js.get result "outputs") ;;
     outputs <- lift (entries outputs) ;;
     for_each outputs showOutput ;;;
     console_log [Text (nl ++ "🎉 Research-to-App trial completed successfully!")] ;;;
     metadata <- lift (Js.get result "metadata") ;;
     duration <- lift (Js.get metadata "duration") ;;
     time <- template "⏱️ Total execution time: " duration "ms" ;;
     console_log [time] ;;;
     metadata <- lift (Js.get result "metadata") ;;
     stepsExecuted <- lift (Js.get metadata "stepsExecuted") ;;
     executed <- template "📊 Steps executed: " stepsExecuted "" ;;
     console_log [executed])
    (fun error =>
       console_log [Text "❌ Workflow execution failed:"; Caught error] ;;;
       if has_step error
       then (step <- template "💥 Failed at step: " (own error "step") "" ;;
             console_log [step] ;;;
             suggestedFix <- template "🔧 Suggested fix: " (own error "suggestedFix") "" ;;
             console_log [suggestedFix])
       else ret tt).

(** Whether the catch clause of [main] can print what [executeWorkflow]
    threw: the [step] and the [suggestedFix] of an error that has a [step]
    go through a template literal each. *)
Definition printable (error : Raised) : bool :=
  if has_step error
  then Js.converts (own error "step") && Js.converts (own error "suggestedFix")
  else true.

Definition main : IO unit :=
  console_log [Text "🚀 Initializing Research-to-App Trials with Open-Source Models"] ;;;
  registerOpenSourceAdapters ;;;
  console_log [Text "✅ Registered open-source adapters:";
               Value (JArr (map JStr Models.providers))] ;;;
  console_log [Text "📋 Compiling research-to-app trial workflow..."] ;;;
  compiledWorkflow <- compileWorkflow Flow.researchToAppFlow ;;
  console_log [Text "✅ Workflow compiled successfully"] ;;;
  console_log [Text "🔧 Starting workflow execution..."] ;;;
  console_log [Text ("📝 Research Topic: " ++ researchTopic)] ;;;
  runWorkflow.


End Cli.

(** ** The Express server: the routes that do more than answer a constant *)

Module Server.
Import Host.
Local Open Scope io_scope.

(** [res.json(v)] and [res.status(code).json(v)] *)
Definition json (status : nat) (v : JsVal) : Reply :=
  {| code := status; headers := []; payload := Some v |}.

Record Service : Type := { name : string; url : string }.

Definition services : list Service :=
  [{| name := "Ollama"; url := "http://localhost:11434/api/tags" |};
   {| name := "vLLM"; url := "http://localhost:8000/v1/models" |};
   {| name := "TGI"; url := "http://localhost:8080/info" |}].

(** The callback of [services.map] in [GET /api/models/status].  The
    [timeout] member it passes to [fetch] is no option of the Fetch
    standard and changes nothing. *)
Definition probe (service : Service) : IO JsVal :=
  try_catch
    (response <- fetch (get (url service)) ;;
     data <- (if Http.ok response then response_json response else ret JNull) ;;
     ret (JObj [("name", JStr (name service));
                ("status", JStr (if Http.ok response then "online" else "offline"));
                ("url", JStr (url service));
                ("details", data)]))
    (fun error =>
       ret (JObj [("name", JStr (name service));
                  ("status", JStr "offline");
                  ("url", JStr (url service));
                  ("error", JStr (message_of error))])).

(** [GET /api/models/status] *)
Definition modelsStatus : IO Reply :=
  status <- map_all probe services ;;
  ret (json 200 (JObj [("services", JArr status)])).

Definition defaultModelConfigs : JsVal :=
  JObj [("ollama", JObj [("baseUrl", JStr "http://localhost:11434");
                         ("apiKey", JStr "not-required")])].

Definition defaultSecrets : JsVal :=
  JObj [("DATABASE_URL", JStr "postgresql://localhost:5432/research_app");
        ("JWT_SECRET", JStr "your-jwt-secret-here")].

(** The answer of the catch clause. *)
Definition failure (error : Raised) : Reply :=
  json 500 (JObj [("success", JBool false);
                  ("error", JStr (message_of error));
                  ("step", step_of error)]).

(** [POST /api/workflows/execute] *)
Definition execute (req : Req) : IO Reply :=
  try_catch
    (destructure (body req) "req.body" "researchTopic" ;;;
     let researchTopic := Js.get_opt (body req) "researchTopic" in
     let modelConfigs := Js.get_opt (body req) "modelConfigs" in
     let secrets := Js.get_opt (body req) "secrets" in
     if negb (Js.truthy researchTopic)
     then ret (json 400 (JObj [("error", JStr "researchTopic is required")]))
     else
     starting <- template "🚀 Starting workflow execution: " researchTopic "" ;;
     console_log [starting] ;;;
     result <- executeWorkflow
                 (JObj [("researchTopic", researchTopic);
                        ("modelConfigs", Js.or modelConfigs defaultModelConfigs);
                        ("secrets", Js.or secrets defaultSecrets)]) ;;
     metadata <- lift (Js.get result "metadata") ;;
     duration <- lift (Js.get metadata "duration") ;;
     metadata <- lift (Js.get result "metadata") ;;
     stepsExecuted <- lift (Js.get metadata "stepsExecuted") ;;
     ret (json 200
            (JObj [("success", JBool true);
                   ("data", result);
                   ("metadata", JObj [("executionTime", duration);
                                      ("stepsExecuted", stepsExecuted);
                                      ("workflowId", JStr "research-to-app-trial")])])))
    (fun error =>
       console_log [Text "Workflow execution failed:"; Caught error] ;;;
       ret (failure error)).

(** The module body that runs when the server starts. *)
Definition startup : IO unit :=
  registerOpenSourceAdapters ;;;
  compiledWorkflow <- compileWorkflow Flow.researchToAppFlow ;;
  ret tt.

Definition dq : string := String "034"%char EmptyString.

Section TestRoute.

(** Number::toString, see [Js.text]. *)
Variable number_text : Q -> string.

(** The request sent to the address [baseUrl]. *)
Definition testRequest (baseUrl : string) : Http.Request :=
  {| Http.url := baseUrl ++ "/api/generate";
     Http.method := "POST";
     Http.headers := [("Content-Type", "application/json")];
     Http.body := Js.stringify (JObj
       [("model", JStr "llama3:8b");
        ("prompt", JStr ("Test response - say " ++ dq ++ "OK" ++ dq));
        ("stream", JBool false)]) |}.

(** [POST /api/models/:provider/test]; the two destructurings stand before
    the [try], and [req.params] is always an object.  The template literal
    of the URL turns [config.baseUrl] into a string. *)
Definition testModel (provider : string) (req : Req) : IO Reply :=
  destructure (body req) "req.body" "config" ;;;
  let config := Js.get_opt (body req) "config" in
  try_catch
    (baseUrl <- lift (Js.get config "baseUrl") ;;
     baseUrl <- lift (Js.to_string number_text baseUrl) ;;
     response <- fetch (testRequest baseUrl) ;;
     data <- response_json response ;;
     text <- lift (Js.get data "response") ;;
     ret (json 200
            (JObj [("success", JBool (Http.ok response));
                   ("response", text);
                   ("status", JNum (inject_Z (Z.of_nat (Http.status response))))])))
    (fun error =>
       ret (json 500 (JObj [("success", JBool false);
                            ("error", JStr (message_of error))]))).

End TestRoute.

End Server.

(** ** The Vercel function of api/execute.ts *)

Module Vercel.
Import Host.
Local Open Scope io_scope.

(** The three headers set before anything else. *)
Definition cors : list (string * string) :=
  [("Access-Control-Allow-Origin", "*");
   ("Access-Control-Allow-Methods", "POST, OPTIONS");
   ("Access-Control-Allow-Headers", "Content-Type")].

Definition json (status : nat) (v : JsVal) : Reply :=
  {| code := status; headers := cors; payload := Some v |}.

(** [res.status(200).end()] *)
Definition finish (status : nat) : Reply :=
  {| code := status; headers := cors; payload := None |}.

Definition failure (error : Raised) : Reply :=
  json 500 (JObj [("success", JBool false);
                  ("error", JStr (message_of error));
                  ("step", step_of error)]).

(** [process.env.K || d] *)
Definition env_or (k d : string) : IO string :=
  v <- getenv k ;; ret (Js.or_string v d).

Definition handler (req : Req) : IO Reply :=
  if method req =? "OPTIONS" then ret (finish 200)
  else if negb (method req =? "POST")
  then ret (json 405 (JObj [("error", JStr "Method not allowed")]))
  else
  try_catch
    (destructure (body req) "req.body" "researchTopic" ;;;
     let researchTopic := Js.get_opt (body req) "researchTopic" in
     let modelConfigs := Js.get_opt (body req) "modelConfigs" in
     if negb (Js.truthy researchTopic)
     then ret (json 400 (JObj [("error", JStr "researchTopic is required")]))
     else
     starting <- template "🚀 Starting workflow for: " researchTopic "" ;;
     console_log [starting] ;;;
     ollamaUrl <- env_or "OLLAMA_URL" "http://localhost:11434" ;;
     databaseUrl <- env_or "DATABASE_URL" "" ;;
     jwtSecret <- env_or "JWT_SECRET" "" ;;
     result <- executeWorkflow
                 (JObj [("researchTopic", researchTopic);
                        ("modelConfigs",
                         Js.or modelConfigs
                           (JObj [("ollama", JObj [("baseUrl", JStr ollamaUrl);
                                                   ("apiKey", JStr "not-required")])]));
                        ("secrets", JObj [("DATABASE_URL", JStr databaseUrl);
                                          ("JWT_SECRET", JStr jwtSecret)])]) ;;
     metadata <- lift (Js.get result "metadata") ;;
     duration <- lift (Js.get metadata "duration") ;;
     metadata <- lift (Js.get result "metadata") ;;
     stepsExecuted <- lift (Js.get metadata "stepsExecuted") ;;
     ret (json 200
            (JObj [("success", JBool true);
                   ("data", result);
                   ("metadata", JObj [("executionTime", duration);
                                      ("stepsExecuted", stepsExecuted)])])))
    (fun error =>
       console_log [Text "Workflow execution failed:"; Caught error] ;;;
       ret (failure error)).

(** The module body that runs on a cold start. *)
Definition startup : IO unit :=
  registerOpenSourceAdapters ;;;
  compiledWorkflow <- compileWorkflow Flow.researchToAppFlow ;;
  ret tt.

End Vercel.

(** ** The browser client: the simulated progress display of app.js *)

Module Client.

Definition steps : list string :=
  ["analyze-research-topic";
   "design-architecture";
   "generate-project-structure";
   "create-core-components";
   "setup-testing";
   "create-documentation";
   "setup-deployment";
   "quality-assurance"].

Definition stepNames : list (string * string) :=
  [("analyze-research-topic", "🔍 Analyzing Research Topic");
   ("design-architecture", "🏗️ Designing Architecture");
   ("generate-project-structure", "📁 Generating Project Structure");
   ("create-core-components", "💻 Creating Core Components");
   ("setup-testing", "🧪 Setting Up Testing");
   ("create-documentation", "📚 Creating Documentation");
   ("setup-deployment", "🚀 Setting Up Deployment");
   ("quality-assurance", "✅ Quality Assurance")].

Definition nl : string := String "010"%char EmptyString.
Definition dq : string := String "034"%char EmptyString.

(** [stepNames[stepId]]: nothing when the id has no name. *)
Definition stepName_of (stepId : string) : option string :=
  option_map snd (find (fun p => fst p =? stepId) stepNames).

(** The template literal assigned to [stepResult.innerHTML]. *)
Definition block (stepName : option string) : string :=
  String.concat nl
    ["";
     "                <div class=" ++ dq ++ "step-name" ++ dq ++ ">";
     "                    " ++ Js.interpolate stepName;
     "                    <span class=" ++ dq ++ "step-status completed" ++ dq ++ ">✅</span>";
     "                </div>";
     "            "].

(** What the interval callback reads and writes: the counter, whether the
    interval is still set, the percentage written to the width of the
    progress bar, the text under it, and the blocks appended to the step
    results, oldest first ([None]: not written yet). *)
Record Progress : Type := {
  currentStep : nat;
  running : bool;
  width : option Q;
  text : option (option string);
  results : list string
}.

(** The state [simulateWorkflowProgress] sets the interval in, after
    [showWorkflowProgress] has emptied the step results. *)
Definition initial : Progress :=
  {| currentStep := 0; running := true; width := None; text := None; results := [] |}.

(** One call of the interval callback; a cleared interval calls no more. *)
Definition tick (s : Progress) : Progress :=
  if negb (running s) then s
  else if (length steps <=? currentStep s)%nat
  then {| currentStep := currentStep s;
          running := false;
          width := Some 100%Q;
          text := Some (Some "✅ Workflow completed!");
          results := results s |}
  else
    let stepId := nth (currentStep s) steps "" in
    let stepName := stepName_of stepId in
    let progress :=
      ((inject_Z (Z.of_nat (currentStep s + 1)) / inject_Z (Z.of_nat (length steps)))
       * 100)%Q in
    {| currentStep := currentStep s + 1;
       running := true;
       width := Some progress;
       text := Some stepName;
       results := (results s ++ [block stepName])%list |}.

(** The state after [n] periods of the interval. *)
Definition after (n : nat) : Progress := Nat.iter n tick initial.

End Client.

(** ** Sample environments *)

Module Hosts.
Import Host.

(** No service answers, the workflow compiles, every execution fails at the
    first step. *)
Definition failing_engine : Env :=
  {| network := fun _ => Http.Rejected "fetch failed";
     engine := fun _ => inl (RaisedError "Unknown provider"
                               [("step", JStr "analyze-research-topic")]);
     compiler := fun _ => inr JNull;
     environment := fun _ => None |}.

(** As [failing_engine], with an error whose [step] is an object that has
    a property [toString] of its own. *)
Definition odd_engine : Env :=
  {| network := fun _ => Http.Rejected "fetch failed";
     engine := fun _ => inl (RaisedError "Unknown provider"
                               [("step", JObj [("toString", JNum 1)])]);
     compiler := fun _ => inr JNull;
     environment := fun _ => None |}.

(** Every service answers 200 with an empty object, the workflow compiles,
    every execution returns the same record. *)
Definition record : JsVal :=
  JObj [("outputs", JObj [("analyze-research-topic", JStr "{}")]);
        ("metadata", JObj [("duration", JNum 12); ("stepsExecuted", JNum 8)])].

Definition working_engine : Env :=
  {| network := fun _ => Http.Resolved
                           {| Http.status := 200; Http.statusText := "OK";
                              Http.json := inr (JObj []) |};
     engine := fun _ => inr record;
     compiler := fun _ => inr JNull;
     environment := fun _ => None |}.

(** Every service answers 503 with a JSON error body. *)
Definition overloaded : Env :=
  {| network := fun _ => Http.Resolved
                           {| Http.status := 503;
                              Http.statusText := "Service Unavailable";
                              Http.json := inr (JObj [("error", JStr "overloaded")]) |};
     engine := fun _ => inr record;
     compiler := fun _ => inr JNull;
     environment := fun _ => None |}.

(** How an entry of the status report describes the service [s] on the
    network of [env]: it repeats the name and the URL, says [online] or
    [offline], [online] exactly when the probe resolves with a 2xx status
    and a body that parses, and carries as [error] the message of a rejected
    probe or of a 2xx body that does not parse. *)
Definition describes (env : Env) (s : Server.Service) (entry : JsVal) : Prop :=
  let probe := network env (Host.get (Server.url s)) in
  Js.get_opt entry "name" = JStr (Server.name s)
  /\ Js.get_opt entry "url" = JStr (Server.url s)
  /\ (Js.get_opt entry "status" = JStr "online"
      \/ Js.get_opt entry "status" = JStr "offline")
  /\ (Js.get_opt entry "status" = JStr "online"
      <-> exists r data,
            probe = Http.Resolved r /\ Http.ok r = true /\ Http.json r = inr data)
  /\ (forall m, probe = Http.Rejected m -> Js.get_opt entry "error" = JStr m)
  /\ (forall r m, probe = Http.Resolved r -> Http.ok r = true -> Http.json r = inl m ->
        Js.get_opt entry "error" = JStr m)
  /\ (forall r, probe = Http.Resolved r -> Http.ok r = false ->
        Js.get_opt entry "details" = JNull /\ Js.has_key entry "error" = false).

End Hosts.

(** * Properties *)

Import Http OpenSourceLLM Reading.

(** Unfolding the effect layer. *)
Ltac eff_unfold :=
  unfold run, try_catch, bind, fetch, response_json, lift, throw, ret in *.

Lemma first_content_text (options : LLMCallOptions) :
  first_content options = JStr (first_message_text options).
Proof.
  unfold first_content, first_message_text.
  destruct (messages options) as [|m rest]; [reflexivity|].
  destruct (content m) as [s|]; [|reflexivity].
  unfold Js.or; simpl.
  destruct (String.eqb_spec s ""); simpl; congruence.
Qed.

Lemma or_number (o : option Q) (d : Q) :
  Js.or (Js.of_number o) (JNum d) = JNum (number_or o d).
Proof.
  destruct o as [q|]; [|reflexivity].
  unfold Js.or, number_or; simpl. destruct (Qeq_bool q 0); reflexivity.
Qed.

Lemma ok_status (r : Response) :
  ok r = true <-> (200 <= status r <= 299)%nat.
Proof.
  unfold ok. rewrite andb_true_iff, !Nat.leb_le. tauto.
Qed.

Lemma json_object_requested_iff (options : LLMCallOptions) :
  json_object_requested options = true
  <-> exists rf, responseFormat options = Some rf /\ type rf = "json_object".
Proof.
  unfold json_object_requested. destruct (responseFormat options) as [rf|].
  - rewrite String.eqb_eq. split.
    + intros H. exists rf. split; [reflexivity | exact H].
    + intros [rf' [H1 H2]]. inversion H1. subst rf'. exact H2.
  - split; [discriminate|]. intros [rf [H _]]. discriminate H.
Qed.

Section OllamaRequest.
Variable number_text : Q -> string.
Variable options : LLMCallOptions.

Lemma ollama_sends (net : Net) :
  snd (run (ollamaAdapter number_text options) net) = [ollamaRequest options].
Proof.
  unfold ollamaAdapter, ollamaBlock. eff_unfold.
  destruct (net _) as [m|r]; [reflexivity|].
  destruct (ok r); [|reflexivity].
  destruct (json r) as [m|data]; [reflexivity|].
  destruct (Js.get data "response"); [reflexivity|].
  destruct (Js.get data "prompt_eval_count"); [reflexivity|].
  destruct (Js.get data "eval_count"); [reflexivity|].
  destruct (plus number_text _ _); reflexivity.
Qed.

Lemma ollama_body :
  body (ollamaRequest options) =
  JObj ([("model", JStr (model options));
         ("prompt", JStr (first_message_text options));
         ("options", JObj [("temperature", JNum (number_or (temperature options) 0.7));
                           ("num_predict", JNum (number_or (maxTokens options) 2048))]);
         ("stream", JBool false)]
        ++ (if json_object_requested options then [("format", JStr "json")] else []))%list.
Proof.
  unfold ollamaRequest. cbn [body].
  rewrite first_content_text, !or_number.
  destruct (json_object_requested options); reflexivity.
Qed.

Lemma ollama_non_2xx (net : Net) (r : Response) :
  net (ollamaRequest options) = Resolved r ->
  ok r = false ->
  fst (run (ollamaAdapter number_text options) net) =
  inl (ErrorObj ("Ollama adapter failed: Ollama API error: "
                 ++ Js.digits (status r) ++ " " ++ statusText r)).
Proof.
  intros Hnet Hok. unfold ollamaAdapter, ollamaBlock. eff_unfold.
  rewrite Hnet, Hok. reflexivity.
Qed.
End OllamaRequest.

(** C6. The Ollama adapter sends one generate-style request: the prompt is
    the content string of the first message, the sampling options
    [temperature] and [num_predict] sit under the [options] key and not at
    the top level, [format] is ["json"] when [responseFormat.type] is
    ['json_object'] and is in the body in no other case, and every HTTP
    response whose status is not 2xx makes the adapter throw. *)
Theorem ollama_generate_request
    (number_text : Q -> string) (options : LLMCallOptions) (net : Net) :
  let req := ollamaRequest options in
  snd (run (ollamaAdapter number_text options) net) = [req]
  /\ url req = Js.or_string (baseUrl options) "http://localhost:11434" ++ "/api/generate"
  /\ method req = "POST"
  /\ Js.get_opt (body req) "prompt" = JStr (first_message_text options)
  /\ Js.get_opt (body req) "options" =
       JObj [("temperature", JNum (number_or (temperature options) 0.7));
             ("num_predict", JNum (number_or (maxTokens options) 2048))]
  /\ Js.has_key (body req) "temperature" = false
  /\ Js.has_key (body req) "num_predict" = false
  /\ (forall rf, responseFormat options = Some rf -> type rf = "json_object" ->
        Js.get_opt (body req) "format" = JStr "json")
  /\ (Js.has_key (body req) "format" = true ->
        exists rf, responseFormat options = Some rf /\ type rf = "json_object")
  /\ (forall r, net req = Resolved r ->
        ~ (200 <= status r <= 299)%nat ->
        fst (run (ollamaAdapter number_text options) net) =
        inl (ErrorObj ("Ollama adapter failed: Ollama API error: "
                       ++ Js.digits (status r) ++ " " ++ statusText r))).
Proof.
  intros req. subst req.
  split; [apply ollama_sends|].
  split; [reflexivity|].
  split; [reflexivity|].
  rewrite ollama_body.
  split; [destruct (json_object_requested options); reflexivity|].
  split; [destruct (json_object_requested options); reflexivity|].
  split; [destruct (json_object_requested options); reflexivity|].
  split; [destruct (json_object_requested options); reflexivity|].
  split.
  { intros rf Hrf Htype.
    assert (H : json_object_requested options = true)
      by (apply json_object_requested_iff; exists rf; split; assumption).
    rewrite H. reflexivity. }
  split.
  { destruct (json_object_requested options) eqn:H; [|discriminate].
    intros _. apply json_object_requested_iff. exact H. }
  intros r Hnet Hstatus.
  apply ollama_non_2xx; [exact Hnet|].
  destruct (ok r) eqn:Hok; [|reflexivity].
  apply ok_status in Hok. contradiction.
Qed.

Section VllmRequest.
Variable options : LLMCallOptions.

Lemma vllm_sends (net : Net) :
  snd (run (vllmAdapter options) net) = [vllmRequest options].
Proof.
  unfold vllmAdapter, vllmBlock. eff_unfold.
  destruct (net _) as [m|r]; [reflexivity|].
  destruct (ok r); [|reflexivity].
  destruct (json r) as [m|data]; [reflexivity|].
  destruct (Js.get data "choices") as [t|choices]; [reflexivity|].
  destruct (Js.truthy (Js.index_opt choices 0)) eqn:Hchoice; [|reflexivity].
  cbn [negb].
  destruct (Js.get (Js.index_opt choices 0) "text"); [reflexivity|].
  destruct (Js.get data "usage"); reflexivity.
Qed.

Lemma vllm_body :
  body (vllmRequest options) =
  JObj ([("model", JStr (model options));
         ("prompt", JStr (first_message_text options));
         ("max_tokens", JNum (number_or (maxTokens options) 2048));
         ("temperature", JNum (number_or (temperature options) 0.7));
         ("echo", JBool false)]
        ++ (if json_object_requested options then [("guided_json", JObj [])] else []))%list.
Proof.
  unfold vllmRequest. cbn [body].
  rewrite first_content_text, !or_number.
  destruct (json_object_requested options); reflexivity.
Qed.

Lemma vllm_no_choice (net : Net) (r : Response) (data choices : JsVal) :
  net (vllmRequest options) = Resolved r ->
  ok r = true ->
  json r = inr data ->
  Js.get data "choices" = inr choices ->
  Js.truthy (Js.index_opt choices 0) = false ->
  fst (run (vllmAdapter options) net) =
  inl (ErrorObj "vLLM adapter failed: No completion returned from vLLM").
Proof.
  intros Hnet Hok Hjson Hget Hfalsy. unfold vllmAdapter, vllmBlock. eff_unfold.
  rewrite Hnet, Hok. cbn [negb]. rewrite Hjson, Hget, Hfalsy. reflexivity.
Qed.
End VllmRequest.

Lemma vllm_null_body (options : LLMCallOptions) (net : Net) (r : Response) (data : JsVal) :
  net (vllmRequest options) = Resolved r ->
  ok r = true ->
  json r = inr data ->
  Js.nullish data = true ->
  fst (run (vllmAdapter options) net) =
  inl (ErrorObj ("vLLM adapter failed: Cannot read properties of "
                 ++ (if Js.is_undefined data then "undefined" else "null")
                 ++ " (reading 'choices')")).
Proof.
  intros Hnet Hok Hjson Hdata. unfold vllmAdapter, vllmBlock. eff_unfold.
  rewrite Hnet, Hok. cbn [negb]. rewrite Hjson.
  destruct data; try discriminate Hdata; reflexivity.
Qed.

(** C4. The vLLM adapter sends one OpenAI-compatible completions request
    with an [Authorization: Bearer] header carrying the credential, and puts
    the guided-decoding hint [guided_json] in the body when
    [responseFormat.type] is ['json_object'] and in no other case.  On a
    2xx response whose [choices] is absent, null or an empty array it never
    returns a result: it throws the no-completion error when the body is
    not [null], and on the body [null], which has no choice list either,
    the TypeError of reading [choices]. *)
Theorem vllm_completions_request (options : LLMCallOptions) (net : Net) :
  let req := vllmRequest options in
  snd (run (vllmAdapter options) net) = [req]
  /\ url req = Js.or_string (baseUrl options) "http://localhost:8000" ++ "/v1/completions"
  /\ method req = "POST"
  /\ headers req = [("Content-Type", "application/json");
                    ("Authorization", "Bearer " ++ Js.interpolate (apiKey options))]
  /\ (forall rf, responseFormat options = Some rf -> type rf = "json_object" ->
        Js.keys (body req)
        = ["model"; "prompt"; "max_tokens"; "temperature"; "echo"; "guided_json"]
        /\ Js.get_opt (body req) "guided_json" = JObj [])
  /\ (Js.has_key (body req) "guided_json" = true ->
        exists rf, responseFormat options = Some rf /\ type rf = "json_object")
  /\ (Js.has_key (body req) "guided_json" = false ->
        Js.keys (body req) = ["model"; "prompt"; "max_tokens"; "temperature"; "echo"])
  /\ (forall r data,
        net req = Resolved r ->
        ok r = true ->
        json r = inr data ->
        Js.get_opt data "choices" = JUndefined
        \/ Js.get_opt data "choices" = JNull
        \/ Js.get_opt data "choices" = JArr [] ->
        fst (run (vllmAdapter options) net) =
        inl (ErrorObj
               ("vLLM adapter failed: "
                ++ match data with
                   | JNull => "Cannot read properties of null (reading 'choices')"
                   | JUndefined => "Cannot read properties of undefined (reading 'choices')"
                   | _ => "No completion returned from vLLM"
                   end))).
Proof.
  intros req. subst req.
  split; [apply vllm_sends|].
  split; [reflexivity|].
  split; [reflexivity|].
  split; [reflexivity|].
  rewrite vllm_body.
  split.
  { intros rf Hrf Htype.
    assert (H : json_object_requested options = true)
      by (apply json_object_requested_iff; exists rf; split; assumption).
    rewrite H. split; reflexivity. }
  split.
  { destruct (json_object_requested options) eqn:H; [|discriminate].
    intros _. apply json_object_requested_iff. exact H. }
  split; [destruct (json_object_requested options); [discriminate | reflexivity]|].
  intros r data Hnet Hok Hjson Hempty.
  destruct (Js.nullish data) eqn:Hdata.
  - rewrite (vllm_null_body options net r data Hnet Hok Hjson Hdata).
    destruct data; try discriminate Hdata; reflexivity.
  - assert (Hget : Js.get data "choices" = inr (Js.get_opt data "choices")).
    { unfold Js.get_opt. destruct data; try discriminate Hdata; reflexivity. }
    rewrite (vllm_no_choice options net r data _ Hnet Hok Hjson Hget).
    + destruct data; try discriminate Hdata; reflexivity.
    + destruct Hempty as [-> | [-> | ->]]; reflexivity.
Qed.

(** ** Reading property values *)

Lemma get_inr (v : JsVal) (k : string) (x : JsVal) :
  Js.get v k = inr x -> Js.get_opt v k = x.
Proof. unfold Js.get_opt. intros ->. reflexivity. Qed.

Lemma index_inr (v : JsVal) (i : nat) (x : JsVal) :
  Js.index v i = inr x -> Js.index_opt v i = x.
Proof. unfold Js.index_opt. intros ->. reflexivity. Qed.

Lemma get_throws_error (v : JsVal) (k : string) (t : Thrown) :
  Js.get v k = inl t -> exists m, t = ErrorObj m.
Proof.
  destruct v; simpl; intros H; inversion H; unfold Js.cannot_read; eauto.
Qed.

Lemma index_throws_error (v : JsVal) (i : nat) (t : Thrown) :
  Js.index v i = inl t -> exists m, t = ErrorObj m.
Proof.
  destruct v; simpl; intros H; inversion H; unfold Js.cannot_read; eauto.
Qed.

Lemma get_truthy (v : JsVal) (k : string) :
  Js.truthy v = true -> Js.get v k = inr (Js.get_opt v k).
Proof.
  unfold Js.get_opt. destruct v; simpl; intros H; try discriminate; reflexivity.
Qed.

Lemma or_truthy (a b : JsVal) : Js.truthy a = true -> Js.or a b = a.
Proof. unfold Js.or. intros ->. reflexivity. Qed.

Lemma or_falsy (a b : JsVal) : Js.truthy a = false -> Js.or a b = b.
Proof. unfold Js.or. intros ->. reflexivity. Qed.

(** ** Operands of [+] *)

Lemma converts_or_zero (v : JsVal) :
  Js.converts (Js.or v (JNum 0)) = Js.converts v.
Proof. unfold Js.or. destruct v as [| |[|]|q| | |s|items|props]; cbn; try reflexivity.
  - destruct (Qeq_bool q 0); reflexivity.
  - destruct (s =? ""); reflexivity.
Qed.

Lemma plus_or_zero (number_text : Q -> string) (p c : JsVal) :
  plus number_text (Js.or p (JNum 0)) (Js.or c (JNum 0))
  = if addable p c
    then inr (sum number_text (Js.or p (JNum 0)) (Js.or c (JNum 0)))
    else inl Js.cannot_convert.
Proof. unfold plus, addable. rewrite !converts_or_zero. reflexivity. Qed.

Lemma converts_primitive (v : JsVal) : primitive v -> Js.converts v = true.
Proof. destruct v; cbn; intros H; try reflexivity; contradiction. Qed.

Lemma lookup_app (props : list (string * JsVal)) (k : string) (p : string * JsVal) :
  Js.lookup (props ++ [p]) k = if fst p =? k then Some (snd p) else Js.lookup props k.
Proof. unfold Js.lookup. rewrite fold_left_app. reflexivity. Qed.

Lemma lookup_has_key (props : list (string * JsVal)) (k : string) :
  Js.lookup props k <> None <-> existsb (fun p => fst p =? k) props = true.
Proof.
  induction props as [|p props IH] using rev_ind.
  - cbn. split; [intros H; contradiction H; reflexivity | discriminate].
  - rewrite lookup_app, existsb_app. cbn [existsb]. rewrite orb_false_r.
    destruct (fst p =? k).
    + rewrite orb_true_r. split; [reflexivity | discriminate].
    + rewrite orb_false_r. exact IH.
Qed.

Lemma converts_hides_toString (v : JsVal) : hides_toString v -> Js.converts v = false.
Proof.
  intros [props [-> H]]. cbn. apply lookup_has_key in H. rewrite H. reflexivity.
Qed.

(** ** What a successful call returns *)

Section Success.
Variable number_text : Q -> string.
Variable options : LLMCallOptions.
Variable net : Net.

Lemma ollama_success (result : JsVal) :
  fst (run (ollamaAdapter number_text options) net) = inr result ->
  exists r data,
    net (ollamaRequest options) = Resolved r /\ ok r = true /\ json r = inr data
    /\ addable (Js.get_opt data "prompt_eval_count") (Js.get_opt data "eval_count") = true
    /\ result = ollama_result number_text data.
Proof.
  unfold ollamaAdapter, ollamaBlock, ollama_result. eff_unfold.
  destruct (net _) as [m|r] eqn:Hnet; [discriminate|].
  destruct (ok r) eqn:Hok; [|discriminate]. cbn [negb].
  destruct (json r) as [m|data] eqn:Hjson; [discriminate|].
  destruct (Js.get data "response") as [t|text] eqn:H1; [discriminate|].
  destruct (Js.get data "prompt_eval_count") as [t|p] eqn:H2; [discriminate|].
  destruct (Js.get data "eval_count") as [t|c] eqn:H3; [discriminate|].
  apply get_inr in H1. apply get_inr in H2. apply get_inr in H3. subst text p c.
  rewrite plus_or_zero.
  destruct (addable _ _) eqn:Hadd; [|discriminate].
  cbn [fst]. intros H; inversion H; subst result.
  exists r, data. repeat split; assumption.
Qed.

Lemma vllm_success (result : JsVal) :
  fst (run (vllmAdapter options) net) = inr result ->
  exists r data,
    net (vllmRequest options) = Resolved r /\ ok r = true /\ json r = inr data
    /\ Js.truthy (Js.index_opt (Js.get_opt data "choices") 0) = true
    /\ result = vllm_result data.
Proof.
  unfold vllmAdapter, vllmBlock, vllm_result. eff_unfold.
  destruct (net _) as [m|r] eqn:Hnet; [discriminate|].
  destruct (ok r) eqn:Hok; [|discriminate]. cbn [negb].
  destruct (json r) as [m|data] eqn:Hjson; [discriminate|].
  destruct (Js.get data "choices") as [t|choices] eqn:H1; [discriminate|].
  destruct (Js.truthy (Js.index_opt choices 0)) eqn:Hchoice; [|discriminate].
  cbn [negb].
  destruct (Js.get (Js.index_opt choices 0) "text") as [t|text] eqn:H2; [discriminate|].
  destruct (Js.get data "usage") as [t|usage] eqn:H3; [discriminate|].
  cbn [fst]. intros H; inversion H; subst result.
  exists r, data.
  rewrite (get_inr _ _ _ H1), (get_inr _ _ _ H2), (get_inr _ _ _ H3).
  repeat split; assumption.
Qed.

Lemma tgi_success (result : JsVal) :
  fst (run (tgiAdapter number_text options) net) = inr result ->
  exists r data,
    net (tgiRequest options) = Resolved r /\ ok r = true /\ json r = inr data
    /\ addable (Js.get_opt (Js.get_opt data "details") "prompt_tokens")
               (Js.get_opt (Js.get_opt data "details") "generated_tokens") = true
    /\ result = tgi_result number_text data.
Proof.
  unfold tgiAdapter, tgiBlock, generated_text_of. eff_unfold.
  destruct (net _) as [m|r] eqn:Hnet; [discriminate|].
  destruct (ok r) eqn:Hok; [|discriminate]. cbn [negb].
  destruct (json r) as [m|data] eqn:Hjson; [discriminate|].
  destruct (Js.get data "generated_text") as [t|single] eqn:H1; [discriminate|].
  destruct (Js.truthy single) eqn:Hsingle.
  - destruct (Js.get data "details") as [t|details] eqn:H3; [discriminate|].
    apply get_inr in H1. apply get_inr in H3. subst single details.
    rewrite plus_or_zero.
    destruct (addable _ _) eqn:Hadd; [|discriminate].
    cbn [fst]. intros H; inversion H; subst result.
    exists r, data. repeat split; try assumption.
    unfold tgi_result. rewrite (or_truthy _ _ Hsingle). reflexivity.
  - destruct (Js.index data 0) as [t|first] eqn:H2; [discriminate|].
    destruct (Js.get data "details") as [t|details] eqn:H3; [discriminate|].
    apply get_inr in H1. apply index_inr in H2. apply get_inr in H3.
    subst single first details.
    rewrite plus_or_zero.
    destruct (addable _ _) eqn:Hadd; [|discriminate].
    cbn [fst]. intros H; inversion H; subst result.
    exists r, data. repeat split; try assumption.
    unfold tgi_result. rewrite (or_falsy _ _ Hsingle). reflexivity.
Qed.
End Success.

(** ** What the try blocks throw *)

Lemma try_catch_wraps (block : Eff JsVal) (prefix : string) (net : Net) (t : Thrown) :
  fst (run (try_catch block
              (fun error => throw (ErrorObj (prefix ++ message_of error)))) net) = inl t ->
  exists cause, fst (run block net) = inl cause
                /\ t = ErrorObj (prefix ++ message_of cause).
Proof.
  eff_unfold. destruct (block net []) as [[cause|a] log]; cbn [fst].
  - intros H; inversion H. eauto.
  - discriminate.
Qed.

Lemma ollama_block_throws (number_text : Q -> string)
    (options : LLMCallOptions) (net : Net) (t : Thrown) :
  fst (run (ollamaBlock number_text options) net) = inl t -> exists m, t = ErrorObj m.
Proof.
  unfold ollamaBlock. eff_unfold.
  destruct (net _) as [m|r]; cbn [fst]; [intros H; inversion H; eauto|].
  destruct (ok r); cbn [negb fst]; [|intros H; inversion H; eauto].
  destruct (json r) as [m|data]; cbn [fst]; [intros H; inversion H; eauto|].
  destruct (Js.get data "response") as [e|x] eqn:H1; cbn [fst];
    [intros H; inversion H; subst; eapply get_throws_error; eauto|].
  destruct (Js.get data "prompt_eval_count") as [e|p] eqn:H2; cbn [fst];
    [intros H; inversion H; subst; eapply get_throws_error; eauto|].
  destruct (Js.get data "eval_count") as [e|c] eqn:H3; cbn [fst];
    [intros H; inversion H; subst; eapply get_throws_error; eauto|].
  unfold plus. destruct (Js.converts _ && Js.converts _); cbn [fst];
    [discriminate | intros H; inversion H; unfold Js.cannot_convert; eauto].
Qed.

Lemma vllm_block_throws (options : LLMCallOptions) (net : Net) (t : Thrown) :
  fst (run (vllmBlock options) net) = inl t -> exists m, t = ErrorObj m.
Proof.
  unfold vllmBlock. eff_unfold.
  destruct (net _) as [m|r]; cbn [fst]; [intros H; inversion H; eauto|].
  destruct (ok r); cbn [negb fst]; [|intros H; inversion H; eauto].
  destruct (json r) as [m|data]; cbn [fst]; [intros H; inversion H; eauto|].
  destruct (Js.get data "choices") as [e|choices] eqn:H1; cbn [fst];
    [intros H; inversion H; subst; eapply get_throws_error; eauto|].
  destruct (Js.truthy (Js.index_opt choices 0)); cbn [negb fst];
    [|intros H; inversion H; eauto].
  destruct (Js.get (Js.index_opt choices 0) "text") as [e|x] eqn:H2; cbn [fst];
    [intros H; inversion H; subst; eapply get_throws_error; eauto|].
  destruct (Js.get data "usage") as [e|u] eqn:H3; cbn [fst];
    [intros H; inversion H; subst; eapply get_throws_error; eauto|].
  discriminate.
Qed.

Lemma tgi_block_throws (number_text : Q -> string)
    (options : LLMCallOptions) (net : Net) (t : Thrown) :
  fst (run (tgiBlock number_text options) net) = inl t -> exists m, t = ErrorObj m.
Proof.
  unfold tgiBlock, generated_text_of. eff_unfold.
  destruct (net _) as [m|r]; cbn [fst]; [intros H; inversion H; eauto|].
  destruct (ok r); cbn [negb fst]; [|intros H; inversion H; eauto].
  destruct (json r) as [m|data]; cbn [fst]; [intros H; inversion H; eauto|].
  destruct (Js.get data "generated_text") as [e|single] eqn:H1; cbn [fst];
    [intros H; inversion H; subst; eapply get_throws_error; eauto|].
  destruct (Js.truthy single).
  - destruct (Js.get data "details") as [e|d] eqn:H3; cbn [fst];
      [intros H; inversion H; subst; eapply get_throws_error; eauto|].
    unfold plus. destruct (Js.converts _ && Js.converts _); cbn [fst];
      [discriminate | intros H; inversion H; unfold Js.cannot_convert; eauto].
  - destruct (Js.index data 0) as [e|first] eqn:H2; cbn [fst];
      [intros H; inversion H; subst; eapply index_throws_error; eauto|].
    destruct (Js.get data "details") as [e|d] eqn:H3; cbn [fst];
      [intros H; inversion H; subst; eapply get_throws_error; eauto|].
    unfold plus. destruct (Js.converts _ && Js.converts _); cbn [fst];
      [discriminate | intros H; inversion H; unfold Js.cannot_convert; eauto].
Qed.

Lemma try_catch_rethrows (block : Eff JsVal) (prefix : string) (net : Net) (cause : Thrown) :
  fst (run block net) = inl cause ->
  fst (run (try_catch block
              (fun error => throw (ErrorObj (prefix ++ message_of error)))) net)
  = inl (ErrorObj (prefix ++ message_of cause)).
Proof.
  eff_unfold. destruct (block net []) as [[c|a] log]; cbn [fst]; intros H; inversion H.
  reflexivity.
Qed.

Lemma fails_wrapped_intro (prefix api : string) (block : Eff JsVal)
    (req : Request) (net : Net) :
  (forall t, fst (run block net) = inl t -> exists m, t = ErrorObj m) ->
  (forall m, net req = Rejected m -> fst (run block net) = inl (ErrorObj m)) ->
  (forall r, net req = Resolved r -> ok r = false ->
     fst (run block net) =
     inl (ErrorObj (api ++ Js.digits (status r) ++ " " ++ statusText r))) ->
  (forall r m, net req = Resolved r -> ok r = true -> json r = inl m ->
     fst (run block net) = inl (ErrorObj m)) ->
  fails_wrapped prefix api
    (try_catch block (fun error => throw (ErrorObj (prefix ++ message_of error))))
    block req net.
Proof.
  intros Herr Hrej Hstatus Hjson. unfold fails_wrapped. repeat split.
  - intros t Ht. apply try_catch_wraps in Ht. destruct Ht as [cause [Hblock ->]].
    destruct (Herr _ Hblock) as [m ->]. exists m. split; [assumption|reflexivity].
  - intros m Hnet. apply (try_catch_rethrows block prefix net (ErrorObj m)).
    apply Hrej; exact Hnet.
  - intros r Hnet Hok.
    apply (try_catch_rethrows block prefix net
             (ErrorObj (api ++ Js.digits (status r) ++ " " ++ statusText r))).
    apply Hstatus; assumption.
  - intros r m Hnet Hok Hbody.
    apply (try_catch_rethrows block prefix net (ErrorObj m)).
    eapply Hjson; eassumption.
Qed.

(** C8. Each of the three adapters turns every failure of its try block
    into an [Error] that names the adapter and carries the message of the
    cause: a rejected [fetch] (its message), a response that is not 2xx (its
    status and status text) and an unreadable body alike.  Nothing the block
    throws leaves the adapter unwrapped. *)
Theorem adapter_failures_are_wrapped
    (number_text : Q -> string) (options : LLMCallOptions) (net : Net) :
  fails_wrapped "Ollama adapter failed: " "Ollama API error: "
    (ollamaAdapter number_text options) (ollamaBlock number_text options)
    (ollamaRequest options) net
  /\ fails_wrapped "vLLM adapter failed: " "vLLM API error: "
       (vllmAdapter options) (vllmBlock options) (vllmRequest options) net
  /\ fails_wrapped "TGI adapter failed: " "TGI API error: "
       (tgiAdapter number_text options) (tgiBlock number_text options)
       (tgiRequest options) net.
Proof.
  split; [|split].
  - apply fails_wrapped_intro.
    + apply ollama_block_throws.
    + intros m Hnet. unfold ollamaBlock. eff_unfold. rewrite Hnet. reflexivity.
    + intros r Hnet Hok. unfold ollamaBlock. eff_unfold. rewrite Hnet, Hok. reflexivity.
    + intros r m Hnet Hok Hbody. unfold ollamaBlock. eff_unfold.
      rewrite Hnet, Hok. cbn [negb]. rewrite Hbody. reflexivity.
  - apply fails_wrapped_intro.
    + apply vllm_block_throws.
    + intros m Hnet. unfold vllmBlock. eff_unfold. rewrite Hnet. reflexivity.
    + intros r Hnet Hok. unfold vllmBlock. eff_unfold. rewrite Hnet, Hok. reflexivity.
    + intros r m Hnet Hok Hbody. unfold vllmBlock. eff_unfold.
      rewrite Hnet, Hok. cbn [negb]. rewrite Hbody. reflexivity.
  - apply fails_wrapped_intro.
    + apply tgi_block_throws.
    + intros m Hnet. unfold tgiBlock. eff_unfold. rewrite Hnet. reflexivity.
    + intros r Hnet Hok. unfold tgiBlock. eff_unfold. rewrite Hnet, Hok. reflexivity.
    + intros r m Hnet Hok Hbody. unfold tgiBlock. eff_unfold.
      rewrite Hnet, Hok. cbn [negb]. rewrite Hbody. reflexivity.
Qed.

(** The three failure paths of the Ollama adapter on sample networks. *)
Lemma adapter_failures_are_wrapped_witness :
  fst (run (ollamaAdapter Sample.number_text Sample.options) Sample.unreachable)
  = inl (ErrorObj "Ollama adapter failed: fetch failed")
  /\ fst (run (vllmAdapter Sample.options) (Sample.answers 503 "Service Unavailable" JNull))
     = inl (ErrorObj "vLLM adapter failed: vLLM API error: 503 Service Unavailable")
  /\ fst (run (tgiAdapter Sample.number_text Sample.options)
            (Sample.answers 404 "Not Found" JNull))
     = inl (ErrorObj "TGI adapter failed: TGI API error: 404 Not Found").
Proof.
  split; [|split].
  - apply (proj1 (proj2 (proj1
      (adapter_failures_are_wrapped Sample.number_text Sample.options Sample.unreachable)))).
    reflexivity.
  - apply (proj1 (proj2 (proj2 (proj1 (proj2
      (adapter_failures_are_wrapped Sample.number_text Sample.options
         (Sample.answers 503 "Service Unavailable" JNull))))))
      {| status := 503; statusText := "Service Unavailable"; json := inr JNull |});
      reflexivity.
  - apply (proj1 (proj2 (proj2 (proj2 (proj2
      (adapter_failures_are_wrapped Sample.number_text Sample.options
         (Sample.answers 404 "Not Found" JNull))))))
      {| status := 404; statusText := "Not Found"; json := inr JNull |});
      reflexivity.
Defined.

(** ** The TGI response shapes *)

(** C2. The TGI adapter reads [generated_text] from a single object and
    from the first element of an array; on a 2xx response that has neither
    shape (the empty object) it does not fail: it returns a result whose
    [content] is [undefined]. *)
Theorem tgi_unmatched_shape_returns
    (number_text : Q -> string) (options : LLMCallOptions)
    (c : ascii) (s : string) :
  let text := JStr (String c s) in
  let zero_usage :=
    JObj [("prompt_tokens", JNum 0); ("completion_tokens", JNum 0);
          ("total_tokens", JNum 0)] in
  fst (run (tgiAdapter number_text options)
         (Sample.answers 200 "OK" (JObj [("generated_text", text)])))
  = inr (JObj [("content", text); ("usage", zero_usage)])
  /\ fst (run (tgiAdapter number_text options)
            (Sample.answers 200 "OK" (JArr [JObj [("generated_text", text)]])))
     = inr (JObj [("content", text); ("usage", zero_usage)])
  /\ fst (run (tgiAdapter number_text options) (Sample.answers 200 "OK" (JObj [])))
     = inr (JObj [("content", JUndefined); ("usage", zero_usage)]).
Proof.
  repeat split; reflexivity.
Qed.

(** ** The shape of a result *)

(** C3 in the words of the specification does not hold of any adapter: a
    successful call with a textual content returns a [usage] that has no
    [promptTokens], [completionTokens] or [totalTokens] key. *)
Lemma usage_keys_are_not_camel_case :
  let ollama := fst (run (ollamaAdapter Sample.number_text Sample.options)
                       (Sample.answers 200 "OK" Sample.ollama_data)) in
  let vllm := fst (run (vllmAdapter Sample.options)
                     (Sample.answers 200 "OK" Sample.vllm_data)) in
  let tgi := fst (run (tgiAdapter Sample.number_text Sample.options)
                    (Sample.answers 200 "OK" Sample.tgi_data)) in
  let usage :=
    JObj [("prompt_tokens", JNum 3); ("completion_tokens", JNum 4);
          ("total_tokens", JNum 7)] in
  let result := JObj [("content", JStr "Hi"); ("usage", usage)] in
  ollama = inr result /\ vllm = inr result /\ tgi = inr result
  /\ usage_of result "promptTokens" = JUndefined
  /\ usage_of result "completionTokens" = JUndefined
  /\ usage_of result "totalTokens" = JUndefined
  /\ ~ spec_result_shape result.
Proof.
  cbv zeta. repeat split; try reflexivity.
  intros [_ [_ Hkeys]]. discriminate Hkeys.
Qed.

(** C3, amended. Each adapter, on success, returns an object with exactly
    the keys [content] and [usage], where [usage] has exactly the keys
    [prompt_tokens], [completion_tokens] and [total_tokens]; [content] is
    the text field of the parsed response body. *)
Theorem adapters_return_content_and_usage
    (number_text : Q -> string) (options : LLMCallOptions) (net : Net) :
  (forall result,
     fst (run (ollamaAdapter number_text options) net) = inr result ->
     result_shape result
     /\ exists r data,
          net (ollamaRequest options) = Resolved r /\ json r = inr data
          /\ Js.get_opt result "content" = Js.get_opt data "response")
  /\ (forall result,
        fst (run (vllmAdapter options) net) = inr result ->
        result_shape result
        /\ exists r data,
             net (vllmRequest options) = Resolved r /\ json r = inr data
             /\ Js.get_opt result "content"
                = Js.get_opt (Js.index_opt (Js.get_opt data "choices") 0) "text")
  /\ (forall result,
        fst (run (tgiAdapter number_text options) net) = inr result ->
        result_shape result
        /\ exists r data,
             net (tgiRequest options) = Resolved r /\ json r = inr data
             /\ Js.get_opt result "content"
                = Js.or (Js.get_opt data "generated_text")
                        (Js.get_opt (Js.index_opt data 0) "generated_text")).
Proof.
  split; [|split]; intros result Hrun.
  - apply ollama_success in Hrun. destruct Hrun as [r [data [Hnet [_ [Hjson [_ ->]]]]]].
    split; [split; reflexivity|]. exists r, data. repeat split; assumption.
  - apply vllm_success in Hrun. destruct Hrun as [r [data [Hnet [_ [Hjson [_ ->]]]]]].
    split; [split; reflexivity|]. exists r, data. repeat split; assumption.
  - apply tgi_success in Hrun. destruct Hrun as [r [data [Hnet [_ [Hjson [_ ->]]]]]].
    split; [split; reflexivity|]. exists r, data. repeat split; assumption.
Qed.

(** The three sample calls return the amended shape. *)
Lemma adapters_return_content_and_usage_witness :
  result_shape (ollama_result Sample.number_text Sample.ollama_data)
  /\ result_shape (vllm_result Sample.vllm_data)
  /\ result_shape (tgi_result Sample.number_text Sample.tgi_data).
Proof.
  split; [|split].
  - apply (proj1 (adapters_return_content_and_usage Sample.number_text Sample.options
                    (Sample.answers 200 "OK" Sample.ollama_data))).
    reflexivity.
  - apply (proj1 (proj2 (adapters_return_content_and_usage Sample.number_text
                           Sample.options (Sample.answers 200 "OK" Sample.vllm_data)))).
    reflexivity.
  - apply (proj2 (proj2 (adapters_return_content_and_usage Sample.number_text
                           Sample.options (Sample.answers 200 "OK" Sample.tgi_data)))).
    reflexivity.
Defined.

(** ** Token counters *)

Lemma Qred_inject_Z (k : Z) : Qred (inject_Z k) = inject_Z k.
Proof.
  unfold Qred, inject_Z.
  pose proof (Z.ggcd_gcd k 1) as Hg. pose proof (Z.ggcd_correct_divisors k 1) as Hd.
  destruct (Z.ggcd k 1) as [g [aa bb]]. cbn [fst snd] in *.
  rewrite Z.gcd_1_r in Hg. subst g. destruct Hd as [Ha Hb].
  assert (Hbb : bb = 1%Z) by lia. assert (Haa : aa = k) by lia.
  rewrite Hbb, Haa. reflexivity.
Qed.

Lemma exponent_integer (a : Z) : (0 < a)%Z -> Js.exponent a 1 = Z.log2 a.
Proof.
  intros Ha. unfold Js.exponent. change (Z.log2 1) with 0%Z. rewrite Z.sub_0_r.
  pose proof (Z.log2_nonneg a) as He. pose proof (Z.log2_spec a Ha) as [Hlow _].
  rewrite (Z.max_l 0 (- Z.log2 a)) by lia. rewrite (Z.max_r 0 (Z.log2 a)) by lia.
  rewrite Z.pow_0_r, Z.mul_1_r, Z.mul_1_l.
  destruct (Z.ltb_spec a (2 ^ Z.log2 a)); [lia | reflexivity].
Qed.

Lemma nearest_even_integer (n : Z) : Js.nearest_even n 1 = n.
Proof.
  unfold Js.nearest_even. rewrite Z.mod_1_r, Z.div_1_r. reflexivity.
Qed.

Lemma double_integer (k : Z) :
  (Z.abs k <= 2 ^ 53)%Z -> Js.double (inject_Z k) = JNum (inject_Z k).
Proof.
  intros Hk. unfold Js.double. rewrite Qred_inject_Z. cbn [Qnum Qden inject_Z].
  destruct (Z.eqb_spec (Z.abs k) 0) as [Hzero|Hpos].
  { assert (k = 0%Z) by lia. subst k. reflexivity. }
  assert (Ha : (0 < Z.abs k)%Z) by lia.
  rewrite (exponent_integer _ Ha).
  pose proof (Z.log2_nonneg (Z.abs k)) as He.
  assert (Hup : (Z.log2 (Z.abs k) <= 53)%Z).
  { change 53%Z with (Z.log2 (2 ^ 53)). apply Z.log2_le_mono. exact Hk. }
  destruct (Z.eq_dec (Z.log2 (Z.abs k)) 53) as [Htop|Hbelow].
  { pose proof (Z.log2_spec _ Ha) as [Hlow _]. rewrite Htop in Hlow.
    assert (Hcase : k = (2 ^ 53)%Z \/ k = (- 2 ^ 53)%Z) by lia.
    destruct Hcase as [-> | ->]; vm_compute; reflexivity. }
  set (e := Z.log2 (Z.abs k)) in *.
  rewrite (Z.max_l (e - 52) (-1074)) by lia.
  rewrite (Z.max_l 0 (e - 52)) by lia.
  rewrite (Z.max_r 0 (- (e - 52))) by lia.
  rewrite Z.pow_0_r, Z.mul_1_l, nearest_even_integer, Z.mul_1_r.
  destruct (Z.ltb_spec 971 (e - 52)) as [H1|_]; [lia|].
  destruct (Z.eqb_spec (e - 52) 971) as [H2|_]; [lia|].
  cbn [orb andb]. f_equal.
  rewrite <- (Qred_inject_Z k). apply Qred_complete.
  unfold Qeq, inject_Z. cbn [Qnum Qden].
  rewrite Z2Pos.id by (apply Z.pow_pos_nonneg; lia).
  rewrite Z.mul_1_r, Z.mul_assoc. f_equal.
  rewrite Z.mul_comm. apply Z.abs_sgn.
Qed.

Lemma sum_numbers (number_text : Q -> string) (x y : Q) :
  sum number_text (JNum x) (JNum y) = Js.double (x + y).
Proof. reflexivity. Qed.

Lemma counters_add_up_intro (number_text : Q -> string)
    (content raw_prompt raw_completion : JsVal) :
  addable raw_prompt raw_completion = true ->
  counters_add_up number_text raw_prompt raw_completion
    (JObj [("content", content);
           ("usage", JObj
              [("prompt_tokens", Js.or raw_prompt (JNum 0));
               ("completion_tokens", Js.or raw_completion (JNum 0));
               ("total_tokens", sum number_text (Js.or raw_prompt (JNum 0))
                                               (Js.or raw_completion (JNum 0)))])]).
Proof.
  intros Hadd. unfold counters_add_up, usage_of.
  set (prompt := Js.or raw_prompt (JNum 0)).
  set (completion := Js.or raw_completion (JNum 0)).
  set (total := sum number_text prompt completion).
  change (Js.get_opt (Js.get_opt (JObj [("content", content);
            ("usage", JObj [("prompt_tokens", prompt); ("completion_tokens", completion);
                            ("total_tokens", total)])]) "usage") "prompt_tokens")
    with prompt.
  change (Js.get_opt (Js.get_opt (JObj [("content", content);
            ("usage", JObj [("prompt_tokens", prompt); ("completion_tokens", completion);
                            ("total_tokens", total)])]) "usage") "completion_tokens")
    with completion.
  change (Js.get_opt (Js.get_opt (JObj [("content", content);
            ("usage", JObj [("prompt_tokens", prompt); ("completion_tokens", completion);
                            ("total_tokens", total)])]) "usage") "total_tokens")
    with total.
  split; [reflexivity|]. split; [reflexivity|].
  split; [subst prompt completion total; rewrite plus_or_zero, Hadd; reflexivity|].
  split; [intros Hraw; subst prompt; rewrite Hraw; reflexivity|].
  split; [intros Hraw; subst completion; rewrite Hraw; reflexivity|].
  split; [intros x y Hx Hy; subst total; rewrite Hx, Hy; apply sum_numbers|].
  split; [|split].
  - intros m n Hm Hn Hsafe. subst total. rewrite Hm, Hn, sum_numbers.
    replace (inject_Z m + inject_Z n)%Q with (inject_Z (m + n)).
    + apply double_integer. exact Hsafe.
    + unfold Qplus, inject_Z. cbn [Qnum Qden]. rewrite !Z.mul_1_r. reflexivity.
  - intros s0 y Hs Hy. subst total. rewrite Hs, Hy. reflexivity.
  - intros s0 t0 Hs Ht. subst total. rewrite Hs, Ht. reflexivity.
Qed.

(** C9 in the words of the claim does not hold of every backend response:
    for the counters 2^53 and 1 the Ollama adapter returns the total 2^53,
    which is not their sum. *)
Lemma total_is_not_the_exact_sum :
  let usage :=
    JObj [("prompt_tokens", JNum 9007199254740992); ("completion_tokens", JNum 1);
          ("total_tokens", JNum 9007199254740992)] in
  let result := JObj [("content", JStr "Hi"); ("usage", usage)] in
  fst (run (ollamaAdapter Sample.number_text Sample.options)
         (Sample.answers 200 "OK" Sample.ollama_large_count)) = inr result
  /\ ~ total_is_exact_sum result.
Proof.
  cbv zeta. split; [vm_compute; reflexivity|].
  intros [x [y [z [Hx [Hy [Hz Hsum]]]]]].
  vm_compute in Hx, Hy, Hz. inversion Hx. inversion Hy. inversion Hz. subst x y z.
  vm_compute in Hsum. discriminate Hsum.
Qed.

(** C9, amended. Whenever the Ollama or the TGI adapter returns, each usage
    counter is the counter of the response body, or 0 when the body has
    none, and [total_tokens] is [prompt_tokens + completion_tokens] as
    JavaScript adds: for two numbers the double nearest to their sum, which
    is their sum when both are integers and the sum is within 2^53 of
    zero, and for a string counter the two joined. *)
Theorem usage_total_is_sum
    (number_text : Q -> string) (options : LLMCallOptions) (net : Net) :
  (forall result,
     fst (run (ollamaAdapter number_text options) net) = inr result ->
     exists r data,
       net (ollamaRequest options) = Resolved r /\ json r = inr data
       /\ counters_add_up number_text
            (Js.get_opt data "prompt_eval_count") (Js.get_opt data "eval_count") result)
  /\ (forall result,
        fst (run (tgiAdapter number_text options) net) = inr result ->
        exists r data,
          net (tgiRequest options) = Resolved r /\ json r = inr data
          /\ counters_add_up number_text
               (Js.get_opt (Js.get_opt data "details") "prompt_tokens")
               (Js.get_opt (Js.get_opt data "details") "generated_tokens") result).
Proof.
  split; intros result Hrun.
  - apply ollama_success in Hrun.
    destruct Hrun as [r [data [Hnet [_ [Hjson [Hadd ->]]]]]].
    exists r, data. split; [exact Hnet|]. split; [exact Hjson|].
    apply counters_add_up_intro. exact Hadd.
  - apply tgi_success in Hrun.
    destruct Hrun as [r [data [Hnet [_ [Hjson [Hadd ->]]]]]].
    exists r, data. split; [exact Hnet|]. split; [exact Hjson|].
    apply counters_add_up_intro. exact Hadd.
Qed.

(** The sample Ollama call: 3 prompt tokens and 4 completion tokens make a
    total of 7. *)
Lemma usage_total_is_sum_witness :
  usage_of (ollama_result Sample.number_text Sample.ollama_data) "total_tokens" = JNum 7.
Proof.
  destruct (proj1 (usage_total_is_sum Sample.number_text Sample.options
                     (Sample.answers 200 "OK" Sample.ollama_data))
              (ollama_result Sample.number_text Sample.ollama_data) eq_refl)
    as [r [data [Hnet [Hjson Hcount]]]].
  inversion Hnet. subst r. inversion Hjson. subst data.
  destruct Hcount as [_ [_ [_ [_ [_ [_ [Hexact _]]]]]]].
  apply (Hexact 3%Z 4%Z); [reflexivity | reflexivity | vm_compute; discriminate].
Defined.

(** ** Calls without message content *)

Lemma get_non_nullish (v : JsVal) (k : string) :
  Js.nullish v = false -> Js.get v k = inr (Js.get_opt v k).
Proof.
  unfold Js.get_opt. destruct v; simpl; intros H; try discriminate; reflexivity.
Qed.

Lemma index_non_nullish (v : JsVal) (i : nat) :
  Js.nullish v = false -> Js.index v i = inr (Js.index_opt v i).
Proof.
  unfold Js.index_opt. destruct v; simpl; intros H; try discriminate; reflexivity.
Qed.

Lemma truthy_non_nullish (v : JsVal) : Js.truthy v = true -> Js.nullish v = false.
Proof. destruct v; simpl; intros H; try discriminate; reflexivity. Qed.

Section Returns.
Variable number_text : Q -> string.
Variable options : LLMCallOptions.
Variable net : Net.
Variable r : Response.
Variable data : JsVal.
Hypothesis Hok : ok r = true.
Hypothesis Hjson : json r = inr data.

Lemma ollama_returns :
  net (ollamaRequest options) = Resolved r ->
  Js.nullish data = false ->
  addable (Js.get_opt data "prompt_eval_count") (Js.get_opt data "eval_count") = true ->
  fst (run (ollamaAdapter number_text options) net) = inr (ollama_result number_text data).
Proof.
  intros Hnet Hdata Hadd. unfold ollamaAdapter, ollamaBlock. eff_unfold.
  rewrite Hnet, Hok. cbn [negb]. rewrite Hjson.
  rewrite !(get_non_nullish data) by assumption.
  rewrite plus_or_zero, Hadd. reflexivity.
Qed.

Lemma ollama_cannot_add :
  net (ollamaRequest options) = Resolved r ->
  Js.nullish data = false ->
  addable (Js.get_opt data "prompt_eval_count") (Js.get_opt data "eval_count") = false ->
  fst (run (ollamaAdapter number_text options) net)
  = inl (ErrorObj "Ollama adapter failed: Cannot convert object to primitive value").
Proof.
  intros Hnet Hdata Hadd. unfold ollamaAdapter, ollamaBlock. eff_unfold.
  rewrite Hnet, Hok. cbn [negb]. rewrite Hjson.
  rewrite !(get_non_nullish data) by assumption.
  rewrite plus_or_zero, Hadd. reflexivity.
Qed.

Lemma vllm_returns :
  net (vllmRequest options) = Resolved r ->
  Js.truthy (Js.index_opt (Js.get_opt data "choices") 0) = true ->
  fst (run (vllmAdapter options) net) = inr (vllm_result data).
Proof.
  intros Hnet Hchoice. unfold vllmAdapter, vllmBlock. eff_unfold.
  rewrite Hnet, Hok. cbn [negb]. rewrite Hjson.
  assert (Hdata : Js.nullish data = false).
  { destruct data; try reflexivity; discriminate Hchoice. }
  rewrite !(get_non_nullish data) by assumption.
  rewrite Hchoice. cbn [negb].
  rewrite (get_truthy _ "text" Hchoice). reflexivity.
Qed.

Lemma tgi_returns :
  net (tgiRequest options) = Resolved r ->
  Js.nullish data = false ->
  addable (Js.get_opt (Js.get_opt data "details") "prompt_tokens")
          (Js.get_opt (Js.get_opt data "details") "generated_tokens") = true ->
  fst (run (tgiAdapter number_text options) net) = inr (tgi_result number_text data).
Proof.
  intros Hnet Hdata Hadd.
  unfold tgiAdapter, tgiBlock, generated_text_of, tgi_result. eff_unfold.
  rewrite Hnet, Hok. cbn [negb]. rewrite Hjson.
  rewrite !(get_non_nullish data) by assumption.
  rewrite (index_non_nullish data) by assumption.
  destruct (Js.truthy (Js.get_opt data "generated_text")) eqn:Hsingle;
    rewrite plus_or_zero, Hadd;
    [rewrite (or_truthy _ _ Hsingle) | rewrite (or_falsy _ _ Hsingle)]; reflexivity.
Qed.

Lemma tgi_cannot_add :
  net (tgiRequest options) = Resolved r ->
  Js.nullish data = false ->
  addable (Js.get_opt (Js.get_opt data "details") "prompt_tokens")
          (Js.get_opt (Js.get_opt data "details") "generated_tokens") = false ->
  fst (run (tgiAdapter number_text options) net)
  = inl (ErrorObj "TGI adapter failed: Cannot convert object to primitive value").
Proof.
  intros Hnet Hdata Hadd.
  unfold tgiAdapter, tgiBlock, generated_text_of. eff_unfold.
  rewrite Hnet, Hok. cbn [negb]. rewrite Hjson.
  rewrite !(get_non_nullish data) by assumption.
  rewrite (index_non_nullish data) by assumption.
  destruct (Js.truthy (Js.get_opt data "generated_text"));
    rewrite plus_or_zero, Hadd; reflexivity.
Qed.
End Returns.

Lemma tgi_sends (number_text : Q -> string) (options : LLMCallOptions)
    (net : Net) :
  snd (run (tgiAdapter number_text options) net) = [tgiRequest options].
Proof.
  unfold tgiAdapter, tgiBlock, generated_text_of. eff_unfold.
  destruct (net _) as [m|r]; [reflexivity|].
  destruct (ok r); [|reflexivity].
  destruct (json r) as [m|data]; [reflexivity|].
  destruct (Js.get data "generated_text") as [t|single]; [reflexivity|].
  destruct (Js.truthy single).
  - destruct (Js.get data "details"); [reflexivity|].
    destruct (plus number_text _ _); reflexivity.
  - destruct (Js.index data 0); [reflexivity|].
    destruct (Js.get data "details"); [reflexivity|].
    destruct (plus number_text _ _); reflexivity.
Qed.

Lemma tgi_body (options : LLMCallOptions) :
  body (tgiRequest options) =
  JObj [("inputs", JStr (first_message_text options));
        ("parameters", JObj (
           [("max_new_tokens", JNum (number_or (maxTokens options) 2048));
            ("temperature", JNum (number_or (temperature options) 0.7));
            ("return_full_text", JBool false)]
           ++ (if json_object_requested options
               then [("response_format", JObj [("type", JStr "json_object")])]
               else []))%list)].
Proof.
  unfold tgiRequest. cbn [body].
  rewrite first_content_text, !or_number.
  destruct (json_object_requested options); reflexivity.
Qed.

Lemma no_content_text (options : LLMCallOptions) :
  no_content options = true -> first_message_text options = "".
Proof.
  unfold no_content, first_message_text.
  destruct (messages options) as [|m rest]; [reflexivity|].
  destruct (content m); [discriminate|reflexivity].
Qed.

(** C10. When the messages array is empty or its first message has no
    content, each adapter still sends its one request, with the empty string
    as [prompt] (Ollama, vLLM) or [inputs] (TGI), and returns a result
    whenever the backend answers 2xx with a body the adapter can read: for
    Ollama and TGI one that is not [null] and whose counters can be added,
    for vLLM one with a first choice. *)
Theorem no_content_sends_empty_prompt
    (number_text : Q -> string) (options : LLMCallOptions) (net : Net) :
  no_content options = true ->
  (snd (run (ollamaAdapter number_text options) net) = [ollamaRequest options]
   /\ Js.get_opt (body (ollamaRequest options)) "prompt" = JStr ""
   /\ forall r data,
        net (ollamaRequest options) = Resolved r -> ok r = true ->
        json r = inr data -> Js.nullish data = false ->
        addable (Js.get_opt data "prompt_eval_count") (Js.get_opt data "eval_count")
        = true ->
        fst (run (ollamaAdapter number_text options) net)
        = inr (ollama_result number_text data))
  /\ (snd (run (vllmAdapter options) net) = [vllmRequest options]
      /\ Js.get_opt (body (vllmRequest options)) "prompt" = JStr ""
      /\ forall r data,
           net (vllmRequest options) = Resolved r -> ok r = true ->
           json r = inr data ->
           Js.truthy (Js.index_opt (Js.get_opt data "choices") 0) = true ->
           fst (run (vllmAdapter options) net) = inr (vllm_result data))
  /\ (snd (run (tgiAdapter number_text options) net) = [tgiRequest options]
      /\ Js.get_opt (body (tgiRequest options)) "inputs" = JStr ""
      /\ forall r data,
           net (tgiRequest options) = Resolved r -> ok r = true ->
           json r = inr data -> Js.nullish data = false ->
           addable (Js.get_opt (Js.get_opt data "details") "prompt_tokens")
                   (Js.get_opt (Js.get_opt data "details") "generated_tokens")
           = true ->
           fst (run (tgiAdapter number_text options) net)
           = inr (tgi_result number_text data)).
Proof.
  intros Hnone. pose proof (no_content_text options Hnone) as Htext.
  split; [|split]; (split; [|split]).
  - apply ollama_sends.
  - rewrite ollama_body, Htext. destruct (json_object_requested options); reflexivity.
  - intros r data Hnet Hok Hjson Hdata Hadd. eapply ollama_returns; eassumption.
  - apply vllm_sends.
  - rewrite vllm_body, Htext. destruct (json_object_requested options); reflexivity.
  - intros r data Hnet Hok Hjson Hchoice. eapply vllm_returns; eassumption.
  - apply tgi_sends.
  - rewrite tgi_body, Htext. reflexivity.
  - intros r data Hnet Hok Hjson Hdata Hadd. eapply tgi_returns; eassumption.
Qed.

(** A call with no messages at all, answered by the sample backends. *)
Lemma no_content_sends_empty_prompt_witness :
  Js.get_opt (body (ollamaRequest Sample.no_messages)) "prompt" = JStr ""
  /\ Js.get_opt (body (vllmRequest Sample.no_messages)) "prompt" = JStr ""
  /\ Js.get_opt (body (tgiRequest Sample.no_messages)) "inputs" = JStr ""
  /\ fst (run (ollamaAdapter Sample.number_text Sample.no_messages)
            (Sample.answers 200 "OK" Sample.ollama_data))
     = inr (ollama_result Sample.number_text Sample.ollama_data)
  /\ fst (run (vllmAdapter Sample.no_messages) (Sample.answers 200 "OK" Sample.vllm_data))
     = inr (vllm_result Sample.vllm_data)
  /\ fst (run (tgiAdapter Sample.number_text Sample.no_messages)
            (Sample.answers 200 "OK" Sample.tgi_data))
     = inr (tgi_result Sample.number_text Sample.tgi_data).
Proof.
  split; [|split; [|split; [|split; [|split]]]].
  - apply (proj1 (proj2 (proj1 (no_content_sends_empty_prompt Sample.number_text
                                  Sample.no_messages Sample.unreachable eq_refl)))).
  - apply (proj1 (proj2 (proj1 (proj2 (no_content_sends_empty_prompt Sample.number_text
                                         Sample.no_messages Sample.unreachable eq_refl))))).
  - apply (proj1 (proj2 (proj2 (proj2 (no_content_sends_empty_prompt Sample.number_text
                                         Sample.no_messages Sample.unreachable eq_refl))))).
  - eapply (proj2 (proj2 (proj1 (no_content_sends_empty_prompt Sample.number_text
              Sample.no_messages (Sample.answers 200 "OK" Sample.ollama_data) eq_refl))));
      reflexivity.
  - eapply (proj2 (proj2 (proj1 (proj2 (no_content_sends_empty_prompt Sample.number_text
              Sample.no_messages (Sample.answers 200 "OK" Sample.vllm_data) eq_refl)))));
      reflexivity.
  - eapply (proj2 (proj2 (proj2 (proj2 (no_content_sends_empty_prompt Sample.number_text
              Sample.no_messages (Sample.answers 200 "OK" Sample.tgi_data) eq_refl)))));
      reflexivity.
Defined.

(** A call that asks for a JSON object and one that does not; a 404 from
    the Ollama backend. *)
Lemma ollama_generate_request_witness :
  Js.get_opt (body (ollamaRequest Sample.options)) "format" = JStr "json"
  /\ Js.has_key (body (ollamaRequest Sample.no_messages)) "format" = false
  /\ fst (run (ollamaAdapter Sample.number_text Sample.options)
            (Sample.answers 404 "Not Found" JNull))
     = inl (ErrorObj "Ollama adapter failed: Ollama API error: 404 Not Found").
Proof.
  pose proof (ollama_generate_request Sample.number_text Sample.options
                (Sample.answers 404 "Not Found" JNull)) as H.
  pose proof (ollama_generate_request Sample.number_text Sample.no_messages
                Sample.unreachable) as Hnone.
  cbv zeta in H, Hnone.
  destruct H as [_ [_ [_ [_ [_ [_ [_ [Hformat [_ H]]]]]]]]].
  destruct Hnone as [_ [_ [_ [_ [_ [_ [_ [_ [Honly _]]]]]]]]].
  split; [|split].
  - apply (Hformat {| type := "json_object" |}); reflexivity.
  - destruct (Js.has_key (body (ollamaRequest Sample.no_messages)) "format") eqn:Hkey;
      [|reflexivity].
    destruct (Honly eq_refl) as [rf [Hrf _]]. discriminate Hrf.
  - apply (H {| status := 404; statusText := "Not Found"; json := inr JNull |}).
    + reflexivity.
    + cbn [status]. lia.
Defined.

(** C4 in the words of the claim does not hold of the body [null]: it has
    no choice list, the adapter fails, but with the TypeError of reading
    [choices] and not with the no-completion error. *)
Lemma vllm_null_body_throws_type_error :
  let outcome :=
    fst (run (vllmAdapter Sample.options) (Sample.answers 200 "OK" JNull)) in
  Js.get_opt JNull "choices" = JUndefined
  /\ outcome
     = inl (ErrorObj
              "vLLM adapter failed: Cannot read properties of null (reading 'choices')")
  /\ outcome <> inl (ErrorObj "vLLM adapter failed: No completion returned from vLLM").
Proof.
  cbv zeta. split; [reflexivity|]. split; [reflexivity|].
  intros H. discriminate H.
Qed.

(** A call that asks for a JSON object and one that does not; a 200 from
    the vLLM backend with an empty choice list. *)
Lemma vllm_completions_request_witness :
  Js.keys (body (vllmRequest Sample.options))
  = ["model"; "prompt"; "max_tokens"; "temperature"; "echo"; "guided_json"]
  /\ Js.get_opt (body (vllmRequest Sample.options)) "guided_json" = JObj []
  /\ Js.keys (body (vllmRequest Sample.no_messages))
     = ["model"; "prompt"; "max_tokens"; "temperature"; "echo"]
  /\ fst (run (vllmAdapter Sample.options)
            (Sample.answers 200 "OK" (JObj [("choices", JArr [])])))
     = inl (ErrorObj "vLLM adapter failed: No completion returned from vLLM").
Proof.
  pose proof (vllm_completions_request Sample.options
                (Sample.answers 200 "OK" (JObj [("choices", JArr [])]))) as H.
  pose proof (vllm_completions_request Sample.no_messages Sample.unreachable) as Hnone.
  cbv zeta in H, Hnone.
  destruct H as [_ [_ [_ [_ [Hhint [_ [_ H]]]]]]].
  destruct Hnone as [_ [_ [_ [_ [_ [_ [Hplain _]]]]]]].
  split; [apply (Hhint {| type := "json_object" |}); reflexivity|].
  split; [apply (Hhint {| type := "json_object" |}); reflexivity|].
  split; [apply Hplain; reflexivity|].
  apply (H {| status := 200; statusText := "OK";
              json := inr (JObj [("choices", JArr [])]) |}
           (JObj [("choices", JArr [])])).
  - reflexivity.
  - reflexivity.
  - reflexivity.
  - right. right. reflexivity.
Defined.

(** * The workflow definition *)

Import Flow.

(** C1. Three steps of [researchToAppFlow] refer in their prompt to the
    output of [design-architecture] without listing it in their
    [dependencies]: [setup-testing], [create-documentation] and
    [quality-assurance].  The other five steps refer to declared
    dependencies only. *)
Theorem undeclared_prompt_references :
  map (fun s => (id s, undeclared_references s)) (steps researchToAppFlow)
  = [("analyze-research-topic", []);
     ("design-architecture", []);
     ("generate-project-structure", []);
     ("create-core-components", []);
     ("setup-testing", ["design-architecture"]);
     ("create-documentation", ["design-architecture"]);
     ("setup-deployment", []);
     ("quality-assurance", ["design-architecture"])]
  /\ references_declared researchToAppFlow = false.
Proof.
  split; vm_compute; reflexivity.
Qed.

(** The placeholders of each prompt, as scanned. *)
Lemma prompt_placeholders :
  map (fun s => placeholders (prompt (config s))) (steps researchToAppFlow)
  = [["researchTopic"];
     ["analyze-research-topic.output"];
     ["design-architecture.output"];
     ["design-architecture.output"; "generate-project-structure.output"];
     ["design-architecture.output"; "create-core-components.output"];
     ["design-architecture.output"; "create-core-components.output"];
     ["generate-project-structure.output"; "create-documentation.output"];
     ["design-architecture.output"; "create-core-components.output";
      "setup-testing.output"; "create-documentation.output";
      "setup-deployment.output"]].
Proof. vm_compute. reflexivity. Qed.

(** ** The dependency graph *)

Lemma acyclic_by_rank (wf : WorkflowDefinition) (rank : string -> nat) :
  (forall a b, depends_on wf a b -> rank b < rank a) -> acyclic wf.
Proof.
  intros Hrank a Hcycle.
  assert (Hlt : forall x y, clos_trans string (depends_on wf) x y -> rank y < rank x).
  { intros x y Hxy. induction Hxy as [x y Hedge | x y z _ IH1 _ IH2].
    - apply Hrank. exact Hedge.
    - lia. }
  specialize (Hlt a a Hcycle). lia.
Qed.

Lemma mem_In (x : string) (l : list string) : mem x l = true <-> In x l.
Proof.
  unfold mem. rewrite existsb_exists. split.
  - intros [y [Hy Heq]]. apply String.eqb_eq in Heq. subst. exact Hy.
  - intros H. exists x. split; [exact H | apply String.eqb_refl].
Qed.

Lemma position_app_in (x : string) (l1 l2 : list string) :
  In x l1 -> (position x (l1 ++ l2) < length l1)%nat.
Proof.
  induction l1 as [|y l1 IH]; intros Hin; [destruct Hin|].
  cbn. destruct (String.eqb_spec x y); [lia|].
  destruct Hin as [-> | Hin]; [congruence|].
  specialize (IH Hin). lia.
Qed.

Lemma position_app_notin (x : string) (l1 l2 : list string) :
  ~ In x l1 -> position x (l1 ++ x :: l2) = length l1.
Proof.
  induction l1 as [|y l1 IH]; intros Hnotin; cbn.
  - rewrite String.eqb_refl. reflexivity.
  - destruct (String.eqb_spec x y) as [-> | Hneq].
    + exfalso. apply Hnotin. left. reflexivity.
    + rewrite IH; [reflexivity|]. intros Hin. apply Hnotin. right. exact Hin.
Qed.

Section DeclaredInOrder.

(** The ids of a list of steps that passes [declared_in_order] are new and
    pairwise distinct. *)
Lemma declared_in_order_fresh (ss : list Step) :
  forall seen, declared_in_order seen ss = true ->
  NoDup (map id ss) /\ (forall s, In s ss -> ~ In (id s) seen).
Proof.
  induction ss as [|s rest IH]; intros seen Hcheck.
  - split; [constructor | intros s []].
  - cbn [declared_in_order] in Hcheck.
    apply andb_true_iff in Hcheck. destruct Hcheck as [Hcheck Hrest].
    apply andb_true_iff in Hcheck. destruct Hcheck as [Hnew _].
    apply negb_true_iff in Hnew.
    destruct (IH _ Hrest) as [Hnodup Hfresh].
    split.
    + cbn [map]. constructor; [|exact Hnodup].
      intros Hin. apply in_map_iff in Hin. destruct Hin as [s' [Heq Hs']].
      apply (Hfresh s' Hs'). left. symmetry. exact Heq.
    + intros s' [<- | Hs'].
      * intros Hin. apply mem_In in Hin. congruence.
      * intros Hin. apply (Hfresh s' Hs'). right. exact Hin.
Qed.

(** Each dependency of a step that passes is seen already or is the id of
    a step that stands before it. *)
Lemma declared_in_order_before (ss : list Step) :
  forall seen, declared_in_order seen ss = true ->
  forall pre s post d, ss = (pre ++ s :: post)%list -> In d (dependencies s) ->
  In d seen \/ In d (map id pre).
Proof.
  induction ss as [|s0 rest IH]; intros seen Hcheck pre s post d Hsplit Hd.
  - destruct pre; discriminate Hsplit.
  - cbn [declared_in_order] in Hcheck.
    apply andb_true_iff in Hcheck. destruct Hcheck as [Hcheck Hrest].
    apply andb_true_iff in Hcheck. destruct Hcheck as [_ Hdeps].
    destruct pre as [|p pre]; cbn [app] in Hsplit; inversion Hsplit; subst.
    + left. rewrite forallb_forall in Hdeps. apply mem_In. apply Hdeps. exact Hd.
    + destruct (IH _ Hrest pre s post d eq_refl Hd) as [[<- | Hseen] | Hpre].
      * right. left. reflexivity.
      * left. exact Hseen.
      * right. right. exact Hpre.
Qed.

Variable wf : WorkflowDefinition.
Hypothesis Hcheck : declared_in_order [] (steps wf) = true.

Lemma declared_in_order_edge (a b : string) :
  depends_on wf a b ->
  (position b (step_ids wf) < position a (step_ids wf))%nat /\ In b (step_ids wf).
Proof.
  intros [s [Hs [<- Hb]]].
  destruct (in_split _ _ Hs) as [pre [post Hsplit]].
  destruct (declared_in_order_before _ _ Hcheck pre s post b Hsplit Hb) as [[] | Hpre].
  destruct (declared_in_order_fresh _ _ Hcheck) as [Hnodup _].
  unfold step_ids in *. rewrite Hsplit in *. rewrite map_app in *. cbn [map] in *.
  apply NoDup_remove_2 in Hnodup.
  assert (Hnotin : ~ In (id s) (map id pre)).
  { intros Hin. apply Hnodup. apply in_or_app. left. exact Hin. }
  rewrite (position_app_notin _ _ _ Hnotin).
  split.
  - apply position_app_in. exact Hpre.
  - apply in_or_app. left. exact Hpre.
Qed.

(** A workflow whose steps are declared in dependency order is a DAG
    without dangling references and with distinct ids. *)
Lemma declared_in_order_sound :
  acyclic wf /\ no_dangling wf /\ NoDup (step_ids wf).
Proof.
  split; [|split].
  - apply (acyclic_by_rank wf (fun x => position x (step_ids wf))).
    intros a b Hedge. apply (declared_in_order_edge a b Hedge).
  - intros s d Hs Hd.
    apply (declared_in_order_edge (id s) d). exists s. auto.
  - apply (declared_in_order_fresh _ _ Hcheck).
Qed.

End DeclaredInOrder.

(** Each reference that is missing from a [dependencies] array is to a step
    the referring step depends on through [create-core-components]. *)
Lemma undeclared_references_are_indirect :
  depends_on researchToAppFlow "create-core-components" "design-architecture"
  /\ depends_on researchToAppFlow "setup-testing" "create-core-components"
  /\ depends_on researchToAppFlow "create-documentation" "create-core-components"
  /\ depends_on researchToAppFlow "quality-assurance" "create-core-components".
Proof.
  repeat split.
  - exists create_core_components. cbn. tauto.
  - exists setup_testing. cbn. tauto.
  - exists create_documentation. cbn. tauto.
  - exists quality_assurance. cbn. tauto.
Qed.

(** C5. The dependency graph of [researchToAppFlow] has no cycle, every
    dependency names a step of the workflow, and the step ids are pairwise
    distinct. *)
Theorem research_flow_is_a_dag :
  acyclic researchToAppFlow
  /\ no_dangling researchToAppFlow
  /\ NoDup (step_ids researchToAppFlow).
Proof.
  apply declared_in_order_sound. vm_compute. reflexivity.
Qed.

(** * The entry points *)

Import Entry.




(** * Further properties of the adapters *)

Import Http OpenSourceLLM Reading Wire.

(** X1. The TGI adapter sends one request to [/generate] with the bearer
    header; its body has the two keys [inputs] (the content of the first
    message) and [parameters], the sampling parameters sit under
    [parameters] only, and [response_format] is there when
    [responseFormat.type] is ['json_object'] and in no other case. *)
Theorem tgi_generate_request
    (number_text : Q -> string) (options : LLMCallOptions) (net : Net) :
  let req := tgiRequest options in
  let parameters := Js.get_opt (body req) "parameters" in
  snd (run (tgiAdapter number_text options) net) = [req]
  /\ url req = Js.or_string (baseUrl options) "http://localhost:8080" ++ "/generate"
  /\ method req = "POST"
  /\ headers req = [("Content-Type", "application/json");
                    ("Authorization", "Bearer " ++ Js.interpolate (apiKey options))]
  /\ Js.keys (body req) = ["inputs"; "parameters"]
  /\ Js.get_opt (body req) "inputs" = JStr (first_message_text options)
  /\ Js.get_opt parameters "return_full_text" = JBool false
  /\ (forall rf, responseFormat options = Some rf -> type rf = "json_object" ->
        Js.keys parameters
        = ["max_new_tokens"; "temperature"; "return_full_text"; "response_format"]
        /\ Js.get_opt parameters "response_format" = JObj [("type", JStr "json_object")])
  /\ (Js.has_key parameters "response_format" = true ->
        exists rf, responseFormat options = Some rf /\ type rf = "json_object")
  /\ (Js.has_key parameters "response_format" = false ->
        Js.keys parameters = ["max_new_tokens"; "temperature"; "return_full_text"]).
Proof.
  cbv zeta.
  split; [apply tgi_sends|].
  split; [reflexivity|].
  split; [reflexivity|].
  split; [reflexivity|].
  rewrite tgi_body.
  split; [reflexivity|]. split; [reflexivity|].
  split; [destruct (json_object_requested options); reflexivity|].
  split.
  { intros rf Hrf Htype.
    assert (H : json_object_requested options = true)
      by (apply json_object_requested_iff; exists rf; split; assumption).
    rewrite H. split; reflexivity. }
  split.
  { destruct (json_object_requested options) eqn:H; [|discriminate].
    intros _. apply json_object_requested_iff. exact H. }
  destruct (json_object_requested options); [discriminate | reflexivity].
Qed.

(** A call that asks for a JSON object and one that does not. *)
Lemma tgi_generate_request_witness :
  Js.get_opt (Js.get_opt (body (tgiRequest Sample.options)) "parameters") "response_format"
  = JObj [("type", JStr "json_object")]
  /\ Js.keys (Js.get_opt (body (tgiRequest Sample.no_messages)) "parameters")
     = ["max_new_tokens"; "temperature"; "return_full_text"].
Proof.
  pose proof (tgi_generate_request Sample.number_text Sample.options Sample.unreachable)
    as H.
  pose proof (tgi_generate_request Sample.number_text Sample.no_messages
                Sample.unreachable) as Hnone.
  cbv zeta in H, Hnone.
  destruct H as [_ [_ [_ [_ [_ [_ [_ [Hhint _]]]]]]]].
  destruct Hnone as [_ [_ [_ [_ [_ [_ [_ [_ [_ Hplain]]]]]]]]].
  split; [apply (Hhint {| type := "json_object" |}); reflexivity|].
  apply Hplain. reflexivity.
Defined.

(** ** Sampling parameters *)









(** ** Connection settings *)

(** X4. Without a [baseUrl], or with the empty string, each adapter calls
    its local default host; any other [baseUrl] is used as it is, the path
    appended to it. *)
Theorem base_url_or_default (options : LLMCallOptions) :
  sent_urls (with_baseUrl None options)
  = ["http://localhost:11434/api/generate";
     "http://localhost:8000/v1/completions";
     "http://localhost:8080/generate"]
  /\ sent_urls (with_baseUrl (Some "") options) = sent_urls (with_baseUrl None options)
  /\ forall b, b <> "" ->
       sent_urls (with_baseUrl (Some b) options)
       = [b ++ "/api/generate"; b ++ "/v1/completions"; b ++ "/generate"].
Proof.
  split; [reflexivity|]. split; [reflexivity|].
  intros b Hb. unfold sent_urls, ollamaRequest, vllmRequest, tgiRequest.
  cbn [url with_baseUrl baseUrl Js.or_string].
  destruct (String.eqb_spec b ""); [contradiction|reflexivity].
Qed.

Lemma base_url_or_default_witness :
  sent_urls (with_baseUrl (Some "http://gpu:9000") Sample.options)
  = ["http://gpu:9000/api/generate"; "http://gpu:9000/v1/completions";
     "http://gpu:9000/generate"].
Proof.
  apply (proj2 (proj2 (base_url_or_default Sample.options)) "http://gpu:9000").
  intros H. discriminate H.
Defined.

(** X5. The Ollama request never carries the credential: its only header is
    the content type, whatever [apiKey] is.  The vLLM and TGI requests carry
    [apiKey] after [Bearer], and the text [Bearer undefined] when there is
    no [apiKey]. *)
Theorem credential_headers (options : LLMCallOptions) :
  headers (ollamaRequest options) = [("Content-Type", "application/json")]
  /\ (forall k, apiKey options = Some k ->
        In ("Authorization", "Bearer " ++ k) (headers (vllmRequest options))
        /\ In ("Authorization", "Bearer " ++ k) (headers (tgiRequest options)))
  /\ (apiKey options = None ->
        In ("Authorization", "Bearer undefined") (headers (vllmRequest options))
        /\ In ("Authorization", "Bearer undefined") (headers (tgiRequest options))).
Proof.
  split; [reflexivity|]. split.
  - intros k Hk. unfold vllmRequest, tgiRequest. cbn [headers]. rewrite Hk.
    split; right; left; reflexivity.
  - intros Hk. unfold vllmRequest, tgiRequest. cbn [headers]. rewrite Hk.
    split; right; left; reflexivity.
Qed.

Lemma credential_headers_witness :
  In ("Authorization", "Bearer undefined") (headers (vllmRequest Sample.no_messages))
  /\ In ("Authorization", "Bearer undefined") (headers (tgiRequest Sample.no_messages)).
Proof.
  apply (proj2 (proj2 (credential_headers Sample.no_messages))). reflexivity.
Defined.

(** ** When an adapter returns *)

Lemma get_inr_non_nullish (v : JsVal) (k : string) (x : JsVal) :
  Js.get v k = inr x -> Js.nullish v = false.
Proof. destruct v; simpl; intros H; try discriminate; reflexivity. Qed.

Lemma not_nullish (data : JsVal) :
  data <> JNull -> data <> JUndefined -> Js.nullish data = false.
Proof. intros Hnull Hundef. destruct data; try reflexivity; congruence. Qed.

Lemma addable_primitive (p c : JsVal) : primitive p -> primitive c -> addable p c = true.
Proof.
  intros Hp Hc. unfold addable. rewrite (converts_primitive _ Hp), (converts_primitive _ Hc).
  reflexivity.
Qed.

Lemma addable_hides_toString (p c : JsVal) :
  hides_toString p \/ hides_toString c -> addable p c = false.
Proof.
  unfold addable. intros [H|H]; rewrite (converts_hides_toString _ H).
  - reflexivity.
  - apply andb_false_r.
Qed.

(** X6. The Ollama adapter returns a result exactly when [fetch] resolves
    with a 2xx status and a body that parses to something other than [null]
    and whose two counters [+] can add.  Counters that are absent, numbers,
    strings or other primitive values can be added; a counter that is an
    object with a property [toString] of its own cannot, and makes the
    adapter fail with the TypeError of [+].  Nothing else is required of
    the body, the result is read off it. *)
Theorem ollama_returns_exactly
    (number_text : Q -> string) (options : LLMCallOptions) (net : Net)
    (result : JsVal) :
  (fst (run (ollamaAdapter number_text options) net) = inr result
   <-> exists r data,
         net (ollamaRequest options) = Resolved r
         /\ (200 <= status r <= 299)%nat
         /\ json r = inr data
         /\ data <> JNull /\ data <> JUndefined
         /\ addable (Js.get_opt data "prompt_eval_count") (Js.get_opt data "eval_count")
            = true
         /\ result = ollama_result number_text data)
  /\ (forall r data,
        net (ollamaRequest options) = Resolved r ->
        (200 <= status r <= 299)%nat ->
        json r = inr data ->
        data <> JNull -> data <> JUndefined ->
        let prompt := Js.get_opt data "prompt_eval_count" in
        let completion := Js.get_opt data "eval_count" in
        (primitive prompt -> primitive completion ->
         fst (run (ollamaAdapter number_text options) net)
         = inr (ollama_result number_text data))
        /\ (hides_toString prompt \/ hides_toString completion ->
            fst (run (ollamaAdapter number_text options) net)
            = inl (ErrorObj
                     "Ollama adapter failed: Cannot convert object to primitive value"))).
Proof.
  split; [split|].
  - intros Hrun. pose proof Hrun as Hrun'.
    apply ollama_success in Hrun.
    destruct Hrun as [r [data [Hnet [Hok [Hjson [Hadd ->]]]]]].
    exists r, data. repeat split; try assumption; try (apply ok_status; assumption).
    + intros ->. unfold ollamaAdapter, ollamaBlock in Hrun'. eff_unfold.
      rewrite Hnet, Hok in Hrun'. cbn [negb] in Hrun'. rewrite Hjson in Hrun'.
      discriminate Hrun'.
    + intros ->. unfold ollamaAdapter, ollamaBlock in Hrun'. eff_unfold.
      rewrite Hnet, Hok in Hrun'. cbn [negb] in Hrun'. rewrite Hjson in Hrun'.
      discriminate Hrun'.
  - intros [r [data [Hnet [Hstatus [Hjson [Hnull [Hundef [Hadd ->]]]]]]]].
    apply ok_status in Hstatus.
    eapply ollama_returns; try eassumption. apply not_nullish; assumption.
  - intros r data Hnet Hstatus Hjson Hnull Hundef. cbv zeta.
    apply ok_status in Hstatus. pose proof (not_nullish _ Hnull Hundef) as Hdata.
    split.
    + intros Hp Hc. eapply ollama_returns; try eassumption.
      apply addable_primitive; assumption.
    + intros Hhidden. eapply ollama_cannot_add; try eassumption.
      apply addable_hides_toString. exact Hhidden.
Qed.

(** The sample body returns; a body whose prompt counter is an object with
    a [toString] of its own does not. *)
Lemma ollama_returns_exactly_witness :
  fst (run (ollamaAdapter Sample.number_text Sample.options)
         (Sample.answers 200 "OK" Sample.ollama_data))
  = inr (ollama_result Sample.number_text Sample.ollama_data)
  /\ fst (run (ollamaAdapter Sample.number_text Sample.options)
            (Sample.answers 200 "OK" Sample.ollama_odd_count))
     = inl (ErrorObj "Ollama adapter failed: Cannot convert object to primitive value").
Proof.
  split.
  - apply (proj2 (proj1 (ollama_returns_exactly Sample.number_text Sample.options
                           (Sample.answers 200 "OK" Sample.ollama_data)
                           (ollama_result Sample.number_text Sample.ollama_data)))).
    exists (ok_response Sample.ollama_data), Sample.ollama_data.
    repeat split; try reflexivity; try discriminate; cbn [status ok_response]; lia.
  - apply (proj2 (ollama_returns_exactly Sample.number_text Sample.options
                    (Sample.answers 200 "OK" Sample.ollama_odd_count) JNull)
             (ok_response Sample.ollama_odd_count) Sample.ollama_odd_count);
      try reflexivity; try discriminate.
    + cbn [status ok_response]. lia.
    + left. exists [("toString", JNum 1)]. split; [reflexivity | discriminate].
Defined.

(** X7. The TGI adapter returns a result exactly when [fetch] resolves with
    a 2xx status and a body that parses to something other than [null] and
    whose two counters under [details] can be added; a counter that is an
    object with a property [toString] of its own makes the adapter fail
    with the TypeError of [+]. *)
Theorem tgi_returns_exactly
    (number_text : Q -> string) (options : LLMCallOptions) (net : Net)
    (result : JsVal) :
  (fst (run (tgiAdapter number_text options) net) = inr result
   <-> exists r data,
         net (tgiRequest options) = Resolved r
         /\ (200 <= status r <= 299)%nat
         /\ json r = inr data
         /\ data <> JNull /\ data <> JUndefined
         /\ addable (Js.get_opt (Js.get_opt data "details") "prompt_tokens")
                    (Js.get_opt (Js.get_opt data "details") "generated_tokens") = true
         /\ result = tgi_result number_text data)
  /\ (forall r data,
        net (tgiRequest options) = Resolved r ->
        (200 <= status r <= 299)%nat ->
        json r = inr data ->
        data <> JNull -> data <> JUndefined ->
        let prompt := Js.get_opt (Js.get_opt data "details") "prompt_tokens" in
        let completion := Js.get_opt (Js.get_opt data "details") "generated_tokens" in
        (primitive prompt -> primitive completion ->
         fst (run (tgiAdapter number_text options) net)
         = inr (tgi_result number_text data))
        /\ (hides_toString prompt \/ hides_toString completion ->
            fst (run (tgiAdapter number_text options) net)
            = inl (ErrorObj
                     "TGI adapter failed: Cannot convert object to primitive value"))).
Proof.
  split; [split|].
  - intros Hrun. pose proof Hrun as Hrun'.
    apply tgi_success in Hrun.
    destruct Hrun as [r [data [Hnet [Hok [Hjson [Hadd ->]]]]]].
    exists r, data. repeat split; try assumption; try (apply ok_status; assumption).
    + intros ->. unfold tgiAdapter, tgiBlock, generated_text_of in Hrun'. eff_unfold.
      rewrite Hnet, Hok in Hrun'. cbn [negb] in Hrun'. rewrite Hjson in Hrun'.
      discriminate Hrun'.
    + intros ->. unfold tgiAdapter, tgiBlock, generated_text_of in Hrun'. eff_unfold.
      rewrite Hnet, Hok in Hrun'. cbn [negb] in Hrun'. rewrite Hjson in Hrun'.
      discriminate Hrun'.
  - intros [r [data [Hnet [Hstatus [Hjson [Hnull [Hundef [Hadd ->]]]]]]]].
    apply ok_status in Hstatus.
    eapply tgi_returns; try eassumption. apply not_nullish; assumption.
  - intros r data Hnet Hstatus Hjson Hnull Hundef. cbv zeta.
    apply ok_status in Hstatus. pose proof (not_nullish _ Hnull Hundef) as Hdata.
    split.
    + intros Hp Hc. eapply tgi_returns; try eassumption.
      apply addable_primitive; assumption.
    + intros Hhidden. eapply tgi_cannot_add; try eassumption.
      apply addable_hides_toString. exact Hhidden.
Qed.

Lemma tgi_returns_exactly_witness :
  fst (run (tgiAdapter Sample.number_text Sample.options)
         (Sample.answers 200 "OK" Sample.tgi_data))
  = inr (tgi_result Sample.number_text Sample.tgi_data).
Proof.
  apply (proj2 (proj1 (tgi_returns_exactly Sample.number_text Sample.options
                         (Sample.answers 200 "OK" Sample.tgi_data)
                         (tgi_result Sample.number_text Sample.tgi_data)))).
  exists (ok_response Sample.tgi_data), Sample.tgi_data.
  repeat split; try reflexivity; try discriminate; cbn [status ok_response]; lia.
Defined.

(** X8. The vLLM adapter returns a result exactly when [fetch] resolves
    with a 2xx status and a parsed body whose first choice is truthy. *)
Theorem vllm_returns_exactly (options : LLMCallOptions) (net : Net) (result : JsVal) :
  fst (run (vllmAdapter options) net) = inr result
  <-> exists r data,
        net (vllmRequest options) = Resolved r
        /\ (200 <= status r <= 299)%nat
        /\ json r = inr data
        /\ Js.truthy (Js.index_opt (Js.get_opt data "choices") 0) = true
        /\ result = vllm_result data.
Proof.
  split.
  - intros Hrun.
    apply vllm_success in Hrun.
    destruct Hrun as [r [data [Hnet [Hok [Hjson [Hchoice ->]]]]]].
    exists r, data. repeat split; try assumption; apply ok_status; assumption.
  - intros [r [data [Hnet [Hstatus [Hjson [Hchoice ->]]]]]].
    apply ok_status in Hstatus.
    eapply vllm_returns; eassumption.
Qed.

Lemma vllm_returns_exactly_witness :
  fst (run (vllmAdapter Sample.options) (Sample.answers 200 "OK" Sample.vllm_data))
  = inr (vllm_result Sample.vllm_data).
Proof.
  apply (proj2 (vllm_returns_exactly Sample.options
                  (Sample.answers 200 "OK" Sample.vllm_data)
                  (vllm_result Sample.vllm_data))).
  exists (ok_response Sample.vllm_data), Sample.vllm_data.
  repeat split; try reflexivity; cbn [status ok_response]; lia.
Defined.

(** ** Bodies that lack what the adapter looks for *)

(** X9. For the vLLM adapter any falsy first choice counts as no completion:
    on a 2xx body whose [choices[0]] is [null], [0], [false] or the empty
    string (or is missing because [choices] is not indexable), it throws the
    no-completion error. *)
Theorem vllm_falsy_first_choice
    (options : LLMCallOptions) (net : Net) (r : Response) (data : JsVal) :
  net (vllmRequest options) = Resolved r ->
  (200 <= status r <= 299)%nat ->
  json r = inr data ->
  data <> JNull -> data <> JUndefined ->
  Js.truthy (Js.index_opt (Js.get_opt data "choices") 0) = false ->
  fst (run (vllmAdapter options) net)
  = inl (ErrorObj "vLLM adapter failed: No completion returned from vLLM").
Proof.
  intros Hnet Hstatus Hjson Hnull Hundef Hchoice.
  apply ok_status in Hstatus.
  eapply vllm_no_choice; try eassumption.
  apply get_non_nullish. destruct data; try reflexivity; congruence.
Qed.

Lemma vllm_falsy_first_choice_witness :
  fst (run (vllmAdapter Sample.options)
         (Sample.answers 200 "OK" (JObj [("choices", JArr [JNull])])))
  = inl (ErrorObj "vLLM adapter failed: No completion returned from vLLM").
Proof.
  apply (vllm_falsy_first_choice Sample.options
           (Sample.answers 200 "OK" (JObj [("choices", JArr [JNull])]))
           (ok_response (JObj [("choices", JArr [JNull])]))
           (JObj [("choices", JArr [JNull])]));
    try reflexivity; try discriminate.
  cbn [status ok_response]. lia.
Defined.

(** X10. The Ollama adapter does not check that the body has a text: on a
    2xx JSON object without a [response] key, and with counters that can be
    added, it returns a result whose [content] is [undefined]. *)
Theorem ollama_missing_text_returns
    (number_text : Q -> string) (options : LLMCallOptions) (net : Net)
    (r : Response) (props : list (string * JsVal)) :
  net (ollamaRequest options) = Resolved r ->
  (200 <= status r <= 299)%nat ->
  json r = inr (JObj props) ->
  Js.lookup props "response" = None ->
  addable (Js.get_opt (JObj props) "prompt_eval_count")
          (Js.get_opt (JObj props) "eval_count") = true ->
  exists result,
    fst (run (ollamaAdapter number_text options) net) = inr result
    /\ Js.get_opt result "content" = JUndefined
    /\ result_shape result.
Proof.
  intros Hnet Hstatus Hjson Hmissing Hadd. apply ok_status in Hstatus.
  exists (ollama_result number_text (JObj props)). split; [|split].
  - eapply ollama_returns; try eassumption. reflexivity.
  - change (Js.get_opt (ollama_result number_text (JObj props)) "content")
      with (Js.of_option (Js.lookup props "response")).
    rewrite Hmissing. reflexivity.
  - split; reflexivity.
Qed.

Lemma ollama_missing_text_returns_witness :
  exists result,
    fst (run (ollamaAdapter Sample.number_text Sample.options)
           (Sample.answers 200 "OK" (JObj [("done", JBool true)]))) = inr result
    /\ Js.get_opt result "content" = JUndefined
    /\ result_shape result.
Proof.
  apply (ollama_missing_text_returns Sample.number_text Sample.options
           (Sample.answers 200 "OK" (JObj [("done", JBool true)]))
           (ok_response (JObj [("done", JBool true)])) [("done", JBool true)]);
    try reflexivity.
  cbn [status ok_response]. lia.
Defined.

(** X11. The TGI adapter loses an empty generation: on a 2xx single-object
    body whose [generated_text] is the empty string, and whose counters can
    be added, the returned [content] is [undefined], not the empty
    string. *)
Theorem tgi_empty_text_is_lost
    (number_text : Q -> string) (options : LLMCallOptions) (net : Net)
    (r : Response) (props : list (string * JsVal)) :
  net (tgiRequest options) = Resolved r ->
  (200 <= status r <= 299)%nat ->
  json r = inr (JObj props) ->
  Js.lookup props "generated_text" = Some (JStr "") ->
  Js.lookup props "0" = None ->
  addable (Js.get_opt (Js.get_opt (JObj props) "details") "prompt_tokens")
          (Js.get_opt (Js.get_opt (JObj props) "details") "generated_tokens") = true ->
  exists result,
    fst (run (tgiAdapter number_text options) net) = inr result
    /\ Js.get_opt result "content" = JUndefined.
Proof.
  intros Hnet Hstatus Hjson Hempty Hzero Hadd. apply ok_status in Hstatus.
  exists (tgi_result number_text (JObj props)). split.
  - eapply tgi_returns; try eassumption. reflexivity.
  - change (Js.get_opt (tgi_result number_text (JObj props)) "content")
      with (Js.or (Js.of_option (Js.lookup props "generated_text"))
                  (Js.get_opt (Js.of_option (Js.lookup props "0")) "generated_text")).
    rewrite Hempty, Hzero. reflexivity.
Qed.

Lemma tgi_empty_text_is_lost_witness :
  exists result,
    fst (run (tgiAdapter Sample.number_text Sample.options)
           (Sample.answers 200 "OK" (JObj [("generated_text", JStr "")]))) = inr result
    /\ Js.get_opt result "content" = JUndefined.
Proof.
  apply (tgi_empty_text_is_lost Sample.number_text Sample.options
           (Sample.answers 200 "OK" (JObj [("generated_text", JStr "")]))
           (ok_response (JObj [("generated_text", JStr "")]))
           [("generated_text", JStr "")]);
    try reflexivity.
  cbn [status ok_response]. lia.
Defined.

(** X12. The vLLM adapter does not add the counters up: [total_tokens] is
    the total the backend reports, and 0 when the backend reports none,
    whatever [prompt_tokens] and [completion_tokens] are. *)
Theorem vllm_total_is_reported
    (options : LLMCallOptions) (net : Net) (result : JsVal) :
  fst (run (vllmAdapter options) net) = inr result ->
  exists r data,
    net (vllmRequest options) = Resolved r /\ json r = inr data
    /\ let usage := Js.get_opt data "usage" in
       usage_of result "prompt_tokens" = Js.or (Js.get_opt usage "prompt_tokens") (JNum 0)
       /\ usage_of result "completion_tokens"
          = Js.or (Js.get_opt usage "completion_tokens") (JNum 0)
       /\ usage_of result "total_tokens" = Js.or (Js.get_opt usage "total_tokens") (JNum 0)
       /\ (Js.get_opt usage "total_tokens" = JUndefined ->
           usage_of result "total_tokens" = JNum 0).
Proof.
  intros Hrun. apply vllm_success in Hrun.
  destruct Hrun as [r [data [Hnet [_ [Hjson [_ ->]]]]]].
  exists r, data. repeat split; try assumption.
  unfold usage_of, vllm_result. cbn. intros ->. reflexivity.
Qed.

(** Three prompt tokens, four completion tokens, no total: the total is 0. *)
Lemma vllm_total_is_reported_witness :
  exists r data,
    Sample.answers 200 "OK" vllm_data_without_total (vllmRequest Sample.options)
    = Resolved r
    /\ json r = inr data
    /\ let usage := Js.get_opt data "usage" in
       usage_of (vllm_result vllm_data_without_total) "prompt_tokens"
       = Js.or (Js.get_opt usage "prompt_tokens") (JNum 0)
       /\ usage_of (vllm_result vllm_data_without_total) "completion_tokens"
          = Js.or (Js.get_opt usage "completion_tokens") (JNum 0)
       /\ usage_of (vllm_result vllm_data_without_total) "total_tokens"
          = Js.or (Js.get_opt usage "total_tokens") (JNum 0)
       /\ (Js.get_opt usage "total_tokens" = JUndefined ->
           usage_of (vllm_result vllm_data_without_total) "total_tokens" = JNum 0).
Proof.
  apply (vllm_total_is_reported Sample.options
           (Sample.answers 200 "OK" vllm_data_without_total)).
  reflexivity.
Defined.

(** * Host code *)

Import Host.

Ltac io_unfold :=
  unfold Host.bind, Host.try_catch, Host.ret, Host.throw, Host.lift, Host.fetch,
    Host.response_json, Host.console_log, Host.template, Host.executeWorkflow,
    Host.compileWorkflow, Host.registerOpenSourceAdapters, Host.getenv in *.

Lemma quiet_refl (t : Trace) : quiet t t.
Proof. repeat split. Qed.

Lemma quiet_trans (t1 t2 t3 : Trace) : quiet t1 t2 -> quiet t2 t3 -> quiet t1 t3.
Proof.
  intros [H1 [H2 H3]] [H4 [H5 H6]]. repeat split; congruence.
Qed.

Lemma silent_ret {A} (a : A) : silent (Host.ret a).
Proof. intros env t. apply quiet_refl. Qed.

Lemma silent_throw {A} (e : Raised) : silent (@Host.throw A e).
Proof. intros env t. apply quiet_refl. Qed.

Lemma silent_lift {A} (r : Thrown + A) : silent (Host.lift r).
Proof. intros env t. apply quiet_refl. Qed.

Lemma silent_response_json (r : Response) : silent (Host.response_json r).
Proof. intros env t. apply quiet_refl. Qed.

Lemma silent_getenv (k : string) : silent (Host.getenv k).
Proof. intros env t. apply quiet_refl. Qed.

Lemma silent_console_log (args : list Arg) : silent (console_log args).
Proof. intros env t. repeat split. Qed.

Lemma silent_template (before : string) (v : JsVal) (after : string) :
  silent (Host.template before v after).
Proof. intros env t. apply quiet_refl. Qed.

Lemma silent_bind {A B} (m : IO A) (k : A -> IO B) :
  silent m -> (forall a, silent (k a)) -> silent (Host.bind m k).
Proof.
  intros Hm Hk env t. unfold Host.bind.
  specialize (Hm env t). destruct (m env t) as [[e|a] t']; cbn [snd] in *.
  - exact Hm.
  - eapply quiet_trans; [exact Hm | apply Hk].
Qed.

Lemma silent_try_catch {A} (block : IO A) (handler : Raised -> IO A) :
  silent block -> (forall e, silent (handler e)) -> silent (Host.try_catch block handler).
Proof.
  intros Hb Hh env t. unfold Host.try_catch.
  specialize (Hb env t). destruct (block env t) as [[e|a] t']; cbn [snd] in *.
  - eapply quiet_trans; [exact Hb | apply Hh].
  - exact Hb.
Qed.

Lemma silent_for_each {A} (l : list A) (body : A -> IO unit) :
  (forall x, silent (body x)) -> silent (for_each l body).
Proof.
  intros Hbody. induction l as [|x rest IH]; cbn [for_each].
  - apply silent_ret.
  - apply silent_bind; [apply Hbody | intros _; exact IH].
Qed.

Lemma silent_if {A} (c : bool) (m1 m2 : IO A) :
  silent m1 -> silent m2 -> silent (if c then m1 else m2).
Proof. destruct c; auto. Qed.

Ltac silence :=
  repeat first
    [ apply silent_ret | apply silent_throw | apply silent_lift
    | apply silent_console_log | apply silent_template
    | apply silent_response_json | apply silent_getenv
    | apply silent_if
    | apply silent_bind; [|intros ?]
    | apply silent_try_catch; [|intros ?] ].

Lemma mild_ret {A} (a : A) : Cli.mild (Host.ret a).
Proof. intros env t e H. discriminate H. Qed.

Lemma mild_console_log (args : list Arg) : Cli.mild (console_log args).
Proof. intros env t e H. discriminate H. Qed.

Lemma mild_lift {A} (r : Thrown + A) : Cli.mild (Host.lift r).
Proof.
  intros env t e. unfold Host.lift. cbn [fst].
  destruct r as [[m|v]|a]; intros H; inversion H; reflexivity.
Qed.

Lemma mild_template (before : string) (v : JsVal) (after : string) :
  Cli.mild (Host.template before v after).
Proof.
  intros env t e. unfold Host.template. cbn [fst].
  destruct (Js.converts v); intros H; inversion H; reflexivity.
Qed.

Lemma mild_bind {A B} (m : IO A) (k : A -> IO B) :
  Cli.mild m -> (forall a, Cli.mild (k a)) -> Cli.mild (Host.bind m k).
Proof.
  intros Hm Hk env t e. unfold Host.bind.
  specialize (Hm env t). destruct (m env t) as [[e'|a] t']; cbn [fst] in *.
  - intros H. inversion H. subst e'. apply Hm. reflexivity.
  - apply Hk.
Qed.

Lemma mild_for_each {A} (l : list A) (body : A -> IO unit) :
  (forall x, Cli.mild (body x)) -> Cli.mild (for_each l body).
Proof.
  intros Hbody. induction l as [|x rest IH]; cbn [for_each].
  - apply mild_ret.
  - apply mild_bind; [apply Hbody | intros _; exact IH].
Qed.

Ltac mildness :=
  repeat first
    [ apply mild_ret | apply mild_lift | apply mild_console_log | apply mild_template
    | apply mild_bind; [|intros ?] ].

(** ** The command line *)

Lemma checkService_runs (env : Env) (s : Cli.Service) (t : Trace) :
  exists t' lines,
    Cli.checkService s env t = (inr tt, t')
    /\ requests t' = (requests t ++ [Host.get (Cli.url s)])%list
    /\ calls t' = calls t /\ executions t' = executions t
    /\ console t' = (console t ++ lines)%list
    /\ (1 <= length lines <= 2)%nat
    /\ (forall m, network env (Host.get (Cli.url s)) = Rejected m ->
        In [Text ("❌ " ++ Cli.name s ++ " is not available: " ++ m)] lines).
Proof.
  unfold Cli.checkService. io_unfold.
  destruct (network env (Host.get (Cli.url s))) as [m|r] eqn:Hnet.
  - eexists. eexists. split; [reflexivity|].
    cbn [requests calls executions console Host.message_of].
    rewrite <- app_assoc. cbn [app].
    split; [reflexivity|]. split; [reflexivity|]. split; [reflexivity|].
    split; [reflexivity|]. split; [cbn [length]; lia|].
    intros m' H. inversion H. left. reflexivity.
  - destruct (ok r).
    + eexists. eexists. split; [reflexivity|].
      cbn [requests calls executions console].
      split; [reflexivity|]. split; [reflexivity|]. split; [reflexivity|].
      split; [reflexivity|]. split; [cbn [length]; lia|].
      intros m' H. discriminate H.
    + eexists. eexists. split; [reflexivity|].
      cbn [requests calls executions console].
      split; [reflexivity|]. split; [reflexivity|]. split; [reflexivity|].
      split; [reflexivity|]. split; [cbn [length]; lia|].
      intros m' H. discriminate H.
Qed.

(** X13. [checkServices] never throws, whatever the network does: it probes
    Ollama and then vLLM, the second also when the first cannot be reached,
    reports a rejected probe with the message of its error, writes three to
    five console lines and makes no call into the engine. *)
Theorem checkServices_never_throws (env : Env) :
  let out := Cli.checkServices env Host.start in
  fst out = inr tt
  /\ requests (snd out)
     = [Host.get "http://localhost:11434/api/tags";
        Host.get "http://localhost:8000/v1/models"]
  /\ calls (snd out) = [] /\ executions (snd out) = []
  /\ (3 <= length (console (snd out)) <= 5)%nat
  /\ Forall (fun s =>
               forall m, network env (Host.get (Cli.url s)) = Rejected m ->
               In [Text ("❌ " ++ Cli.name s ++ " is not available: " ++ m)]
                  (console (snd out)))
       Cli.services.
Proof.
  cbv zeta.
  assert (Hrun : exists t2 l1 l2,
    Cli.checkServices env Host.start = (inr tt, t2)
    /\ requests t2 = [Host.get "http://localhost:11434/api/tags";
                      Host.get "http://localhost:8000/v1/models"]
    /\ calls t2 = [] /\ executions t2 = []
    /\ console t2 = ([Text "🔍 Checking required services..."] :: l1 ++ l2)%list
    /\ (1 <= length l1 <= 2)%nat /\ (1 <= length l2 <= 2)%nat
    /\ (forall m, network env (Host.get "http://localhost:11434/api/tags") = Rejected m ->
        In [Text ("❌ Ollama is not available: " ++ m)] l1)
    /\ (forall m, network env (Host.get "http://localhost:8000/v1/models") = Rejected m ->
        In [Text ("❌ vLLM is not available: " ++ m)] l2)).
  { unfold Cli.checkServices, Cli.services, for_each.
    unfold Host.bind, Host.console_log at 1, Host.ret.
    match goal with
    | |- context [Cli.checkService ?s env ?t] =>
        destruct (checkService_runs env s t)
          as [t1 [l1 [H1 [Hr1 [Hc1 [He1 [Hl1 [Hn1 Hm1]]]]]]]]; rewrite H1
    end.
    match goal with
    | |- context [Cli.checkService ?s env t1] =>
        destruct (checkService_runs env s t1)
          as [t2 [l2 [H2 [Hr2 [Hc2 [He2 [Hl2 [Hn2 Hm2]]]]]]]]; rewrite H2
    end.
    exists t2, l1, l2.
    rewrite Hr2, Hr1, Hc2, Hc1, He2, He1, Hl2, Hl1.
    cbn [Host.start requests console calls executions app Cli.url Cli.name] in *.
    repeat split; try reflexivity; try assumption; try lia. }
  destruct Hrun as [t2 [l1 [l2 [Hrun [Hr [Hc [He [Hl [Hn1 [Hn2 [Hm1 Hm2]]]]]]]]]]].
  rewrite Hrun. cbn [fst snd]. rewrite Hr, Hc, He, Hl.
  split; [reflexivity|]. split; [reflexivity|]. split; [reflexivity|].
  split; [reflexivity|].
  split; [cbn [length]; rewrite length_app; lia|].
  constructor; [|constructor; [|constructor]].
  - intros m Hm. right. apply in_or_app. left. apply Hm1. exact Hm.
  - intros m Hm. right. apply in_or_app. right. apply Hm2. exact Hm.
Qed.

Lemma bind_console_log {B} (args : list Arg) (k : unit -> IO B) (env : Env) (t : Trace) :
  Host.bind (console_log args) k env t = k tt env (with_console args t).
Proof. reflexivity. Qed.

Lemma bind_register {B} (k : unit -> IO B) (env : Env) (t : Trace) :
  Host.bind Host.registerOpenSourceAdapters k env t
  = k tt env (with_call Entry.CallRegisterOpenSourceAdapters t).
Proof. reflexivity. Qed.

Lemma bind_compile {B} (wf : Flow.WorkflowDefinition) (k : JsVal -> IO B)
    (env : Env) (t : Trace) :
  Host.bind (Host.compileWorkflow wf) k env t
  = match compiler env wf with
    | inl e => (inl e, with_call (Entry.CallCompileWorkflow wf) t)
    | inr plan => k plan env (with_call (Entry.CallCompileWorkflow wf) t)
    end.
Proof.
  unfold Host.bind, Host.compileWorkflow, with_call.
  destruct (compiler env wf); reflexivity.
Qed.

(** X14. What [main] prints of a textual step output is the preview of
    its code units, after a line with the id of the step and a rule.  The
    preview is never longer than 503 code units: an output of at most 500
    code units is printed as it is, a longer one is cut to its first 500
    code units and followed by an ellipsis of three dots. *)
Theorem preview_is_bounded (stepResult : list N) :
  (length (Cli.preview stepResult) <= 503)%nat
  /\ ((length stepResult <= 500)%nat -> Cli.preview stepResult = stepResult)
  /\ ((500 < length stepResult)%nat ->
      Cli.preview stepResult = (firstn 500 stepResult ++ [46%N; 46%N; 46%N])%list
      /\ length (Cli.preview stepResult) = 503%nat)
  /\ (forall stepId output env t,
        Js.units output = stepResult ->
        console (snd (Cli.showOutput (stepId, JStr output) env t))
        = (console t
           ++ [[Text (Cli.nl ++ "📋 " ++ stepId ++ ":")];
               [Text (Cli.repeat_string "─" 50)];
               [Units (Cli.preview stepResult)]])%list).
Proof.
  split; [|split; [|split]].
  - unfold Cli.preview. change (Js.units "...") with [46%N; 46%N; 46%N].
    rewrite length_app, length_firstn.
    destruct (500 <? length stepResult)%nat; cbn [length]; lia.
  - intros Hshort. unfold Cli.preview.
    destruct (Nat.ltb_spec 500 (length stepResult)) as [Hlong|_]; [lia|].
    rewrite app_nil_r. apply firstn_all2. exact Hshort.
  - intros Hlong. unfold Cli.preview. change (Js.units "...") with [46%N; 46%N; 46%N].
    destruct (Nat.ltb_spec 500 (length stepResult)) as [_|Hshort]; [|lia].
    split; [reflexivity|].
    rewrite length_app, firstn_length_le by lia. reflexivity.
  - intros stepId output env t <-. unfold Cli.showOutput. cbn [fst snd].
    rewrite !bind_console_log. unfold console_log, with_console. cbn [snd console].
    rewrite <- !app_assoc. reflexivity.
Qed.

(** An output of 300 letters of two bytes each is 300 code units long and
    is printed whole. *)
Lemma preview_is_bounded_witness :
  Cli.preview (Js.units (Cli.repeat_string "é" 300))
  = Js.units (Cli.repeat_string "é" 300).
Proof.
  apply (proj1 (proj2 (preview_is_bounded (Js.units (Cli.repeat_string "é" 300))))).
  apply Nat.leb_le. vm_compute. reflexivity.
Defined.

Lemma silent_showOutput (output : string * JsVal) : silent (Cli.showOutput output).
Proof.
  unfold Cli.showOutput. silence. destruct (snd output); apply silent_console_log.
Qed.

Lemma mild_showOutput (output : string * JsVal) : Cli.mild (Cli.showOutput output).
Proof.
  unfold Cli.showOutput. mildness. destruct (snd output); apply mild_console_log.
Qed.

(** A [try] statement that hands [params] to the engine and then only
    writes to the console, with a handler that does no more: it returns
    for the errors that are [fine] and throws [failure] for the others. *)
Lemma try_execute (params : JsVal) (rest : JsVal -> IO unit)
    (handler : Raised -> IO unit) (fine : Raised -> bool) (failure : Raised)
    (env : Env) (t : Trace) :
  (forall result, silent (rest result)) ->
  (forall e, silent (handler e)) ->
  (forall result env' t' e, fst (rest result env' t') = inl e -> fine e = true) ->
  (forall e env' t', fst (handler e env' t') = if fine e then inr tt else inl failure) ->
  let out := Host.try_catch (Host.bind (Host.executeWorkflow params) rest) handler env t in
  requests (snd out) = requests t
  /\ calls (snd out)
     = (calls t ++ [Entry.CallExecuteWorkflow (Js.get_opt params "researchTopic")])%list
  /\ executions (snd out) = (executions t ++ [params])%list
  /\ fst out = match engine env params with
               | inl e => if fine e then inr tt else inl failure
               | inr _ => inr tt
               end.
Proof.
  intros Hrest Hsilent Hfine Hhandler. cbv zeta.
  unfold Host.try_catch, Host.bind, Host.executeWorkflow.
  remember {| requests := requests t; console := console t;
              calls := (calls t ++ [Entry.CallExecuteWorkflow
                                      (Js.get_opt params "researchTopic")])%list;
              executions := (executions t ++ [params])%list |} as t1 eqn:Ht1.
  assert (Hq1 : requests t1 = requests t
                /\ calls t1 = (calls t ++ [Entry.CallExecuteWorkflow
                                             (Js.get_opt params "researchTopic")])%list
                /\ executions t1 = (executions t ++ [params])%list).
  { subst t1. repeat split. }
  clear Ht1. destruct Hq1 as [Hr1 [Hc1 He1]].
  destruct (engine env params) as [e|result].
  - pose proof (Hsilent e env t1) as [Hr [Hc He]].
    pose proof (Hhandler e env t1) as Hres.
    destruct (handler e env t1) as [res t']. cbn [fst snd] in *.
    repeat split; congruence.
  - pose proof (Hrest result env t1) as [Hr2 [Hc2 He2]].
    pose proof (Hfine result env t1) as Hmild.
    destruct (rest result env t1) as [[e|[]] t2]; cbn [fst snd] in *.
    + pose proof (Hsilent e env t2) as [Hr [Hc He]].
      pose proof (Hhandler e env t2) as Hres.
      rewrite (Hmild e eq_refl) in Hres.
      destruct (handler e env t2) as [res t']. cbn [fst snd] in *.
      repeat split; congruence.
    + repeat split; congruence.
Qed.

Lemma printable_without_step (e : Raised) : Cli.has_step e = false -> Cli.printable e = true.
Proof. intros H. unfold Cli.printable. rewrite H. reflexivity. Qed.

(** What the [try] statement of [main] leaves behind: one engine call, with
    the parameters of the CLI; it fails only in its catch clause, on an
    error it cannot print. *)
Lemma runWorkflow_runs_once (env : Env) (t : Trace) :
  let out := Cli.runWorkflow env t in
  requests (snd out) = requests t
  /\ calls (snd out) = (calls t ++ [Entry.CallExecuteWorkflow Entry.cliTopic])%list
  /\ executions (snd out) = (executions t ++ [Cli.executionParams])%list
  /\ fst out = match engine env Cli.executionParams with
               | inl e => if Cli.printable e then inr tt
                          else inl (Host.of_thrown Js.cannot_convert)
               | inr _ => inr tt
               end.
Proof.
  unfold Cli.runWorkflow. apply try_execute.
  - intros result. silence. apply silent_for_each. apply silent_showOutput.
  - intros e. silence.
  - intros result env' t' e H. apply printable_without_step.
    revert env' t' e H.
    match goal with
    | |- forall env' t' e, fst (?m env' t') = inl e -> _ => change (Cli.mild m)
    end.
    mildness. apply mild_for_each. apply mild_showOutput.
  - intros e env' t'. unfold Cli.printable. io_unfold. unfold Host.template.
    destruct (Cli.has_step e); [|reflexivity].
    cbn [fst snd].
    destruct (Js.converts (Cli.own e "step")); cbn [fst snd andb]; [|reflexivity].
    destruct (Js.converts (Cli.own e "suggestedFix")); reflexivity.
Qed.

(** X15. [main] makes the calls register, compile, execute in this order,
    and sends no request itself.  When [compileWorkflow] throws, [main]
    fails with that error and nothing is executed.  A failure of the
    execution, or of reading its result, is caught and logged, and [main]
    returns: it fails after the execution only in its catch clause, when
    the error [executeWorkflow] threw has a [step] or a [suggestedFix] that
    the template literals of the two log lines cannot turn into a
    string. *)
Theorem main_fails_only_to_compile (env : Env) :
  let out := Cli.main env Host.start in
  calls (snd out) = Entry.main (succeeds (compiler env Flow.researchToAppFlow))
  /\ requests (snd out) = []
  /\ (forall e, compiler env Flow.researchToAppFlow = inl e ->
        fst out = inl e /\ executions (snd out) = [])
  /\ (forall e,
        fst out = inl e
        <-> compiler env Flow.researchToAppFlow = inl e
            \/ exists plan error,
                 compiler env Flow.researchToAppFlow = inr plan
                 /\ engine env Cli.executionParams = inl error
                 /\ Cli.printable error = false
                 /\ e = RaisedError "Cannot convert object to primitive value" [])
  /\ (forall plan, compiler env Flow.researchToAppFlow = inr plan ->
        executions (snd out) = [Cli.executionParams]
        /\ (forall result, engine env Cli.executionParams = inr result ->
            fst out = inr tt)
        /\ (forall v, engine env Cli.executionParams = inl (RaisedOther v) ->
            fst out = inr tt)
        /\ (forall message props,
              engine env Cli.executionParams = inl (RaisedError message props) ->
              let step := Js.of_option (Js.lookup props "step") in
              let suggestedFix := Js.of_option (Js.lookup props "suggestedFix") in
              (Js.lookup props "step" = None -> fst out = inr tt)
              /\ (primitive step -> primitive suggestedFix -> fst out = inr tt)
              /\ (Js.lookup props "step" <> None ->
                  hides_toString step \/ hides_toString suggestedFix ->
                  fst out
                  = inl (RaisedError "Cannot convert object to primitive value" []))
              /\ (fst out = inr tt
                  <-> Cli.printable (RaisedError message props) = true))).
Proof.
  cbv zeta. unfold Cli.main.
  rewrite bind_console_log, bind_register, !bind_console_log, bind_compile.
  destruct (compiler env Flow.researchToAppFlow) as [e|plan].
  - cbn [fst snd succeeds].
    split; [reflexivity|]. split; [reflexivity|]. split; [|split].
    + intros e' H. inversion H. split; reflexivity.
    + intros e'. split.
      * intros H. left. inversion H. reflexivity.
      * intros [H | [plan [error [H _]]]]; [inversion H; reflexivity | discriminate H].
    + intros plan H. discriminate H.
  - rewrite !bind_console_log.
    match goal with
    | |- context [Cli.runWorkflow env ?t] =>
        pose proof (runWorkflow_runs_once env t) as Hrun;
        destruct (Cli.runWorkflow env t) as [res t']
    end.
    cbv zeta in Hrun. cbn [fst snd] in Hrun.
    cbn [requests calls executions with_console with_call Host.start app] in Hrun.
    destruct Hrun as [Hreq [Hcalls [Hexec Hres]]].
    cbn [fst snd succeeds].
    split; [exact Hcalls|]. split; [exact Hreq|]. split; [|split].
    + intros e' H. discriminate H.
    + intros e'. rewrite Hres. split.
      * intros H. right. exists plan.
        destruct (engine env Cli.executionParams) as [error|result]; [|discriminate H].
        exists error. destruct (Cli.printable error); [discriminate H|].
        inversion H. repeat split.
      * intros [H | [plan' [error [_ [Hengine [Hprint ->]]]]]]; [discriminate H|].
        rewrite Hengine, Hprint. reflexivity.
    + intros plan' _. split; [exact Hexec|].
      split; [intros result Hengine; rewrite Hengine in Hres; exact Hres|].
      split; [intros v Hengine; rewrite Hengine in Hres; exact Hres|].
      intros message props Hengine. rewrite Hengine in Hres. clear Hengine.
      unfold Cli.printable in *. cbn [Cli.has_step Cli.own] in *.
      split; [|split; [|split]].
      * intros Hnone.
        assert (Hkey : existsb (fun p => fst p =? "step") props = false).
        { destruct (existsb (fun p => fst p =? "step") props) eqn:E; [|reflexivity].
          apply lookup_has_key in E. contradiction. }
        rewrite Hkey in Hres. exact Hres.
      * intros Hstep Hfix.
        rewrite (converts_primitive _ Hstep), (converts_primitive _ Hfix) in Hres.
        destruct (existsb (fun p => fst p =? "step") props); exact Hres.
      * intros Hsome Hhidden.
        apply lookup_has_key in Hsome. rewrite Hsome in Hres.
        assert (Hno : Js.converts (Js.of_option (Js.lookup props "step"))
                      && Js.converts (Js.of_option (Js.lookup props "suggestedFix"))
                      = false) by (apply addable_hides_toString; exact Hhidden).
        rewrite Hno in Hres. exact Hres.
      * rewrite Hres.
        destruct (if existsb (fun p => fst p =? "step") props
                  then Js.converts (Js.of_option (Js.lookup props "step"))
                       && Js.converts (Js.of_option (Js.lookup props "suggestedFix"))
                  else true);
          split; intros H; try reflexivity; discriminate H.
Qed.

(** An engine error that names its step as a string is caught; one whose
    step is an object with a [toString] of its own makes [main] fail. *)
Lemma main_fails_only_to_compile_witness :
  fst (Cli.main Hosts.failing_engine Host.start) = inr tt
  /\ fst (Cli.main Hosts.odd_engine Host.start)
     = inl (RaisedError "Cannot convert object to primitive value" []).
Proof.
  split.
  - pose proof (main_fails_only_to_compile Hosts.failing_engine) as H.
    cbv zeta in H. destruct H as [_ [_ [_ [_ H]]]].
    destruct (H JNull eq_refl) as [_ [_ [_ Herror]]].
    destruct (Herror "Unknown provider" [("step", JStr "analyze-research-topic")] eq_refl)
      as [_ [Hprimitive _]].
    apply Hprimitive; exact I.
  - pose proof (main_fails_only_to_compile Hosts.odd_engine) as H.
    cbv zeta in H. destruct H as [_ [_ [_ [_ H]]]].
    destruct (H JNull eq_refl) as [_ [_ [_ Herror]]].
    destruct (Herror "Unknown provider" [("step", JObj [("toString", JNum 1)])] eq_refl)
      as [_ [_ [Hhidden _]]].
    apply Hhidden; [discriminate|].
    left. exists [("toString", JNum 1)]. split; [reflexivity | discriminate].
Defined.

(** ** The Express route [POST /api/workflows/execute] *)

(** Destructuring a body that is there does nothing. *)
Lemma destructure_present (source : JsVal) (text first : string) :
  Js.nullish source = false -> Host.destructure source text first = Host.ret tt.
Proof. destruct source; cbn; intros H; try discriminate; reflexivity. Qed.

Lemma get_opt_nullish (v : JsVal) (k : string) :
  Js.nullish v = true -> Js.get_opt v k = JUndefined.
Proof. destruct v; cbn; intros H; try discriminate; reflexivity. Qed.

Lemma server_execute_calls (env : Env) (req : Req) :
  calls (snd (Server.execute req env Host.start))
  = (if Js.truthy (Js.get_opt (Host.body req) "researchTopic")
        && Js.converts (Js.get_opt (Host.body req) "researchTopic")
     then [Entry.CallExecuteWorkflow (Js.get_opt (Host.body req) "researchTopic")]
     else []).
Proof.
  unfold Server.execute.
  destruct (Js.nullish (Host.body req)) eqn:Hbody.
  - rewrite (get_opt_nullish _ _ Hbody).
    destruct (Host.body req); try discriminate Hbody; reflexivity.
  - rewrite (destructure_present _ _ _ Hbody).
    destruct (Js.truthy (Js.get_opt (Host.body req) "researchTopic")) eqn:Htopic;
      io_unfold; cbn [negb andb fst snd Host.start requests console calls executions app];
      [|reflexivity].
    destruct (Js.converts (Js.get_opt (Host.body req) "researchTopic")) eqn:Hconv;
      cbn [fst snd calls]; [|reflexivity].
    destruct (engine env _) as [e|result]; cbn [fst snd calls]; [reflexivity|].
    destruct (Js.get result "metadata") as [e1|metadata]; cbn [fst snd calls];
      [reflexivity|].
    destruct (Js.get metadata "duration") as [e2|duration]; cbn [fst snd calls];
      [reflexivity|].
    destruct (Js.get metadata "stepsExecuted") as [e3|steps]; reflexivity.
Qed.

Lemma truthy_hides_toString (v : JsVal) : hides_toString v -> Js.truthy v = true.
Proof. intros [props [-> _]]. reflexivity. Qed.

(** The answer to a topic that the template literal cannot turn into a
    string. *)
Lemma server_execute_unprintable (env : Env) (req : Req) :
  Js.truthy (Js.get_opt (Host.body req) "researchTopic") = true ->
  Js.converts (Js.get_opt (Host.body req) "researchTopic") = false ->
  exists t,
    Server.execute req env Host.start
    = (inr (Server.failure (Host.of_thrown Js.cannot_convert)), t)
    /\ requests t = [] /\ calls t = [] /\ executions t = [].
Proof.
  intros Htopic Hconv. unfold Server.execute.
  assert (Hbody : Js.nullish (Host.body req) = false).
  { destruct (Host.body req); try reflexivity; discriminate Htopic. }
  rewrite (destructure_present _ _ _ Hbody).
  io_unfold. rewrite Htopic, Hconv. cbn [negb fst snd].
  eexists. split; [reflexivity|]. repeat split.
Qed.

(** X16. The execute route always answers, with status 200, 400 or 500, and
    never throws; it sends no request, and it calls [executeWorkflow] at
    most once: exactly when the body carries a [researchTopic] that is
    truthy and that the template literal of the log line can turn into a
    string.  A topic that is a string, a number or [true] is passed on; a
    topic that is an object with a property [toString] of its own is
    answered with 500 and the message of the TypeError, without a call. *)
Theorem server_execute_always_replies (env : Env) (req : Req) :
  let out := Server.execute req env Host.start in
  let topic := Js.get_opt (Host.body req) "researchTopic" in
  exists reply,
    fst out = inr reply
    /\ (code reply = 200 \/ code reply = 400 \/ code reply = 500)%nat
    /\ requests (snd out) = []
    /\ calls (snd out)
       = (if Js.truthy topic && Js.converts topic
          then [Entry.CallExecuteWorkflow topic] else [])
    /\ length (executions (snd out))
       = (if Js.truthy topic && Js.converts topic then 1 else 0)%nat
    /\ (primitive topic -> Js.truthy topic = true ->
        calls (snd out) = [Entry.CallExecuteWorkflow topic])
    /\ (hides_toString topic ->
        calls (snd out) = [] /\ executions (snd out) = []
        /\ code reply = 500%nat
        /\ Host.wire reply
           = Some (JObj [("success", JBool false);
                         ("error", JStr "Cannot convert object to primitive value")])).
Proof.
  cbv zeta.
  assert (Hmain : exists reply,
    fst (Server.execute req env Host.start) = inr reply
    /\ (code reply = 200 \/ code reply = 400 \/ code reply = 500)%nat
    /\ requests (snd (Server.execute req env Host.start)) = []
    /\ calls (snd (Server.execute req env Host.start))
       = (if Js.truthy (Js.get_opt (Host.body req) "researchTopic")
             && Js.converts (Js.get_opt (Host.body req) "researchTopic")
          then [Entry.CallExecuteWorkflow (Js.get_opt (Host.body req) "researchTopic")]
          else [])
    /\ length (executions (snd (Server.execute req env Host.start)))
       = (if Js.truthy (Js.get_opt (Host.body req) "researchTopic")
             && Js.converts (Js.get_opt (Host.body req) "researchTopic")
          then 1 else 0)%nat).
  { unfold Server.execute.
    destruct (Js.nullish (Host.body req)) eqn:Hbody.
    - rewrite (get_opt_nullish _ _ Hbody).
      destruct (Host.body req); try discriminate Hbody;
        (eexists; io_unfold; cbn; repeat split; auto).
    - rewrite (destructure_present _ _ _ Hbody).
      destruct (Js.truthy (Js.get_opt (Host.body req) "researchTopic")) eqn:Htopic;
        io_unfold;
        cbn [negb andb fst snd Host.start requests console calls executions app].
      + destruct (Js.converts (Js.get_opt (Host.body req) "researchTopic")) eqn:Hconv;
          cbn [fst snd]; [|eexists; cbn; repeat split; auto].
        destruct (engine env _) as [e|result]; cbn [fst snd];
          [eexists; cbn; repeat split; auto|].
        destruct (Js.get result "metadata") as [e1|metadata]; cbn [fst snd];
          [eexists; cbn; repeat split; auto|].
        destruct (Js.get metadata "duration") as [e2|duration]; cbn [fst snd];
          [eexists; cbn; repeat split; auto|].
        destruct (Js.get metadata "stepsExecuted") as [e3|steps]; cbn [fst snd];
          eexists; cbn; repeat split; auto.
      + eexists. cbn. repeat split; auto. }
  destruct Hmain as [reply [Hreply [Hcode [Hreq [Hcalls Hexec]]]]].
  exists reply.
  split; [exact Hreply|]. split; [exact Hcode|]. split; [exact Hreq|].
  split; [exact Hcalls|]. split; [exact Hexec|]. split.
  - intros Hprim Htopic. rewrite Hcalls, Htopic, (converts_primitive _ Hprim). reflexivity.
  - intros Hhidden.
    destruct (server_execute_unprintable env req (truthy_hides_toString _ Hhidden)
                (converts_hides_toString _ Hhidden)) as [t [Hrun [_ [Hc He]]]].
    rewrite Hrun in *. cbn [fst snd] in *. inversion Hreply. subst reply.
    repeat split; assumption.
Qed.

(** A topic that is an object with a [toString] of its own. *)
Lemma server_execute_always_replies_witness :
  exists reply,
    fst (Server.execute
           {| Host.method := "POST";
              Host.body := JObj [("researchTopic", JObj [("toString", JNum 1)])] |}
           Hosts.working_engine Host.start) = inr reply
    /\ code reply = 500%nat
    /\ calls (snd (Server.execute
                     {| Host.method := "POST";
                        Host.body := JObj [("researchTopic", JObj [("toString", JNum 1)])] |}
                     Hosts.working_engine Host.start)) = [].
Proof.
  destruct (server_execute_always_replies Hosts.working_engine
              {| Host.method := "POST";
                 Host.body := JObj [("researchTopic", JObj [("toString", JNum 1)])] |})
    as [reply [Hreply [_ [_ [_ [_ [_ Hhidden]]]]]]].
  exists reply. split; [exact Hreply|].
  assert (H : hides_toString (JObj [("toString", JNum 1)])).
  { exists [("toString", JNum 1)]. split; [reflexivity | discriminate]. }
  destruct (Hhidden H) as [Hcalls [_ [Hcode _]]].
  split; [exact Hcode | exact Hcalls].
Defined.

(** X17. A body without a truthy [researchTopic] is refused with status 400
    and the error [researchTopic is required]; nothing is logged and the
    engine is not called. *)
Theorem server_execute_requires_topic (env : Env) (req : Req) (t : Trace) :
  Host.body req <> JUndefined -> Host.body req <> JNull ->
  Js.truthy (Js.get_opt (Host.body req) "researchTopic") = false ->
  Server.execute req env t
  = (inr (Server.json 400 (JObj [("error", JStr "researchTopic is required")])), t).
Proof.
  intros Hundef Hnull Htopic. unfold Server.execute.
  rewrite destructure_present by (destruct (Host.body req); try reflexivity; congruence).
  io_unfold. rewrite Htopic. reflexivity.
Qed.

Lemma server_execute_requires_topic_witness :
  Server.execute {| Host.method := "POST"; Host.body := JObj [("researchTopic", JStr "")] |}
    Hosts.working_engine Host.start
  = (inr (Server.json 400 (JObj [("error", JStr "researchTopic is required")])),
     Host.start).
Proof.
  apply server_execute_requires_topic; try discriminate. reflexivity.
Defined.

(** X18. When [executeWorkflow] is reached, with a topic that is truthy and
    has a string, and throws an [Error], the route answers 500 with
    [success: false] and the message of the error; the JSON carries [step]
    exactly when the error has a [step] that is not [undefined]. *)
Theorem server_execute_reports_failure
    (env : Env) (req : Req) (message : string) (props : list (string * JsVal)) :
  Js.truthy (Js.get_opt (Host.body req) "researchTopic") = true ->
  Js.converts (Js.get_opt (Host.body req) "researchTopic") = true ->
  (forall params, engine env params = inl (RaisedError message props)) ->
  exists reply wire,
    fst (Server.execute req env Host.start) = inr reply
    /\ code reply = 500%nat
    /\ Host.wire reply = Some wire
    /\ Js.get_opt wire "success" = JBool false
    /\ Js.get_opt wire "error" = JStr message
    /\ Js.has_key wire "step"
       = negb (Js.is_undefined (Host.step_of (RaisedError message props))).
Proof.
  intros Htopic Hconv Hengine. unfold Server.execute.
  assert (Hbody : Js.nullish (Host.body req) = false).
  { destruct (Host.body req); try reflexivity; discriminate Htopic. }
  rewrite (destructure_present _ _ _ Hbody).
  io_unfold. rewrite Htopic, Hconv. cbn [negb]. rewrite Hengine. cbn [fst snd].
  eexists. eexists. split; [reflexivity|]. split; [reflexivity|].
  unfold Host.wire, Server.failure, Server.json. cbn [payload option_map Host.message_of].
  split; [reflexivity|].
  destruct (Host.step_of (RaisedError message props)); cbn; repeat split.
Qed.

Lemma server_execute_reports_failure_witness :
  exists reply wire,
    fst (Server.execute
           {| Host.method := "POST"; Host.body := JObj [("researchTopic", JStr "x")] |}
           Hosts.failing_engine Host.start) = inr reply
    /\ code reply = 500%nat
    /\ Host.wire reply = Some wire
    /\ Js.get_opt wire "success" = JBool false
    /\ Js.get_opt wire "error" = JStr "Unknown provider"
    /\ Js.has_key wire "step"
       = negb (Js.is_undefined
                 (Host.step_of (RaisedError "Unknown provider"
                                  [("step", JStr "analyze-research-topic")]))).
Proof.
  apply (server_execute_reports_failure Hosts.failing_engine
           {| Host.method := "POST"; Host.body := JObj [("researchTopic", JStr "x")] |}
           "Unknown provider" [("step", JStr "analyze-research-topic")]).
  - reflexivity.
  - reflexivity.
  - intros params. reflexivity.
Defined.

(** X19. For a topic that is truthy and has a string, the route answers
    200 only if the record [executeWorkflow] returns has a [metadata] to
    read: then the JSON carries the record as [data] with its [duration]
    and [stepsExecuted].  A record that is [null] or has no [metadata] is
    answered with 500, although the workflow was executed. *)
Theorem server_execute_needs_metadata (env : Env) (req : Req) (result : JsVal) :
  Js.truthy (Js.get_opt (Host.body req) "researchTopic") = true ->
  Js.converts (Js.get_opt (Host.body req) "researchTopic") = true ->
  (forall params, engine env params = inr result) ->
  let out := Server.execute req env Host.start in
  let metadata := Js.get_opt result "metadata" in
  length (executions (snd out)) = 1%nat
  /\ (Js.nullish result = false -> Js.nullish metadata = false ->
      fst out
      = inr (Server.json 200
               (JObj [("success", JBool true);
                      ("data", result);
                      ("metadata",
                       JObj [("executionTime", Js.get_opt metadata "duration");
                             ("stepsExecuted", Js.get_opt metadata "stepsExecuted");
                             ("workflowId", JStr "research-to-app-trial")])])))
  /\ (Js.nullish result = true \/ Js.nullish metadata = true ->
      exists reply, fst out = inr reply /\ code reply = 500%nat).
Proof.
  intros Htopic Hconv Hengine. cbv zeta. unfold Server.execute.
  assert (Hbody : Js.nullish (Host.body req) = false).
  { destruct (Host.body req); try reflexivity; discriminate Htopic. }
  rewrite (destructure_present _ _ _ Hbody).
  io_unfold. rewrite Htopic, Hconv. cbn [negb]. rewrite Hengine.
  cbn [fst snd Host.start requests console calls executions app].
  split; [|split].
  - destruct (Js.get result "metadata") as [e1|metadata]; cbn [fst snd];
      [reflexivity|].
    destruct (Js.get metadata "duration") as [e2|duration]; cbn [fst snd];
      [reflexivity|].
    destruct (Js.get metadata "stepsExecuted") as [e3|steps]; reflexivity.
  - intros Hresult Hmeta.
    rewrite (get_non_nullish result) by assumption. cbn [fst snd].
    rewrite !(get_non_nullish (Js.get_opt result "metadata")) by assumption.
    reflexivity.
  - intros [Hresult | Hmeta].
    + destruct result; try discriminate Hresult; (eexists; cbn; split; reflexivity).
    + destruct (Js.get result "metadata") as [e1|metadata] eqn:Hget; cbn [fst snd];
        [eexists; split; reflexivity|].
      rewrite (get_inr _ _ _ Hget) in Hmeta.
      destruct metadata; try discriminate Hmeta; (eexists; cbn; split; reflexivity).
Qed.

Lemma server_execute_needs_metadata_witness :
  exists reply,
    fst (Server.execute
           {| Host.method := "POST"; Host.body := JObj [("researchTopic", JStr "x")] |}
           {| network := network Hosts.working_engine;
              engine := fun _ => inr (JObj [("outputs", JObj [])]);
              compiler := compiler Hosts.working_engine;
              environment := environment Hosts.working_engine |}
           Host.start) = inr reply
    /\ code reply = 500%nat.
Proof.
  apply (proj2 (proj2 (server_execute_needs_metadata
           {| network := network Hosts.working_engine;
              engine := fun _ => inr (JObj [("outputs", JObj [])]);
              compiler := compiler Hosts.working_engine;
              environment := environment Hosts.working_engine |}
           {| Host.method := "POST"; Host.body := JObj [("researchTopic", JStr "x")] |}
           (JObj [("outputs", JObj [])]) eq_refl eq_refl (fun _ => eq_refl)))).
  right. reflexivity.
Defined.

(** ** The Vercel function *)

Lemma vercel_post (env : Env) (req : Req) :
  Host.method req = "POST" ->
  exists reply t,
    Vercel.handler req env Host.start = (inr reply, t)
    /\ Host.headers reply = Vercel.cors
    /\ requests t = []
    /\ (code reply = 200 \/ code reply = 400 \/ code reply = 500)%nat
    /\ calls t
       = (if Js.truthy (Js.get_opt (Host.body req) "researchTopic")
             && Js.converts (Js.get_opt (Host.body req) "researchTopic")
          then [Entry.CallExecuteWorkflow (Js.get_opt (Host.body req) "researchTopic")]
          else [])
    /\ (Js.truthy (Js.get_opt (Host.body req) "researchTopic") = true ->
        Js.converts (Js.get_opt (Host.body req) "researchTopic") = false ->
        reply = Vercel.failure (Host.of_thrown Js.cannot_convert)).
Proof.
  intros Hpost. unfold Vercel.handler. rewrite Hpost.
  cbn [String.eqb Ascii.eqb Bool.eqb negb].
  destruct (Js.nullish (Host.body req)) eqn:Hbody.
  - rewrite (get_opt_nullish _ _ Hbody).
    destruct (Host.body req); try discriminate Hbody;
      (eexists; eexists; split; [reflexivity|]; cbn; repeat split; auto; discriminate).
  - rewrite (destructure_present _ _ _ Hbody).
    destruct (Js.truthy (Js.get_opt (Host.body req) "researchTopic")) eqn:Htopic;
      unfold Vercel.env_or; io_unfold;
      cbn [negb andb fst snd Host.start requests console calls executions app].
    + destruct (Js.converts (Js.get_opt (Host.body req) "researchTopic")) eqn:Hconv;
        cbn [fst snd];
        [|eexists; eexists; split; [reflexivity|]; cbn; repeat split; auto].
      destruct (engine env _) as [e|result]; cbn [fst snd];
        [eexists; eexists; split; [reflexivity|]; cbn; repeat split; auto; discriminate|].
      destruct (Js.get result "metadata") as [e1|metadata]; cbn [fst snd];
        [eexists; eexists; split; [reflexivity|]; cbn; repeat split; auto; discriminate|].
      destruct (Js.get metadata "duration") as [e2|duration]; cbn [fst snd];
        [eexists; eexists; split; [reflexivity|]; cbn; repeat split; auto; discriminate|].
      destruct (Js.get metadata "stepsExecuted") as [e3|steps]; cbn [fst snd];
        eexists; eexists; (split; [reflexivity|]); cbn; repeat split; auto; discriminate.
    + eexists. eexists. split; [reflexivity|]. cbn. repeat split; auto; discriminate.
Qed.

Lemma vercel_handler_calls (env : Env) (req : Req) :
  calls (snd (Vercel.handler req env Host.start))
  = (if Host.method req =? "OPTIONS" then []
     else if negb (Host.method req =? "POST") then []
     else if Js.truthy (Js.get_opt (Host.body req) "researchTopic")
             && Js.converts (Js.get_opt (Host.body req) "researchTopic")
          then [Entry.CallExecuteWorkflow (Js.get_opt (Host.body req) "researchTopic")]
          else []).
Proof.
  destruct (String.eqb_spec (Host.method req) "OPTIONS") as [Hopt|Hopt].
  { unfold Vercel.handler. rewrite Hopt. reflexivity. }
  destruct (String.eqb_spec (Host.method req) "POST") as [Hpost|Hpost]; cbn [negb].
  - destruct (vercel_post env req Hpost) as [reply [t [Hrun [_ [_ [_ [Hcalls _]]]]]]].
    rewrite Hrun. exact Hcalls.
  - unfold Vercel.handler.
    destruct (String.eqb_spec (Host.method req) "OPTIONS") as [H|_]; [contradiction|].
    destruct (String.eqb_spec (Host.method req) "POST") as [H|_]; [contradiction|].
    reflexivity.
Qed.

(** X20. The Vercel function always answers and never throws; every answer
    carries the three CORS headers.  [OPTIONS] is answered 200 without a
    body and any method other than [POST] with 405, in both cases without
    reading the body, logging or calling the engine; a [POST] is answered
    200, 400 or 500 and calls [executeWorkflow] exactly when the body
    carries a [researchTopic] that is truthy and that the template literal
    of the log line can turn into a string: a string, a number or [true]
    is passed on, an object with a property [toString] of its own is
    answered with 500 and the message of the TypeError, without a call. *)
Theorem vercel_handler_always_replies (env : Env) (req : Req) :
  let out := Vercel.handler req env Host.start in
  let topic := Js.get_opt (Host.body req) "researchTopic" in
  exists reply,
    fst out = inr reply
    /\ Host.headers reply = Vercel.cors
    /\ requests (snd out) = []
    /\ (Host.method req = "OPTIONS" ->
        reply = Vercel.finish 200 /\ snd out = Host.start)
    /\ (Host.method req <> "OPTIONS" -> Host.method req <> "POST" ->
        reply = Vercel.json 405 (JObj [("error", JStr "Method not allowed")])
        /\ snd out = Host.start)
    /\ (Host.method req = "POST" ->
        (code reply = 200 \/ code reply = 400 \/ code reply = 500)%nat
        /\ calls (snd out)
           = (if Js.truthy topic && Js.converts topic
              then [Entry.CallExecuteWorkflow topic] else [])
        /\ (primitive topic -> Js.truthy topic = true ->
            calls (snd out) = [Entry.CallExecuteWorkflow topic])
        /\ (hides_toString topic ->
            calls (snd out) = [] /\ code reply = 500%nat
            /\ Host.wire reply
               = Some (JObj [("success", JBool false);
                             ("error", JStr "Cannot convert object to primitive value")]))).
Proof.
  cbv zeta.
  destruct (String.eqb_spec (Host.method req) "OPTIONS") as [Hopt|Hopt].
  { unfold Vercel.handler. rewrite Hopt. cbn [String.eqb Ascii.eqb Bool.eqb].
    exists (Vercel.finish 200). unfold Host.ret. cbn [fst snd].
    split; [reflexivity|]. split; [reflexivity|]. split; [reflexivity|].
    split; [intros _; split; reflexivity|].
    split; [intros Hno; contradiction|].
    intros Hpost. discriminate Hpost. }
  destruct (String.eqb_spec (Host.method req) "POST") as [Hpost|Hpost].
  2:{ unfold Vercel.handler.
      destruct (String.eqb_spec (Host.method req) "OPTIONS") as [H|_]; [contradiction|].
      destruct (String.eqb_spec (Host.method req) "POST") as [H|_]; [contradiction|].
      cbn [negb].
      exists (Vercel.json 405 (JObj [("error", JStr "Method not allowed")])).
      unfold Host.ret. cbn [fst snd].
      split; [reflexivity|]. split; [reflexivity|]. split; [reflexivity|].
      split; [intros Hyes; contradiction|].
      split; [intros _ _; split; reflexivity|].
      intros Hyes. contradiction. }
  destruct (vercel_post env req Hpost)
    as [reply [t [Hrun [Hh [Hr [Hc [Hcalls Hthrown]]]]]]].
  rewrite Hrun. exists reply. cbn [fst snd].
  split; [reflexivity|]. split; [exact Hh|]. split; [exact Hr|].
  split; [intros Hyes; contradiction|].
  split; [intros _ Hno; contradiction|].
  intros _. split; [exact Hc|]. split; [exact Hcalls|]. split.
  - intros Hprim Htopic. rewrite Hcalls, Htopic, (converts_primitive _ Hprim). reflexivity.
  - intros Hhidden.
    pose proof (truthy_hides_toString _ Hhidden) as Htopic.
    pose proof (converts_hides_toString _ Hhidden) as Hconv.
    rewrite Hcalls, Htopic, Hconv. rewrite (Hthrown Htopic Hconv).
    repeat split.
Qed.

(** A request that is no [POST], and a [POST] whose topic is an object with
    a [toString] of its own. *)
Lemma vercel_handler_always_replies_witness :
  (exists reply,
     fst (Vercel.handler {| Host.method := "GET"; Host.body := JUndefined |}
            Hosts.working_engine Host.start) = inr reply
     /\ reply = Vercel.json 405 (JObj [("error", JStr "Method not allowed")]))
  /\ calls (snd (Vercel.handler
                   {| Host.method := "POST";
                      Host.body := JObj [("researchTopic", JObj [("toString", JNum 1)])] |}
                   Hosts.working_engine Host.start)) = [].
Proof.
  split.
  - destruct (vercel_handler_always_replies Hosts.working_engine
                {| Host.method := "GET"; Host.body := JUndefined |})
      as [reply [Hfst [_ [_ [_ [Hother _]]]]]].
    exists reply. split; [exact Hfst|].
    apply Hother; cbn; intros H; discriminate H.
  - destruct (vercel_handler_always_replies Hosts.working_engine
                {| Host.method := "POST";
                   Host.body := JObj [("researchTopic", JObj [("toString", JNum 1)])] |})
      as [reply [_ [_ [_ [_ [_ Hpost]]]]]].
    destruct (Hpost eq_refl) as [_ [_ [_ Hhidden]]].
    apply Hhidden. exists [("toString", JNum 1)]. split; [reflexivity | discriminate].
Defined.

(** ** What the two handlers hand to the engine *)

Ltac after_engine env :=
  destruct (engine env _) as [?e|?result]; cbn [fst snd executions];
    [try reflexivity|];
  try (destruct (Js.get _ "metadata") as [?e|?metadata]; cbn [fst snd executions];
         [try reflexivity|];
       destruct (Js.get _ "duration") as [?e|?duration]; cbn [fst snd executions];
         [try reflexivity|];
       destruct (Js.get _ "stepsExecuted") as [?e|?steps]; cbn [fst snd executions];
       try reflexivity).

Lemma server_execute_params (env : Env) (req : Req) :
  Js.truthy (Js.get_opt (Host.body req) "researchTopic") = true ->
  Js.converts (Js.get_opt (Host.body req) "researchTopic") = true ->
  executions (snd (Server.execute req env Host.start))
  = [JObj [("researchTopic", Js.get_opt (Host.body req) "researchTopic");
           ("modelConfigs",
            Js.or (Js.get_opt (Host.body req) "modelConfigs") Server.defaultModelConfigs);
           ("secrets",
            Js.or (Js.get_opt (Host.body req) "secrets") Server.defaultSecrets)]].
Proof.
  intros Htopic Hconv. unfold Server.execute.
  assert (Hbody : Js.nullish (Host.body req) = false).
  { destruct (Host.body req); try reflexivity; discriminate Htopic. }
  rewrite (destructure_present _ _ _ Hbody).
  io_unfold. rewrite Htopic, Hconv.
  cbn [negb Host.start requests console calls executions app].
  after_engine env.
Qed.

Lemma vercel_handler_params (env : Env) (req : Req) :
  Host.method req = "POST" ->
  Js.truthy (Js.get_opt (Host.body req) "researchTopic") = true ->
  Js.converts (Js.get_opt (Host.body req) "researchTopic") = true ->
  executions (snd (Vercel.handler req env Host.start))
  = [JObj [("researchTopic", Js.get_opt (Host.body req) "researchTopic");
           ("modelConfigs",
            Js.or (Js.get_opt (Host.body req) "modelConfigs")
              (JObj [("ollama",
                      JObj [("baseUrl",
                             JStr (Js.or_string (environment env "OLLAMA_URL")
                                     "http://localhost:11434"));
                            ("apiKey", JStr "not-required")])]));
           ("secrets",
            JObj [("DATABASE_URL",
                   JStr (Js.or_string (environment env "DATABASE_URL") ""));
                  ("JWT_SECRET",
                   JStr (Js.or_string (environment env "JWT_SECRET") ""))])]].
Proof.
  intros Hpost Htopic Hconv. unfold Vercel.handler. rewrite Hpost.
  cbn [String.eqb Ascii.eqb Bool.eqb negb].
  assert (Hbody : Js.nullish (Host.body req) = false).
  { destruct (Host.body req); try reflexivity; discriminate Htopic. }
  rewrite (destructure_present _ _ _ Hbody).
  unfold Vercel.env_or. io_unfold. rewrite Htopic, Hconv.
  cbn [negb Host.start requests console calls executions app fst snd].
  after_engine env.
Qed.

Lemma model_configs_forwarded (topic given config secrets : JsVal) :
  let params :=
    JObj [("researchTopic", topic);
          ("modelConfigs", Js.or given (JObj [("ollama", config)]));
          ("secrets", secrets)] in
  let passed := Js.get_opt params "modelConfigs" in
  Js.get_opt params "researchTopic" = topic
  /\ (Js.truthy given = true -> passed = given)
  /\ (Js.truthy given = false ->
      Js.keys passed = ["ollama"] /\ Js.has_key passed "vllm" = false).
Proof.
  cbv zeta.
  change (Js.get_opt
            (JObj [("researchTopic", topic);
                   ("modelConfigs", Js.or given (JObj [("ollama", config)]));
                   ("secrets", secrets)]) "modelConfigs")
    with (Js.or given (JObj [("ollama", config)])).
  unfold Js.or.
  split; [reflexivity|]. split; intros Hgiven; rewrite Hgiven.
  - reflexivity.
  - split; reflexivity.
Qed.

(** X21. When they reach [executeWorkflow], that is for a [researchTopic]
    that is truthy and has a string, both handlers pass the topic and a
    truthy [modelConfigs] of the body on as they are.  Without
    [modelConfigs] they configure the provider [ollama] only: [vllm], which
    the workflow's steps also name, gets no configuration. *)
Theorem default_model_configs_omit_vllm (env : Env) (req : Req) :
  Host.method req = "POST" ->
  Js.truthy (Js.get_opt (Host.body req) "researchTopic") = true ->
  Js.converts (Js.get_opt (Host.body req) "researchTopic") = true ->
  exists express vercel,
    executions (snd (Server.execute req env Host.start)) = [express]
    /\ executions (snd (Vercel.handler req env Host.start)) = [vercel]
    /\ Forall (fun params =>
                 let given := Js.get_opt (Host.body req) "modelConfigs" in
                 let passed := Js.get_opt params "modelConfigs" in
                 Js.get_opt params "researchTopic"
                 = Js.get_opt (Host.body req) "researchTopic"
                 /\ (Js.truthy given = true -> passed = given)
                 /\ (Js.truthy given = false ->
                     Js.keys passed = ["ollama"]
                     /\ Js.has_key passed "vllm" = false))
         [express; vercel]
    /\ nodup string_dec (Flow.providers Flow.researchToAppFlow) = ["ollama"; "vllm"].
Proof.
  intros Hpost Htopic Hconv.
  eexists. eexists.
  split; [apply (server_execute_params env req Htopic Hconv)|].
  split; [apply (vercel_handler_params env req Hpost Htopic Hconv)|].
  split; [|vm_compute; reflexivity].
  constructor; [|constructor; [|constructor]].
  - apply model_configs_forwarded.
  - apply model_configs_forwarded.
Qed.

Lemma default_model_configs_omit_vllm_witness :
  exists express vercel,
    executions (snd (Server.execute
                       {| Host.method := "POST";
                          Host.body := JObj [("researchTopic", JStr "x")] |}
                       Hosts.working_engine Host.start)) = [express]
    /\ executions (snd (Vercel.handler
                          {| Host.method := "POST";
                             Host.body := JObj [("researchTopic", JStr "x")] |}
                          Hosts.working_engine Host.start)) = [vercel]
    /\ Forall (fun params =>
                 let given := Js.get_opt (JObj [("researchTopic", JStr "x")]) "modelConfigs" in
                 let passed := Js.get_opt params "modelConfigs" in
                 Js.get_opt params "researchTopic"
                 = Js.get_opt (JObj [("researchTopic", JStr "x")]) "researchTopic"
                 /\ (Js.truthy given = true -> passed = given)
                 /\ (Js.truthy given = false ->
                     Js.keys passed = ["ollama"]
                     /\ Js.has_key passed "vllm" = false))
         [express; vercel]
    /\ nodup string_dec (Flow.providers Flow.researchToAppFlow) = ["ollama"; "vllm"].
Proof.
  apply (default_model_configs_omit_vllm Hosts.working_engine
           {| Host.method := "POST"; Host.body := JObj [("researchTopic", JStr "x")] |});
    reflexivity.
Defined.

(** X22. When it reaches [executeWorkflow], that is for a [researchTopic]
    that is truthy and has a string, the Express route passes the [secrets]
    of the request body on (its development defaults when the body has
    none); the Vercel function never does: its secrets are those of the
    process environment, the empty string for a variable that is not
    set. *)
Theorem secrets_come_from_body_or_environment (env : Env) (req : Req) :
  Host.method req = "POST" ->
  Js.truthy (Js.get_opt (Host.body req) "researchTopic") = true ->
  Js.converts (Js.get_opt (Host.body req) "researchTopic") = true ->
  exists express vercel,
    executions (snd (Server.execute req env Host.start)) = [express]
    /\ executions (snd (Vercel.handler req env Host.start)) = [vercel]
    /\ Js.get_opt express "secrets"
       = Js.or (Js.get_opt (Host.body req) "secrets") Server.defaultSecrets
    /\ Js.get_opt vercel "secrets"
       = JObj [("DATABASE_URL", JStr (Js.or_string (environment env "DATABASE_URL") ""));
               ("JWT_SECRET", JStr (Js.or_string (environment env "JWT_SECRET") ""))].
Proof.
  intros Hpost Htopic Hconv.
  eexists. eexists.
  split; [apply (server_execute_params env req Htopic Hconv)|].
  split; [apply (vercel_handler_params env req Hpost Htopic Hconv)|].
  split; reflexivity.
Qed.

Lemma secrets_come_from_body_or_environment_witness :
  exists express vercel,
    executions (snd (Server.execute
                       {| Host.method := "POST";
                          Host.body := JObj [("researchTopic", JStr "x");
                                             ("secrets", JObj [("JWT_SECRET", JStr "s")])] |}
                       Hosts.working_engine Host.start)) = [express]
    /\ executions (snd (Vercel.handler
                          {| Host.method := "POST";
                             Host.body := JObj [("researchTopic", JStr "x");
                                                ("secrets", JObj [("JWT_SECRET", JStr "s")])] |}
                          Hosts.working_engine Host.start)) = [vercel]
    /\ Js.get_opt express "secrets"
       = Js.or (Js.get_opt (JObj [("researchTopic", JStr "x");
                                  ("secrets", JObj [("JWT_SECRET", JStr "s")])]) "secrets")
           Server.defaultSecrets
    /\ Js.get_opt vercel "secrets"
       = JObj [("DATABASE_URL",
                JStr (Js.or_string (environment Hosts.working_engine "DATABASE_URL") ""));
               ("JWT_SECRET",
                JStr (Js.or_string (environment Hosts.working_engine "JWT_SECRET") ""))].
Proof.
  apply (secrets_come_from_body_or_environment Hosts.working_engine
           {| Host.method := "POST";
              Host.body := JObj [("researchTopic", JStr "x");
                                 ("secrets", JObj [("JWT_SECRET", JStr "s")])] |});
    reflexivity.
Defined.

(** ** The route [GET /api/models/status] *)

Lemma probe_describes (env : Env) (s : Server.Service) (t : Trace) :
  exists entry t',
    Server.probe s env t = (inr entry, t')
    /\ requests t' = (requests t ++ [Host.get (Server.url s)])%list
    /\ calls t' = calls t /\ executions t' = executions t /\ console t' = console t
    /\ Hosts.describes env s entry.
Proof.
  unfold Server.probe, Hosts.describes. io_unfold. cbv zeta.
  destruct (network env (Host.get (Server.url s))) as [m|r] eqn:Hnet.
  - eexists. eexists. split; [reflexivity|]. cbn [requests calls executions console].
    split; [reflexivity|]. split; [reflexivity|]. split; [reflexivity|].
    split; [reflexivity|].
    split; [reflexivity|]. split; [reflexivity|].
    split; [right; reflexivity|].
    split; [split; [intros H; discriminate H
                   | intros [r0 [data [H _]]]; discriminate H]|].
    split; [intros m0 H; inversion H; reflexivity|].
    split; [intros r0 m0 H; discriminate H|].
    intros r0 H. discriminate H.
  - destruct (ok r) eqn:Hok.
    + destruct (json r) as [m|data] eqn:Hjson.
      * eexists. eexists. split; [reflexivity|]. cbn [requests calls executions console].
        split; [reflexivity|]. split; [reflexivity|]. split; [reflexivity|].
        split; [reflexivity|].
        split; [reflexivity|]. split; [reflexivity|].
        split; [right; reflexivity|].
        split; [split; [intros H; discriminate H
                       | intros [r0 [data [H [_ Hj]]]]; inversion H; subst; congruence]|].
        split; [intros m0 H; discriminate H|].
        split; [intros r0 m0 H _ Hj; inversion H; subst;
                cbn [Host.message_of]; unfold Js.get_opt; cbn; congruence|].
        intros r0 H Hok0. inversion H; subst. congruence.
      * eexists. eexists. split; [reflexivity|]. cbn [requests calls executions console].
        split; [reflexivity|]. split; [reflexivity|]. split; [reflexivity|].
        split; [reflexivity|].
        split; [reflexivity|]. split; [reflexivity|].
        split; [left; reflexivity|].
        split; [split; [intros _; exists r, data; repeat split; assumption
                       | intros _; reflexivity]|].
        split; [intros m0 H; discriminate H|].
        split; [intros r0 m0 H _ Hj; inversion H; subst; congruence|].
        intros r0 H Hok0. inversion H; subst. congruence.
    + eexists. eexists. split; [reflexivity|]. cbn [requests calls executions console].
      split; [reflexivity|]. split; [reflexivity|]. split; [reflexivity|].
      split; [reflexivity|].
      split; [reflexivity|]. split; [reflexivity|].
      split; [right; reflexivity|].
      split; [split; [intros H; discriminate H
                     | intros [r0 [data [H [Hok0 _]]]]; inversion H; subst; congruence]|].
      split; [intros m0 H; discriminate H|].
      split; [intros r0 m0 H Hok0; inversion H; subst; congruence|].
      intros r0 H _. split; reflexivity.
Qed.

(** X23. The status route never throws and always answers 200 with one
    entry per service, in the order Ollama, vLLM, TGI; it probes all three,
    also after a probe failed.  A service is reported [online] exactly when
    its probe resolves with a 2xx status and a body that parses as JSON: a
    2xx answer with an unreadable body is reported [offline], with the
    parse error. *)
Theorem models_status_always_reports (env : Env) :
  let out := Server.modelsStatus env Host.start in
  exists entries,
    fst out = inr (Server.json 200 (JObj [("services", JArr entries)]))
    /\ requests (snd out) = map (fun s => Host.get (Server.url s)) Server.services
    /\ calls (snd out) = [] /\ console (snd out) = []
    /\ Forall2 (Hosts.describes env) Server.services entries.
Proof.
  cbv zeta.
  assert (Hrun : exists entries t3,
    Server.modelsStatus env Host.start
    = (inr (Server.json 200 (JObj [("services", JArr entries)])), t3)
    /\ requests t3 = map (fun s => Host.get (Server.url s)) Server.services
    /\ calls t3 = [] /\ console t3 = []
    /\ Forall2 (Hosts.describes env) Server.services entries).
  { unfold Server.modelsStatus, Server.services, map_all. unfold Host.bind.
    match goal with
    | |- context [Server.probe ?s env Host.start] =>
        destruct (probe_describes env s Host.start)
          as [e1 [t1 [H1 [Hr1 [Hc1 [He1 [Hl1 D1]]]]]]]; rewrite H1
    end.
    match goal with
    | |- context [Server.probe ?s env t1] =>
        destruct (probe_describes env s t1)
          as [e2 [t2 [H2 [Hr2 [Hc2 [He2 [Hl2 D2]]]]]]]; rewrite H2
    end.
    match goal with
    | |- context [Server.probe ?s env t2] =>
        destruct (probe_describes env s t2)
          as [e3 [t3 [H3 [Hr3 [Hc3 [He3 [Hl3 D3]]]]]]]; rewrite H3
    end.
    exists [e1; e2; e3], t3. unfold Host.ret.
    split; [reflexivity|].
    rewrite Hr3, Hr2, Hr1, Hc3, Hc2, Hc1, Hl3, Hl2, Hl1.
    split; [reflexivity|]. split; [reflexivity|]. split; [reflexivity|].
    constructor; [exact D1|]. constructor; [exact D2|].
    constructor; [exact D3|]. constructor. }
  destruct Hrun as [entries [t3 [Hrun [Hr [Hc [Hl HD]]]]]].
  exists entries. rewrite Hrun. cbn [fst snd].
  repeat split; assumption.
Qed.

(** ** Start-up of the server and of the Vercel function *)

(** X24. The start-up code of the Express server and of the Vercel function
    registers the adapters and then compiles the workflow, and fails
    exactly when [compileWorkflow] throws.  The calls the two handlers make
    for a request are those that [Entry.serverRoute] and [Entry.handler]
    list for it. *)
Theorem startup_and_handlers_follow_entry (env : Env) (req : Req) (path : string) :
  let express := Server.startup env Host.start in
  let vercel := Vercel.startup env Host.start in
  calls (snd express)
  = [Entry.CallRegisterOpenSourceAdapters; Entry.CallCompileWorkflow Flow.researchToAppFlow]
  /\ calls (snd vercel) = calls (snd express)
  /\ (forall e, fst express = inl e <-> compiler env Flow.researchToAppFlow = inl e)
  /\ (forall e, fst vercel = inl e <-> compiler env Flow.researchToAppFlow = inl e)
  /\ calls (snd (Server.execute req env Host.start))
     = Entry.serverRoute
         {| Entry.method := "POST"; Entry.path := "/api/workflows/execute";
            Entry.researchTopic := Js.get_opt (Host.body req) "researchTopic" |}
  /\ calls (snd (Vercel.handler req env Host.start))
     = Entry.handler
         {| Entry.method := Host.method req; Entry.path := path;
            Entry.researchTopic := Js.get_opt (Host.body req) "researchTopic" |}.
Proof.
  cbv zeta. unfold Server.startup, Vercel.startup.
  rewrite !bind_register, !bind_compile.
  split; [destruct (compiler env Flow.researchToAppFlow); reflexivity|].
  split; [destruct (compiler env Flow.researchToAppFlow); reflexivity|].
  split; [intros e; destruct (compiler env Flow.researchToAppFlow); cbn [fst Host.ret];
          split; intros H; inversion H; reflexivity|].
  split; [intros e; destruct (compiler env Flow.researchToAppFlow); cbn [fst Host.ret];
          split; intros H; inversion H; reflexivity|].
  split.
  - rewrite server_execute_calls.
    unfold Entry.serverRoute. cbn [Entry.method Entry.path Entry.researchTopic].
    destruct (Js.truthy (Js.get_opt (Host.body req) "researchTopic")); [|reflexivity].
    destruct (Js.converts (Js.get_opt (Host.body req) "researchTopic")); reflexivity.
  - rewrite vercel_handler_calls.
    unfold Entry.handler. cbn [Entry.method Entry.researchTopic].
    destruct (Host.method req =? "OPTIONS"); [reflexivity|].
    destruct (Host.method req =? "POST"); cbn [negb]; [|reflexivity].
    destruct (Js.truthy (Js.get_opt (Host.body req) "researchTopic")); [|reflexivity].
    destruct (Js.converts (Js.get_opt (Host.body req) "researchTopic")); reflexivity.
Qed.

(** ** The adapters [main] reports *)

(** X25. What [main] logs as the registered adapters, the keys of
    [OPEN_SOURCE_MODELS], are exactly the providers that
    [registerOpenSourceAdapters] registers; and every step of the workflow
    names a model that the table lists for the provider of the step. *)
Theorem reported_adapters_are_registered
    (number_text : Q -> string) (provider : string) :
  (In provider Models.providers
   <-> Engine.registered (OpenSourceLLM.registerOpenSourceAdapters number_text []) provider = true)
  /\ forallb (fun s => Models.lists (Flow.provider (Flow.config s))
                         (Flow.model (Flow.config s)))
       (Flow.steps Flow.researchToAppFlow) = true.
Proof.
  split; [|vm_compute; reflexivity].
  unfold Engine.registered, Models.providers, Models.OPEN_SOURCE_MODELS.
  cbn [map fst OpenSourceLLM.registerOpenSourceAdapters Engine.registerLLMAdapter filter existsb].
  split.
  - intros [<- | [<- | [<- | []]]]; reflexivity.
  - intros H. apply orb_true_iff in H. destruct H as [H|H].
    { apply String.eqb_eq in H. right. right. left. exact H. }
    apply orb_true_iff in H. destruct H as [H|H].
    { apply String.eqb_eq in H. right. left. exact H. }
    apply orb_true_iff in H. destruct H as [H|H]; [|discriminate H].
    apply String.eqb_eq in H. left. exact H.
Qed.

(** ** The simulated progress of the browser client *)

Lemma tick_stopped (s : Client.Progress) :
  Client.running s = false -> Client.tick s = s.
Proof. intros H. unfold Client.tick. rewrite H. reflexivity. Qed.

Lemma iter_stopped (k : nat) (s : Client.Progress) :
  Client.running s = false -> Nat.iter k Client.tick s = s.
Proof.
  intros H. induction k as [|k IH]; [reflexivity|].
  change (Nat.iter (S k) Client.tick s) with (Client.tick (Nat.iter k Client.tick s)).
  rewrite IH. apply tick_stopped. exact H.
Qed.

Lemma after_nine (n : nat) : (9 <= n)%nat -> Client.after n = Client.after 9.
Proof.
  intros Hn. unfold Client.after.
  replace n with ((n - 9) + 9)%nat by lia.
  rewrite Nat.iter_add. apply iter_stopped. vm_compute. reflexivity.
Qed.

(** X26. The client simulates the progress on its own: the steps it shows
    are the ids of [researchToAppFlow] in their order of declaration; after
    [n] periods, [n] up to 8, it has appended the blocks of the first [n]
    steps and the bar stands at [n] eighths; the ninth period clears the
    interval, with the bar at 100 and the text of completion, and nothing
    changes afterwards.  The bar never passes 100. *)
Theorem simulated_progress (n : nat) :
  let s := Client.after n in
  Client.steps = Flow.step_ids Flow.researchToAppFlow
  /\ Client.results s
     = map (fun stepId => Client.block (Client.stepName_of stepId))
         (firstn n (Flow.step_ids Flow.researchToAppFlow))
  /\ ((n <= 8)%nat -> Client.running s = true /\ Client.currentStep s = n)
  /\ ((1 <= n <= 8)%nat ->
      exists w, Client.width s = Some w
                /\ (w == inject_Z (Z.of_nat n) * 12.5)%Q /\ (w <= 100)%Q)
  /\ ((9 <= n)%nat ->
      Client.running s = false /\ Client.width s = Some 100%Q
      /\ Client.text s = Some (Some "✅ Workflow completed!")
      /\ Client.tick s = s).
Proof.
  cbv zeta.
  destruct (Nat.le_gt_cases 9 n) as [Hbig|Hsmall].
  - rewrite (after_nine n Hbig).
    replace (firstn n (Flow.step_ids Flow.researchToAppFlow))
      with (Flow.step_ids Flow.researchToAppFlow)
      by (symmetry; apply firstn_all2; vm_compute; lia).
    split; [vm_compute; reflexivity|].
    split; [vm_compute; reflexivity|].
    split; [intros H; lia|].
    split; [intros H; lia|].
    intros _. repeat split; vm_compute; reflexivity.
  - do 9 (destruct n as [|n];
          [split; [vm_compute; reflexivity|];
           split; [vm_compute; reflexivity|];
           split; [intros _; split; vm_compute; reflexivity|];
           split; [intros H; first [lia | eexists; split;
                     [vm_compute; reflexivity
                     | split; [vm_compute; reflexivity
                              | vm_compute; intros Hgt; discriminate Hgt]]]|];
           intros H; lia|]).
    lia.
Qed.

Lemma simulated_progress_witness :
  Client.running (Client.after 9) = false
  /\ Client.width (Client.after 9) = Some 100%Q
  /\ Client.text (Client.after 9) = Some (Some "✅ Workflow completed!")
  /\ Client.tick (Client.after 9) = Client.after 9.
Proof.
  apply (proj2 (proj2 (proj2 (proj2 (simulated_progress 9))))). lia.
Defined.

(** ** The route [POST /api/models/:provider/test] *)

(** X27. Whatever [:provider] is, the test route probes the Ollama API: it
    sends at most one request, a POST of the model [llama3:8b] to the
    string of [config.baseUrl] followed by [/api/generate].  With a body to
    destructure it always answers, 200 or 500.  A [baseUrl] that has no
    string, such as an object with a property [toString] of its own, is
    answered with 500 and nothing is sent.  Otherwise the answer to a
    backend that resolves with a readable body is a 200 that repeats the
    backend's status and [ok] flag, so a backend error is reported inside
    a successful answer. *)
Theorem test_route_probes_ollama
    (number_text : Q -> string) (provider : string) (env : Env) (req : Req) :
  Host.body req <> JUndefined -> Host.body req <> JNull ->
  let out := Server.testModel number_text provider req env Host.start in
  let baseUrl := Js.get_opt (Js.get_opt (Host.body req) "config") "baseUrl" in
  let sent := Server.testRequest (Js.text number_text baseUrl) in
  out = Server.testModel number_text "ollama" req env Host.start
  /\ (exists reply, fst out = inr reply /\ (code reply = 200 \/ code reply = 500)%nat)
  /\ (requests (snd out) = [] \/ requests (snd out) = [sent])
  /\ (forall s, baseUrl = JStr s -> Http.url sent = s ++ "/api/generate")
  /\ Js.get_opt (Http.body sent) "model" = JStr "llama3:8b"
  /\ (Js.converts baseUrl = false \/ hides_toString baseUrl ->
      requests (snd out) = []
      /\ fst out
         = inr (Server.json 500
                  (JObj [("success", JBool false);
                         ("error", JStr "Cannot convert object to primitive value")])))
  /\ (forall r data,
        Js.nullish (Js.get_opt (Host.body req) "config") = false ->
        Js.converts baseUrl = true ->
        network env sent = Resolved r -> json r = inr data -> Js.nullish data = false ->
        fst out
        = inr (Server.json 200
                 (JObj [("success", JBool (ok r));
                        ("response", Js.get_opt data "response");
                        ("status", JNum (inject_Z (Z.of_nat (status r))))]))).
Proof.
  intros Hundef Hnull. cbv zeta.
  assert (Hbody : Js.nullish (Host.body req) = false).
  { destruct (Host.body req); try reflexivity; congruence. }
  unfold Server.testModel. rewrite (destructure_present _ _ _ Hbody).
  split; [reflexivity|].
  split; [|split; [|split; [intros s0 ->; reflexivity|split; [reflexivity|]]]].
  - io_unfold. cbn [Host.ret]. unfold Js.to_string.
    destruct (Js.get (Js.get_opt (Host.body req) "config") "baseUrl") as [e|baseUrl];
      [eexists; split; [reflexivity | right; reflexivity]|].
    destruct (Js.converts baseUrl); cbn [fst snd];
      [|eexists; split; [reflexivity | right; reflexivity]].
    destruct (network env _) as [m|r]; cbn [fst snd];
      [eexists; split; [reflexivity | right; reflexivity]|].
    destruct (json r) as [m|data]; cbn [fst snd];
      [eexists; split; [reflexivity | right; reflexivity]|].
    destruct (Js.get data "response") as [e|text]; cbn [fst snd];
      eexists; split; try reflexivity; auto.
  - io_unfold. cbn [Host.ret]. unfold Js.to_string.
    destruct (Js.get (Js.get_opt (Host.body req) "config") "baseUrl") as [e|baseUrl] eqn:Hget;
      [left; reflexivity|].
    rewrite (get_inr _ _ _ Hget).
    destruct (Js.converts baseUrl); cbn [fst snd]; [|left; reflexivity].
    cbn [Host.start requests app].
    destruct (network env _) as [m|r]; cbn [fst snd]; [right; reflexivity|].
    destruct (json r) as [m|data]; cbn [fst snd]; [right; reflexivity|].
    destruct (Js.get data "response") as [e|text]; cbn [fst snd]; right; reflexivity.
  - split.
    + intros Hno.
      assert (Hconv : Js.converts (Js.get_opt (Js.get_opt (Host.body req) "config")
                                     "baseUrl") = false).
      { destruct Hno as [H|H]; [exact H | apply converts_hides_toString; exact H]. }
      assert (Hconfig : Js.nullish (Js.get_opt (Host.body req) "config") = false).
      { destruct (Js.get_opt (Host.body req) "config"); try reflexivity;
          discriminate Hconv. }
      io_unfold. cbn [Host.ret]. unfold Js.to_string.
      rewrite (get_non_nullish _ _ Hconfig), Hconv. split; reflexivity.
    + intros r data Hconfig Hconv Hnet Hjson Hdata.
      io_unfold. cbn [Host.ret]. unfold Js.to_string.
      rewrite (get_non_nullish _ _ Hconfig), Hconv. cbn [fst snd].
      rewrite Hnet. cbn [fst snd]. rewrite Hjson. cbn [fst snd].
      rewrite (get_non_nullish _ _ Hdata). reflexivity.
Qed.

(** A backend that answers 503 with a JSON body; an address that is an
    object with a [toString] of its own. *)
Lemma test_route_probes_ollama_witness :
  fst (Server.testModel Sample.number_text "vllm"
         {| Host.method := "POST";
            Host.body := JObj [("config", JObj [("baseUrl", JStr "http://gpu:8000")])] |}
         Hosts.overloaded Host.start)
  = inr (Server.json 200
           (JObj [("success", JBool false);
                  ("response", JUndefined);
                  ("status", JNum 503)]))
  /\ requests (snd (Server.testModel Sample.number_text "vllm"
                      {| Host.method := "POST";
                         Host.body :=
                           JObj [("config",
                                  JObj [("baseUrl", JObj [("toString", JNum 1)])])] |}
                      Hosts.overloaded Host.start)) = [].
Proof.
  split.
  - pose proof (test_route_probes_ollama Sample.number_text "vllm" Hosts.overloaded
                  {| Host.method := "POST";
                     Host.body :=
                       JObj [("config", JObj [("baseUrl", JStr "http://gpu:8000")])] |})
      as H.
    cbv zeta in H.
    destruct H as [_ [_ [_ [_ [_ [_ H]]]]]]; try discriminate.
    apply (H {| status := 503; statusText := "Service Unavailable";
                json := inr (JObj [("error", JStr "overloaded")]) |}
             (JObj [("error", JStr "overloaded")])); reflexivity.
  - pose proof (test_route_probes_ollama Sample.number_text "vllm" Hosts.overloaded
                  {| Host.method := "POST";
                     Host.body :=
                       JObj [("config",
                              JObj [("baseUrl", JObj [("toString", JNum 1)])])] |})
      as H.
    cbv zeta in H.
    destruct H as [_ [_ [_ [_ [_ [H _]]]]]]; try discriminate.
    apply H. right. exists [("toString", JNum 1)]. split; [reflexivity | discriminate].
Defined.

(** X28. The test route is the one handler that can throw: its
    destructuring of [req.body] stands before the [try], so a request
    without a body makes the handler fail without an answer and without a
    request sent. *)
Theorem test_route_needs_a_body
    (number_text : Q -> string) (provider : string) (env : Env) (req : Req) :
  Host.body req = JUndefined \/ Host.body req = JNull ->
  exists message,
    Server.testModel number_text provider req env Host.start
    = (inl (RaisedError message []), Host.start).
Proof.
  intros [Hbody | Hbody]; unfold Server.testModel; rewrite Hbody;
    eexists; reflexivity.
Qed.

Lemma test_route_needs_a_body_witness :
  exists message,
    Server.testModel Sample.number_text "ollama"
      {| Host.method := "POST"; Host.body := JUndefined |} Hosts.overloaded Host.start
    = (inl (RaisedError message []), Host.start).
Proof.
  apply (test_route_needs_a_body Sample.number_text "ollama" Hosts.overloaded
           {| Host.method := "POST"; Host.body := JUndefined |}).
  left. reflexivity.
Defined.

(** ** The whole command line run *)




